(** * Volume-discount rule engine: parser, per-line selector, rule-store merge

    Shallow embedding of the decision logic of the discount app:

    - [Admin]: [parseRule] / [parseRules] of the admin routes (the create
      route and the edit route carry textually identical copies) and the
      [updatedRules] expression each action persists;
    - [Extension]: [parseRule], [parseDiscountRules] and
      [cartLinesDiscountsGenerateRun] of the cart function
      (extensions/buy-2-get-free/src/cart_lines_discounts_generate_run.ts).

    The host language is kept visible: untyped JSON-shaped values, [typeof],
    truthiness, property reads that throw on [null] / [undefined], and the
    IEEE comparison rules for [NaN] and the infinities. *)

From Stdlib Require Import QArith Lqa Ascii.
From stdpp Require Import base option list strings gmap.

Local Open Scope string_scope.
Local Open Scope list_scope.
Local Set Warnings "-register-all".

(** ** The host language *)

Module Js.

(** A JS Number as far as this code can observe it.  The code never does
    arithmetic: it only tests finiteness and compares.  Comparison of two
    finite doubles is comparison of their exact values, so a finite value
    is carried as the rational it denotes; [-0] and [+0] are both [Fin 0]
    (no operation here tells them apart). *)
Inductive number : Type :=
| NaN
| Infinity (negative : bool)
| Fin (q : Q).

(** [Number.isFinite] *)
Definition isFinite (n : number) : bool :=
  match n with Fin _ => true | _ => false end.

(** [a < b]: false as soon as one side is [NaN]. *)
Definition lt (a b : number) : bool :=
  match a, b with
  | NaN, _ | _, NaN => false
  | Fin x, Fin y => negb (Qle_bool y x)
  | Infinity true, Infinity true => false
  | Infinity true, _ => true
  | _, Infinity true => false
  | Infinity false, _ => false
  | Fin _, Infinity false => true
  end.

(** [a > b] *)
Definition gt (a b : number) : bool := lt b a.

(** [a <= b] (used on the specification side only). *)
Definition le (a b : number) : bool :=
  match a, b with
  | NaN, _ | _, NaN => false
  | Fin x, Fin y => Qle_bool x y
  | Infinity true, _ => true
  | _, Infinity false => true
  | _, _ => false
  end.

(** [a === b] on numbers: [NaN] differs from itself. *)
Definition strict_eq (a b : number) : bool :=
  match a, b with
  | Fin x, Fin y => Qeq_bool x y
  | Infinity s, Infinity t => Bool.eqb s t
  | _, _ => false
  end.

(** A value as it comes out of a JSON document, plus [undefined] for what
    is missing. *)
Inductive JsValue : Type :=
| JUndefined
| JNull
| JBool (b : bool)
| JNum (n : number)
| JStr (s : string)
| JArr (elements : list JsValue)
| JObj (properties : list (string * JsValue)).

Definition typeof (v : JsValue) : string :=
  match v with
  | JUndefined => "undefined"
  | JNull | JArr _ | JObj _ => "object"
  | JBool _ => "boolean"
  | JNum _ => "number"
  | JStr _ => "string"
  end.

(** Truthiness ([!v] is [negb (ToBoolean v)]). *)
Definition ToBoolean (v : JsValue) : bool :=
  match v with
  | JUndefined | JNull => false
  | JBool b => b
  | JNum NaN => false
  | JNum (Fin q) => negb (Qeq_bool q 0)
  | JNum (Infinity _) => true
  | JStr s => negb (String.eqb s "")
  | JArr _ | JObj _ => true
  end.

Definition isArray (v : JsValue) : bool :=
  match v with JArr _ => true | _ => false end.

Inductive JsError : Type := TypeError | SyntaxError.

(** Outcome of evaluating an expression: a value, or a thrown error. *)
Inductive Completion (A : Type) : Type :=
| Normal (a : A)
| Throw (e : JsError).
Global Arguments Normal {A} a.
Global Arguments Throw {A} e.

Global Instance Completion_ret : MRet Completion := @Normal.
Global Instance Completion_bind : MBind Completion :=
  fun A B f m => match m with Normal a => f a | Throw e => Throw e end.

Fixpoint own_property (key : string) (properties : list (string * JsValue))
  : JsValue :=
  match properties with
  | [] => JUndefined
  | (k, v) :: rest => if String.eqb k key then v else own_property key rest
  end.

(** [v.key] for the keys this code reads ([percentOff], [products],
    [minQty], [discountId], [rules]): a [TypeError] on [undefined] and
    [null], the own property of an object, [undefined] on everything else
    (none of these keys is an array index, [length], or on a prototype). *)
Definition get (v : JsValue) (key : string) : Completion JsValue :=
  match v with
  | JUndefined | JNull => Throw TypeError
  | JObj properties => Normal (own_property key properties)
  | _ => Normal JUndefined
  end.

(** [array.filter(Boolean)] over the results of a nullable-returning
    function: [null] is dropped, records are kept. *)
Fixpoint filterBoolean {A : Type} (l : list (option A)) : list A :=
  match l with
  | [] => []
  | None :: rest => filterBoolean rest
  | Some a :: rest => a :: filterBoolean rest
  end.

(** [array.map(f)] for an [f] that may throw: left to right, the first
    throw aborts. *)
Fixpoint mapM {A B : Type} (f : A -> Completion B) (l : list A)
  : Completion (list B) :=
  match l with
  | [] => Normal []
  | a :: rest => b ← f a; bs ← mapM f rest; mret (b :: bs)
  end.

(** [(id): id is string => typeof id === "string" && id.length > 0] *)
Definition isNonEmptyString (id : JsValue) : bool :=
  String.eqb (typeof id) "string"
  && match id with JStr s => Nat.ltb 0 (String.length s) | _ => false end.

(** The strings of an array already filtered by [isNonEmptyString]. *)
Fixpoint strings_of (l : list JsValue) : list string :=
  match l with
  | [] => []
  | JStr s :: rest => s :: strings_of rest
  | _ :: rest => strings_of rest
  end.

Section Builtins.
(** [Number(s)] on a string is the builtin StringToNumber.  The empty
    string denotes [+0]; the value of every other string (white space,
    literals, rounding to a double) is left to [StringNumericValue]. *)
Variable StringNumericValue : string -> number.

Definition Number (s : string) : number :=
  if String.eqb s "" then Fin 0 else StringNumericValue s.

(** [typeof v === "number" ? v : typeof v === "string" ? Number(v) : NaN] *)
Definition coerceNumber (v : JsValue) : number :=
  match v with
  | JNum n => n
  | JStr s => Number s
  | _ => NaN
  end.
End Builtins.

End Js.
Import Js.

(** ** Admin routes: the stored-rule parser and the rule-store merge *)

Module Admin.

Record DiscountRule : Type := {
  discountId : option string;   (* discountId?: string *)
  percentOff : number;
  products : list string;
  minQty : number;
}.

(** Truthiness and [!==] on a [string | undefined]. *)
Definition truthy (id : option string) : bool :=
  match id with
  | Some s => negb (String.eqb s "")
  | None => false
  end.

Definition strict_neq (a b : option string) : bool :=
  match a, b with
  | Some s, Some t => negb (String.eqb s t)
  | None, None => false
  | _, _ => true
  end.

Section Parser.
Variable StringNumericValue : string -> number.
(** [JSON.parse]: the decoded value, or a thrown [SyntaxError]. *)
Variable JSON_parse : string -> Completion JsValue.

Definition parseRule (raw : JsValue) : Completion (option DiscountRule) :=
  if negb (ToBoolean raw) || negb (String.eqb (typeof raw) "object")
  then mret None
  else
    rawPercent ← get raw "percentOff";
    let percentOff := coerceNumber StringNumericValue rawPercent in
    if negb (isFinite percentOff) then mret None
    else
      rawProducts ← get raw "products";
      match rawProducts with
      | JArr elements =>
          let products := strings_of (List.filter isNonEmptyString elements) in
          rawMinQty ← get raw "minQty";
          let minQty := coerceNumber StringNumericValue rawMinQty in
          if negb (isFinite minQty) || lt minQty (Fin 2) then mret None
          else
            rawDiscountId ← get raw "discountId";
            let discountId :=
              match rawDiscountId with
              | JStr s => Some s
              | _ => None
              end in
            mret (Some {| discountId := discountId;
                          percentOff := percentOff;
                          products := products;
                          minQty := minQty |})
      | _ => mret None
      end.

Definition parseRules (raw : JsValue) : Completion (list DiscountRule) :=
  match
    (match raw with
     | JStr text =>
         match JSON_parse text with
         | Normal decoded => inl decoded
         | Throw _ => inr []            (* catch { return []; } *)
         end
     | _ => inl raw
     end)
  with
  | inr result => mret result
  | inl raw =>
      if negb (ToBoolean raw) || negb (String.eqb (typeof raw) "object")
      then mret []
      else
        rulesValue ← get raw "rules";
        match rulesValue with
        | JArr elements =>
            parsed ← mapM parseRule elements;
            mret (filterBoolean parsed)
        | _ =>
            legacyRule ← parseRule raw;
            mret (match legacyRule with Some rule => [rule] | None => [] end)
        end
  end.
End Parser.

(** The rule set the create action persists (runs only after
    [if (!discountId) return ...], so [discountId] is a string there). *)
Definition updatedRules (existingRules : list DiscountRule)
    (discountId : string) (products : list string) (percentOff : number)
  : list DiscountRule :=
  List.filter
    (fun rule => negb (truthy rule.(Admin.discountId))
                 || strict_neq rule.(Admin.discountId) (Some discountId))
    existingRules
  ++ [ {| discountId := Some discountId;
          products := products;
          minQty := Fin 2;
          percentOff := percentOff |} ].

(** String helpers of [normalizeDiscountIds]: [s.includes(part)],
    [s.split("/").pop()] and [/^\d+$/.test(s)]. *)
Fixpoint includes (part s : string) : bool :=
  String.prefix part s
  || match s with
     | EmptyString => false
     | String _ rest => includes part rest
     end.

Fixpoint lastSegment (s : string) : string :=
  match s with
  | EmptyString => EmptyString
  | String c rest =>
      if includes "/" rest then lastSegment rest
      else if Ascii.eqb c "/"%char then rest
      else s
  end.

Definition isDigit (c : ascii) : bool :=
  (48 <=? nat_of_ascii c)%nat && (nat_of_ascii c <=? 57)%nat.

Fixpoint allDigits (s : string) : bool :=
  match s with
  | EmptyString => true
  | String c rest => isDigit c && allDigits rest
  end.

(** The edit route's [normalizeDiscountIds(params.id)]; the pair is
    [(discountNodeId, updateId)].  [decodeURIComponent] is the builtin and
    may throw. *)
Definition normalizeDiscountIds
    (decodeURIComponent : string -> Completion string)
    (rawId : option string) : Completion (option string * option string) :=
  if negb (truthy rawId) then mret (None, None)
  else
    decoded ← decodeURIComponent (default "" rawId);
    if String.prefix "gid://" decoded then
      if includes "/DiscountNode/" decoded
      then mret (Some decoded, Some decoded)
      else if includes "/DiscountAutomaticApp/" decoded then
        let numeric := lastSegment decoded in
        mret (Some (if negb (String.eqb numeric "")
                    then "gid://shopify/DiscountNode/" +:+ numeric
                    else decoded),
              Some decoded)
      else mret (Some decoded, Some decoded)
    else if negb (String.eqb decoded "") && allDigits decoded then
      mret (Some ("gid://shopify/DiscountNode/" +:+ decoded),
            Some ("gid://shopify/DiscountAutomaticApp/" +:+ decoded))
    else mret (Some decoded, Some decoded).

(** [discountNodeId ?? updateId] *)
Definition nullish (a b : option string) : option string :=
  match a with Some _ => a | None => b end.

(** The rule set the edit action persists; [discountNodeId] and [updateId]
    are the two [string | undefined] results of [normalizeDiscountIds]. *)
Definition updatedRules_edit (existingRules : list DiscountRule)
    (discountNodeId updateId : option string)
    (products : list string) (percentOff : number)
  : list DiscountRule :=
  List.filter
    (fun rule => negb (truthy rule.(Admin.discountId))
                 || (if truthy discountNodeId
                     then strict_neq rule.(Admin.discountId) discountNodeId
                     else strict_neq rule.(Admin.discountId) updateId))
    existingRules
  ++ [ {| discountId := nullish discountNodeId updateId;
          products := products;
          minQty := Fin 2;
          percentOff := percentOff |} ].

End Admin.

(** ** Cart function: the evaluation-side parser and the per-line selector *)

Module Extension.

Record DiscountRule : Type := {
  percentOff : number;
  products : list string;
  minQty : number;
}.

(** [line.merchandise]: a product variant carries [product.id]; a custom
    product has no [product] key. *)
Inductive Merchandise : Type :=
| ProductVariant (product_id : string)
| CustomProduct.

(** A cart line of the generated input type; [quantity] is the schema's
    integer scalar. *)
Record CartLine : Type := {
  id : string;
  quantity : Z;
  merchandise : Merchandise;
}.

(** [input.cart.lines] and [input.shop?.metafield?.jsonValue] ([None] when
    the shop has no such metafield, which reads as [undefined]). *)
Record CartInput : Type := {
  lines : list CartLine;
  jsonValue : option JsValue;
}.

Record Candidate : Type := {
  cartLine_id : string;          (* targets: [{ cartLine: { id } }] *)
  percentage_value : number;     (* value: { percentage: { value } } *)
}.

(** Only the member the function names. *)
Inductive ProductDiscountSelectionStrategy : Type := All.

Inductive CartOperation : Type :=
| productDiscountsAdd (selectionStrategy : ProductDiscountSelectionStrategy)
                      (candidates : list Candidate).

Record CartLinesDiscountsGenerateRunResult : Type := {
  operations : list CartOperation;
}.

(** [products.includes(id)] *)
Definition includes (products : list string) (id : string) : bool :=
  existsb (String.eqb id) products.

Definition ofInt (z : Z) : number := Fin (inject_Z z).

Section Run.
Variable StringNumericValue : string -> number.
Variable JSON_parse : string -> Completion JsValue.

Definition parseRule (raw : JsValue) : Completion (option DiscountRule) :=
  if negb (ToBoolean raw) || negb (String.eqb (typeof raw) "object")
  then mret None
  else
    percentOffValue ← get raw "percentOff";
    let percentOff := coerceNumber StringNumericValue percentOffValue in
    if negb (isFinite percentOff) || lt percentOff (Fin 1)
       || gt percentOff (Fin 80)
    then mret None
    else
      productsValue ← get raw "products";
      match productsValue with
      | JArr elements =>
          let products := strings_of (List.filter isNonEmptyString elements) in
          if Nat.eqb (length products) 0 then mret None
          else
            minQtyValue ← get raw "minQty";
            let minQty := coerceNumber StringNumericValue minQtyValue in
            if negb (isFinite minQty) || lt minQty (Fin 2) then mret None
            else mret (Some {| percentOff := percentOff;
                               products := products;
                               minQty := minQty |})
      | _ => mret None
      end.

Definition parseDiscountRules (input : CartInput)
  : Completion (list DiscountRule) :=
  let raw := match input.(jsonValue) with Some v => v | None => JUndefined end in
  match
    (match raw with
     | JStr text =>
         match JSON_parse text with
         | Normal decoded => inl decoded
         | Throw _ => inr []            (* catch { return []; } *)
         end
     | _ => inl raw
     end)
  with
  | inr result => mret result
  | inl raw =>
      if negb (ToBoolean raw) || negb (String.eqb (typeof raw) "object")
      then mret []
      else
        rulesValue ← get raw "rules";
        match rulesValue with
        | JArr elements =>
            parsed ← mapM parseRule elements;
            mret (filterBoolean parsed)
        | _ =>
            legacyRule ← parseRule raw;
            mret (match legacyRule with Some rule => [rule] | None => [] end)
        end
  end.
End Run.

(** One turn of [for (const rule of rules)] for a line of the given
    quantity and product. *)
Definition bestPercent_step (line_quantity : Z) (product_id : string)
    (bestPercent : number) (rule : DiscountRule) : number :=
  if lt (ofInt line_quantity) rule.(minQty) then bestPercent
  else if negb (includes rule.(products) product_id) then bestPercent
  else if gt rule.(percentOff) bestPercent then rule.(percentOff)
  else bestPercent.

(** [let bestPercent = 0; for (...) {...}] *)
Definition bestPercentOf (rules : list DiscountRule) (line_quantity : Z)
    (product_id : string) : number :=
  fold_left (bestPercent_step line_quantity product_id) rules (Fin 0).

(** The [filter] callback: its verdict and the map it leaves behind. *)
Definition keepLine (rules : list DiscountRule)
    (linePercentMap : gmap string number) (line : CartLine)
  : bool * gmap string number :=
  match line.(merchandise) with
  | CustomProduct => (false, linePercentMap)
  | ProductVariant product_id =>
      let bestPercent := bestPercentOf rules line.(quantity) product_id in
      if strict_eq bestPercent (Fin 0) then (false, linePercentMap)
      else (true, <[line.(id) := bestPercent]> linePercentMap)
  end.

(** [lines.filter(callback)]: the callback runs on every line, in order,
    against the one shared map, before any [map] callback runs. *)
Fixpoint filterLines (rules : list DiscountRule) (cart_lines : list CartLine)
    (linePercentMap : gmap string number)
  : list CartLine * gmap string number :=
  match cart_lines with
  | [] => ([], linePercentMap)
  | line :: rest =>
      let '(keep, linePercentMap) := keepLine rules linePercentMap line in
      let '(kept, linePercentMap) := filterLines rules rest linePercentMap in
      (if keep then line :: kept else kept, linePercentMap)
  end.

(** The [map] callback: [linePercentMap.get(line.id) ?? 0]. *)
Definition toCandidate (linePercentMap : gmap string number) (line : CartLine)
  : Candidate :=
  {| cartLine_id := line.(id);
     percentage_value := default (Fin 0) (linePercentMap !! line.(id)) |}.

Definition candidatesOf (rules : list DiscountRule)
    (cart_lines : list CartLine) : list Candidate :=
  let '(kept, linePercentMap) := filterLines rules cart_lines ∅ in
  List.map (toCandidate linePercentMap) kept.

Definition cartLinesDiscountsGenerateRun
    (StringNumericValue : string -> number)
    (JSON_parse : string -> Completion JsValue) (input : CartInput)
  : Completion CartLinesDiscountsGenerateRunResult :=
  rules ← parseDiscountRules StringNumericValue JSON_parse input;
  if Nat.eqb (length rules) 0 then mret {| operations := [] |}
  else
    let candidates := candidatesOf rules input.(lines) in
    mret {| operations :=
              if Nat.eqb (length candidates) 0 then []
              else [productDiscountsAdd All candidates] |}.

End Extension.

(** ** Vocabulary of the specification

    The words the specification uses for inputs and outcomes, defined once
    so that the statements below can be read against its text. *)

Module Spec.

(** Step 1 of the rule-set parser: a textual input is decoded first. *)
Definition decoded (JSON_parse : string -> Completion JsValue)
    (raw : JsValue) : Completion JsValue :=
  match raw with
  | JStr text => JSON_parse text
  | _ => Normal raw
  end.

(** The raw value the cart function reads from its input. *)
Definition rawOf (input : Extension.CartInput) : JsValue :=
  match input.(Extension.jsonValue) with Some v => v | None => JUndefined end.

(** A structured value: an object or a sequence. *)
Definition isStructured (v : JsValue) : bool :=
  match v with
  | JObj _ | JArr _ => true
  | _ => false
  end.

(** The [rules] field of a decoded value ([undefined] when it has none). *)
Definition rulesField (v : JsValue) : JsValue :=
  match v with
  | JObj props => own_property "rules" props
  | _ => JUndefined
  end.

(** The inputs listed as yielding the empty sequence: undecodable text, a
    decoded value that is not a structured object, or one that validates
    as neither a rules-array object nor a legacy single rule. *)
Definition yieldsNothing {A : Type} (decoding : Completion JsValue)
    (validator : JsValue -> Completion (option A)) : Prop :=
  match decoding with
  | Throw _ => True
  | Normal v =>
      isStructured v = false
      \/ (isArray (rulesField v) = false /\ validator v = Normal None)
  end.

(** [discountId] is passed through only if it is textual. *)
Definition textual (v : JsValue) : option string :=
  match v with
  | JStr s => Some s
  | _ => None
  end.

(** The entries of a products sequence that are kept. *)
Definition validProducts (elements : list JsValue) : list string :=
  strings_of (List.filter isNonEmptyString elements).

(** Stand-ins for the two builtins, for evaluating the parsers on inputs
    that hold no numeric string and no JSON text. *)
Definition noNumericStrings : string -> number := fun _ => NaN.
Definition noJsonText : string -> Completion JsValue :=
  fun _ => Throw SyntaxError.

(** An existing rule is tied to discount [id]: it has a [discountId] and
    that identifier is [id]. *)
Definition tiedTo (id : string) (rule : Admin.DiscountRule) : bool :=
  match rule.(Admin.discountId) with
  | Some s => String.eqb s id
  | None => false
  end.

(** The rule the upsert writes for discount [id]. *)
Definition upserted (id : string) (products : list string)
    (percentOff : number) : Admin.DiscountRule :=
  {| Admin.discountId := Some id;
     Admin.products := products;
     Admin.minQty := Fin 2;
     Admin.percentOff := percentOff |}.

(** A rule is a candidate for a line of quantity [q] on product [pid]:
    [minQty <= q], the product is listed, and [percentOff] is finite and
    within [1, 80]. *)
Definition candidate (q : Z) (pid : string) (rule : Extension.DiscountRule)
  : bool :=
  le rule.(Extension.minQty) (Extension.ofInt q)
  && Extension.includes rule.(Extension.products) pid
  && isFinite rule.(Extension.percentOff)
  && le (Fin 1) rule.(Extension.percentOff)
  && le rule.(Extension.percentOff) (Fin 80).

Definition candidates (rules : list Extension.DiscountRule) (q : Z)
    (pid : string) : list Extension.DiscountRule :=
  List.filter (candidate q pid) rules.

(** [p] is the maximum [percentOff] among [cands], taken from the first
    rule (in rule order) that reaches it. *)
Definition firstMaximum (p : number) (cands : list Extension.DiscountRule)
  : Prop :=
  exists before rule after,
    cands = before ++ rule :: after
    /\ rule.(Extension.percentOff) = p
    /\ Forall (fun r => lt r.(Extension.percentOff) p = true) before
    /\ Forall (fun r => le r.(Extension.percentOff) p = true) after.

(** What the evaluation-side validator guarantees of a rule it returns. *)
Definition validated (rule : Extension.DiscountRule) : Prop :=
  isFinite rule.(Extension.percentOff) = true
  /\ le (Fin 1) rule.(Extension.percentOff) = true
  /\ le rule.(Extension.percentOff) (Fin 80) = true
  /\ rule.(Extension.products) <> []
  /\ isFinite rule.(Extension.minQty) = true
  /\ le (Fin 2) rule.(Extension.minQty) = true.

(** What the selector owes a cart line, read on the output entries that
    target it: nothing for a line without a product reference or without
    a candidate rule, otherwise one entry carrying the first maximum of
    the candidates' [percentOff]. *)
Definition lineOutcome (rules : list Extension.DiscountRule)
    (line : Extension.CartLine) (entries : list Extension.Candidate) : Prop :=
  match line.(Extension.merchandise) with
  | Extension.CustomProduct => entries = []
  | Extension.ProductVariant pid =>
      let cands := candidates rules line.(Extension.quantity) pid in
      (cands = [] -> entries = [])
      /\ (cands <> [] ->
          exists p,
            firstMaximum p cands
            /\ entries = [ {| Extension.cartLine_id := line.(Extension.id);
                              Extension.percentage_value := p |} ])
  end.

(** The two overlapping rules of the specification's example, the stored
    rule set holding both, and a cart with one line of product P1. *)
Definition ruleA : JsValue :=
  JObj [("percentOff", JNum (Fin 10));
        ("products", JArr [JStr "P1"]);
        ("minQty", JNum (Fin 2))].
Definition ruleB : JsValue :=
  JObj [("percentOff", JNum (Fin 25));
        ("products", JArr [JStr "P1"]);
        ("minQty", JNum (Fin 3))].
Definition cartOfP1 (q : Z) : Extension.CartInput :=
  {| Extension.lines :=
       [ {| Extension.id := "gid://shopify/CartLine/1";
            Extension.quantity := q;
            Extension.merchandise := Extension.ProductVariant "P1" |} ];
     Extension.jsonValue := Some (JObj [("rules", JArr [ruleA; ruleB])]) |}.

(** The operations wrapper around a list of per-line candidates. *)
Definition operationsOf (out : list Extension.Candidate)
  : list Extension.CartOperation :=
  match out with
  | [] => []
  | _ => [Extension.productDiscountsAdd Extension.All out]
  end.

(** The entries of an output that target the line [id]. *)
Definition entriesFor (id : string) (out : list Extension.Candidate)
  : list Extension.Candidate :=
  List.filter (fun c => String.eqb c.(Extension.cartLine_id) id) out.

End Spec.

(** ** The stored document *)

Module Store.

(** [JSON.stringify] of a number: a non-finite number is written [null]. *)
Definition jsonNumber (n : number) : JsValue :=
  if isFinite n then JNum n else JNull.

(** The JSON value of one rule object as [JSON.stringify] writes it: a
    [discountId] that is [undefined] is left out.  (Keys are read back by
    name, so their order in the text plays no part.) *)
Definition ruleJson (rule : Admin.DiscountRule) : JsValue :=
  JObj ((match rule.(Admin.discountId) with
         | Some id => [("discountId", JStr id)]
         | None => []
         end)
        ++ [("percentOff", jsonNumber rule.(Admin.percentOff));
            ("products", JArr (List.map JStr rule.(Admin.products)));
            ("minQty", jsonNumber rule.(Admin.minQty))]).

(** [JSON.stringify({ rules: updatedRules })], as the JSON value that text
    denotes (what the shop metafield's [jsonValue] holds afterwards). *)
Definition metafieldValue (updatedRules : list Admin.DiscountRule) : JsValue :=
  JObj [("rules", JArr (List.map ruleJson updatedRules))].

(** What the admin parser returns for a rule written that way: nothing
    when a number was not finite or [minQty] is below 2, otherwise the
    rule with its empty product entries dropped. *)
Definition readBack (rule : Admin.DiscountRule) : option Admin.DiscountRule :=
  if negb (isFinite rule.(Admin.percentOff)) then None
  else if negb (isFinite rule.(Admin.minQty))
          || lt rule.(Admin.minQty) (Fin 2) then None
  else Some {| Admin.discountId := rule.(Admin.discountId);
               Admin.percentOff := rule.(Admin.percentOff);
               Admin.products :=
                 List.filter (fun id => negb (String.eqb id ""))
                   rule.(Admin.products);
               Admin.minQty := rule.(Admin.minQty) |}.

(** A rule that is read back as it was written. *)
Definition storable (rule : Admin.DiscountRule) : Prop :=
  isFinite rule.(Admin.percentOff) = true
  /\ isFinite rule.(Admin.minQty) = true
  /\ lt rule.(Admin.minQty) (Fin 2) = false
  /\ Forall (fun id => id <> "") rule.(Admin.products).

(** What the cart function keeps of a rule the admin parser returns:
    nothing outside 1..80 or without a product, otherwise the rule without
    its [discountId]. *)
Definition toEvaluation (rule : Admin.DiscountRule)
  : option Extension.DiscountRule :=
  if lt rule.(Admin.percentOff) (Fin 1) || gt rule.(Admin.percentOff) (Fin 80)
  then None
  else if Nat.eqb (length rule.(Admin.products)) 0 then None
  else Some {| Extension.percentOff := rule.(Admin.percentOff);
               Extension.products := rule.(Admin.products);
               Extension.minQty := rule.(Admin.minQty) |}.

(** A percentage the cart function may emit. *)
Definition inRange (percent : number) : Prop :=
  isFinite percent = true
  /\ le (Fin 1) percent = true /\ le percent (Fin 80) = true.

End Store.

(** ** Admin routes: the edit loader and the two actions

    The requests to the shop are not modelled; what each one answers is an
    input, and the mutations an action sends are its first output, in the
    order sent. *)

Module Routes.

Record DiscountConfig : Type := {
  percentOff : number;
  products : list string;
  minQty : number;
}.

(** [{ percentOff: 10, products: [], minQty: 2 }] *)
Definition defaultConfig : DiscountConfig :=
  {| percentOff := Fin 10; products := []; minQty := Fin 2 |}.

(** [rule.discountId === id] for a string [id]. *)
Definition strict_eq_id (discountId : option string) (id : string) : bool :=
  match discountId with
  | Some s => String.eqb s id
  | None => false
  end.

(** [rules.find(...) ?? (rules.length === 1 && !rules[0]?.discountId
    ? rules[0] : undefined)] *)
Definition matchedRule (rules : list Admin.DiscountRule)
    (params_id discountNodeId : string) : option Admin.DiscountRule :=
  match
    List.find (fun rule => strict_eq_id rule.(Admin.discountId) params_id
                           || strict_eq_id rule.(Admin.discountId)
                                discountNodeId)
      rules
  with
  | Some rule => Some rule
  | None =>
      if Nat.eqb (length rules) 1
         && negb (Admin.truthy (rule ← head rules; rule.(Admin.discountId)))
      then head rules
      else None
  end.

Definition configOf (matched : option Admin.DiscountRule) : DiscountConfig :=
  match matched with
  | Some rule => {| percentOff := rule.(Admin.percentOff);
                    products := rule.(Admin.products);
                    minQty := rule.(Admin.minQty) |}
  | None => defaultConfig
  end.

(** What the edit loader answers, without the product list and the title
    (two other queries, passed through as they come). *)
Record LoaderData : Type := {
  loader_status : nat;
  config : DiscountConfig;
}.

Section Loader.
Variable decodeURIComponent : string -> Completion string.
Variable StringNumericValue : string -> number.
Variable JSON_parse : string -> Completion JsValue.

(** [loader] of the edit route; [jsonValue] is the shop query's
    [data?.shop?.metafield?.jsonValue]. *)
Definition editLoader (params_id : option string) (jsonValue : option JsValue)
  : Completion LoaderData :=
  if negb (Admin.truthy params_id)
  then mret {| loader_status := 400; config := defaultConfig |}
  else
    ids ← Admin.normalizeDiscountIds decodeURIComponent params_id;
    let discountNodeId := ids.1 in
    if negb (Admin.truthy discountNodeId)
    then mret {| loader_status := 400; config := defaultConfig |}
    else
      rules ← Admin.parseRules StringNumericValue JSON_parse
                (default JUndefined jsonValue);
      mret {| loader_status := 200;
              config := configOf (matchedRule rules (default "" params_id)
                                    (default "" discountNodeId)) |}.
End Loader.

(** The form fields echoed with a validation error. *)
Record Fields : Type := {
  title : string;
  fields_percentOff : string;
  fields_products : list string;
}.

(** What an action answers: [data({ errors, fields }, { status })], a
    redirect, or [data({ success: true })]. *)
Inductive ActionData : Type :=
| errorData (status : nat) (errors : list string) (fields : option Fields)
| redirect (url : string)
| successData.

(** The mutations an action sends; [metafieldsSet] carries the owner and
    the JSON value of the text written. *)
Inductive Mutation : Type :=
| discountAutomaticAppCreate (title functionId : string)
| discountAutomaticAppUpdate (id title : string)
| metafieldsSet (ownerId : string) (value : JsValue).

(** The three checks both actions start with, in the order their messages
    are pushed. *)
Definition formErrors (title : string) (percentOff : number)
    (products : list string) : list string :=
  (if String.eqb title "" then ["Title is required."] else [])
  ++ (if negb (isFinite percentOff) || lt percentOff (Fin 1)
         || gt percentOff (Fin 80)
      then ["Percent off must be between 1 and 80."] else [])
  ++ (if Nat.eqb (length products) 0
      then ["Select at least one product."] else []).

(** [payload?.userErrors] and [payload?.automaticAppDiscount?.discountId]
    of the create mutation's answer. *)
Record CreatePayload : Type := {
  userErrors : list string;
  discountId : option string;
}.

(** [data?.shop?.id] and [data?.shop?.metafield?.jsonValue] of the shop
    query's answer. *)
Record ShopData : Type := {
  shop_id : option string;
  shop_jsonValue : option JsValue;
}.

Section Actions.
Variable decodeURIComponent : string -> Completion string.
Variable encodeURIComponent : string -> string.
Variable StringNumericValue : string -> number.
Variable JSON_parse : string -> Completion JsValue.

(** [action] of the create route.  [title] and [percentOffRaw] are the
    trimmed form strings, [products] the string entries of the form,
    [functionId] the route parameter; [payload], [shop] and
    [metafieldsErrors] are what the three requests answer. *)
Definition createAction (title percentOffRaw : string)
    (products : list string) (functionId : option string)
    (payload : option CreatePayload) (shop : ShopData)
    (metafieldsErrors : list string)
  : Completion (list Mutation * ActionData) :=
  let percentOff := Number StringNumericValue percentOffRaw in
  let functionId := default "" functionId in
  let errors :=
    formErrors title percentOff products
    ++ (if String.eqb functionId ""
        then ["Missing function ID in route parameters."] else []) in
  let fields := {| title := title;
                   fields_percentOff := percentOffRaw;
                   fields_products := products |} in
  if negb (Nat.eqb (length errors) 0)
  then mret ([], errorData 400 errors (Some fields))
  else
    let sent := [discountAutomaticAppCreate title functionId] in
    if negb (Nat.eqb (length (default [] (userErrors <$> payload))) 0)
    then mret (sent, errorData 400 (default [] (userErrors <$> payload))
                       (Some fields))
    else
      let discountId := payload ≫= discountId in
      if negb (Admin.truthy discountId)
      then mret (sent, errorData 500
                         ["Discount created, but no ID was returned."] None)
      else
        existingRules ← Admin.parseRules StringNumericValue JSON_parse
                          (default JUndefined shop.(shop_jsonValue));
        if negb (Admin.truthy shop.(shop_id))
        then mret (sent, errorData 500 ["Unable to resolve shop ID."] None)
        else
          let updatedRules :=
            Admin.updatedRules existingRules (default "" discountId)
              products percentOff in
          let sent :=
            sent ++ [metafieldsSet (default "" shop.(shop_id))
                       (Store.metafieldValue updatedRules)] in
          if negb (Nat.eqb (length metafieldsErrors) 0)
          then mret (sent, errorData 400 metafieldsErrors (Some fields))
          else mret (sent,
                     redirect ("/app/discount/" +:+ functionId +:+ "/"
                               +:+ encodeURIComponent (default "" discountId))).

(** [action] of the edit route; [updateErrors] is
    [updatePayload?.userErrors] of the update mutation's answer. *)
Definition editAction (title percentOffRaw : string)
    (products : list string) (params_id : option string)
    (shop : ShopData) (updateErrors : list string)
    (metafieldsErrors : list string)
  : Completion (list Mutation * ActionData) :=
  let percentOff := Number StringNumericValue percentOffRaw in
  ids ← Admin.normalizeDiscountIds decodeURIComponent params_id;
  let discountNodeId := ids.1 in
  let updateId := ids.2 in
  let errors :=
    formErrors title percentOff products
    ++ (if negb (Admin.truthy updateId)
        then ["Missing discount ID in route parameters."] else []) in
  let fields := {| title := title;
                   fields_percentOff := percentOffRaw;
                   fields_products := products |} in
  if negb (Nat.eqb (length errors) 0)
  then mret ([], errorData 400 errors (Some fields))
  else
    existingRules ← Admin.parseRules StringNumericValue JSON_parse
                      (default JUndefined shop.(shop_jsonValue));
    if negb (Admin.truthy shop.(shop_id))
    then mret ([], errorData 500 ["Unable to resolve shop ID."] None)
    else
      let sent := [discountAutomaticAppUpdate (default "" updateId) title] in
      if negb (Nat.eqb (length updateErrors) 0)
      then mret (sent, errorData 400 updateErrors (Some fields))
      else
        let updatedRules :=
          Admin.updatedRules_edit existingRules discountNodeId updateId
            products percentOff in
        let sent :=
          sent ++ [metafieldsSet (default "" shop.(shop_id))
                     (Store.metafieldValue updatedRules)] in
        if negb (Nat.eqb (length metafieldsErrors) 0)
        then mret (sent, errorData 400 metafieldsErrors (Some fields))
        else mret (sent, successData).
End Actions.

End Routes.

(** ** The product picker of the two forms *)

Module Picker.

(** The checkbox handler:
    [checked ? [...current, product.id]
             : current.filter((id) => id !== product.id)] *)
Definition onChange (current : list string) (product_id : string)
    (checked : bool) : list string :=
  if checked then current ++ [product_id]
  else List.filter (fun id => negb (String.eqb id product_id)) current.

(** [checked={selectedProducts.includes(product.id)}] *)
Definition isChecked (selectedProducts : list string) (product_id : string)
  : bool :=
  existsb (String.eqb product_id) selectedProducts.

End Picker.

(** ** Stand-ins for builtins, for evaluating the routes on examples *)

Module StandIn.

Fixpoint digitsValue (acc : Z) (s : string) : option Z :=
  match s with
  | EmptyString => Some acc
  | String c rest =>
      if Admin.isDigit c
      then digitsValue (10 * acc + (Z.of_nat (nat_of_ascii c) - 48)) rest
      else None
  end.

(** The numeric value of a string of decimal digits, [NaN] for any other
    string (the builtin reads more than that; the examples do not). *)
Definition decimal (s : string) : number :=
  match digitsValue 0 s with
  | Some z => Fin (inject_Z z)
  | None => NaN
  end.

(** [decodeURIComponent] and [encodeURIComponent] on strings that need no
    escape. *)
Definition noEscape (s : string) : Completion string := Normal s.
Definition unescaped (s : string) : string := s.

End StandIn.

(** ** Host-language facts *)

Section NumberFacts.

Lemma isFinite_Fin (n : number) :
  isFinite n = true -> exists q, n = Fin q.
Proof. destruct n; simpl; intros H; try discriminate; eauto. Qed.

Lemma lt_Fin (x y : Q) : lt (Fin x) (Fin y) = true <-> (x < y)%Q.
Proof.
  simpl. rewrite negb_true_iff. split.
  - intros H. apply Qnot_le_lt. intros Hle.
    apply Qle_bool_iff in Hle. congruence.
  - intros H. destruct (Qle_bool y x) eqn:E; [|reflexivity].
    apply Qle_bool_iff in E. exfalso. apply (Qlt_not_le _ _ H E).
Qed.

Lemma le_Fin (x y : Q) : le (Fin x) (Fin y) = true <-> (x <= y)%Q.
Proof. simpl. apply Qle_bool_iff. Qed.

Lemma lt_Fin_false (x y : Q) : lt (Fin x) (Fin y) = false <-> (y <= x)%Q.
Proof.
  simpl. rewrite negb_false_iff. apply Qle_bool_iff.
Qed.

(** On finite numbers [!(a < b)] is [b <= a]. *)
Lemma lt_false_le (a b : number) :
  isFinite a = true -> isFinite b = true ->
  negb (lt a b) = le b a.
Proof.
  intros [x ->]%isFinite_Fin [y ->]%isFinite_Fin. simpl.
  apply negb_involutive.
Qed.

Lemma strict_eq_Fin (x y : Q) : strict_eq (Fin x) (Fin y) = true <-> (x == y)%Q.
Proof. simpl. apply Qeq_bool_iff. Qed.

End NumberFacts.

(** ** The single-rule validators *)

#[local] Arguments lt : simpl never.
#[local] Arguments le : simpl never.
#[local] Arguments gt : simpl never.
#[local] Arguments strict_eq : simpl never.
#[local] Arguments isFinite : simpl never.

(** The kept product entries are exactly the non-empty strings of the
    sequence, in order. *)
Lemma validProducts_spec (elements : list JsValue) (s : string) :
  In s (Spec.validProducts elements) <-> In (JStr s) elements /\ s <> "".
Proof.
  unfold Spec.validProducts.
  induction elements as [|v rest IH]; simpl; [tauto|].
  destruct v as [| |b|n|t|es|ps]; simpl; try (rewrite IH; clear IH;
    split; [intros [H1 H2]; split; [right|]; assumption
           | intros [[H|H] H2]; [discriminate|split; assumption]]).
  destruct t as [|c t']; simpl.
  - rewrite IH. split.
    + intros [H1 H2]; split; [right|]; assumption.
    + intros [[H|H] H2]; [congruence|split; assumption].
  - rewrite IH. split.
    + intros [<-|[H1 H2]]; [split; [left; reflexivity|discriminate]|].
      split; [right|]; assumption.
    + intros [[[= <-]|H] H2]; [left; reflexivity|right; split; assumption].
Qed.

Section ValidatorFacts.
Variable StringNumericValue : string -> number.
Local Abbreviation coerce := (coerceNumber StringNumericValue).

Lemma Admin_parseRule_total (raw : JsValue) :
  exists r, Admin.parseRule StringNumericValue raw = Normal r.
Proof.
  unfold Admin.parseRule.
  destruct raw as [| |b|n|s|elements|props]; simpl; eauto;
    repeat case_match; eauto.
Qed.

Lemma Extension_parseRule_total (raw : JsValue) :
  exists r, Extension.parseRule StringNumericValue raw = Normal r.
Proof.
  unfold Extension.parseRule.
  destruct raw as [| |b|n|s|elements|props]; simpl; eauto;
    repeat case_match; eauto.
Qed.

(** Only an object can pass either validator. *)
Lemma Admin_parseRule_not_object (raw : JsValue) :
  (forall props, raw <> JObj props) ->
  Admin.parseRule StringNumericValue raw = Normal None.
Proof.
  intros Hne. unfold Admin.parseRule.
  destruct raw as [| |b|n|s|elements|props]; simpl; try reflexivity;
    try (repeat case_match; reflexivity).
  destruct (Hne props eq_refl).
Qed.

Lemma Extension_parseRule_not_object (raw : JsValue) :
  (forall props, raw <> JObj props) ->
  Extension.parseRule StringNumericValue raw = Normal None.
Proof.
  intros Hne. unfold Extension.parseRule.
  destruct raw as [| |b|n|s|elements|props]; simpl; try reflexivity;
    try (repeat case_match; reflexivity).
  destruct (Hne props eq_refl).
Qed.

(** The admin validator on an object, one guard after the other. *)
Lemma Admin_parseRule_percent_not_finite (props : list (string * JsValue)) :
  isFinite (coerce (own_property "percentOff" props)) = false ->
  Admin.parseRule StringNumericValue (JObj props) = Normal None.
Proof. intros H. unfold Admin.parseRule. simpl. rewrite H. reflexivity. Qed.

Lemma Admin_parseRule_products_not_array (props : list (string * JsValue)) :
  isArray (own_property "products" props) = false ->
  Admin.parseRule StringNumericValue (JObj props) = Normal None.
Proof.
  intros H. unfold Admin.parseRule. simpl.
  destruct (isFinite _); simpl; [|reflexivity].
  destruct (own_property "products" props); try reflexivity. discriminate.
Qed.

Lemma Admin_parseRule_minQty_rejected (props : list (string * JsValue)) :
  isFinite (coerce (own_property "minQty" props)) = false
  \/ lt (coerce (own_property "minQty" props)) (Fin 2) = true ->
  Admin.parseRule StringNumericValue (JObj props) = Normal None.
Proof.
  intros H. unfold Admin.parseRule. simpl.
  destruct (isFinite (coerce (own_property "percentOff" props)));
    simpl; [|reflexivity].
  destruct (own_property "products" props); try reflexivity. simpl.
  destruct H as [-> | ->]; simpl; [reflexivity|].
  rewrite orb_true_r. reflexivity.
Qed.

Lemma Admin_parseRule_accepts (props : list (string * JsValue))
    (elements : list JsValue) :
  isFinite (coerce (own_property "percentOff" props)) = true ->
  own_property "products" props = JArr elements ->
  isFinite (coerce (own_property "minQty" props)) = true ->
  lt (coerce (own_property "minQty" props)) (Fin 2) = false ->
  Admin.parseRule StringNumericValue (JObj props)
  = Normal (Some {|
      Admin.discountId := Spec.textual (own_property "discountId" props);
      Admin.percentOff := coerce (own_property "percentOff" props);
      Admin.products := Spec.validProducts elements;
      Admin.minQty := coerce (own_property "minQty" props) |}).
Proof.
  intros Hp Hprod Hm Hlt. unfold Admin.parseRule. simpl.
  rewrite Hp. simpl. rewrite Hprod. simpl. rewrite Hm, Hlt. reflexivity.
Qed.

Lemma Admin_parseRule_Some (raw : JsValue) (rule : Admin.DiscountRule) :
  Admin.parseRule StringNumericValue raw = Normal (Some rule) ->
  exists props elements,
    raw = JObj props
    /\ own_property "products" props = JArr elements
    /\ isFinite (coerce (own_property "percentOff" props)) = true
    /\ isFinite (coerce (own_property "minQty" props)) = true
    /\ lt (coerce (own_property "minQty" props)) (Fin 2) = false
    /\ rule = {|
         Admin.discountId := Spec.textual (own_property "discountId" props);
         Admin.percentOff := coerce (own_property "percentOff" props);
         Admin.products := Spec.validProducts elements;
         Admin.minQty := coerce (own_property "minQty" props) |}.
Proof.
  unfold Admin.parseRule.
  destruct raw as [| |b|n|s|elements|props]; simpl; try discriminate;
    try (repeat case_match; discriminate).
  destruct (isFinite (coerce (own_property "percentOff" props))) eqn:Hp;
    simpl; [|discriminate].
  destruct (own_property "products" props) as [| | | | |elements|] eqn:Hprod;
    simpl; try discriminate.
  destruct (isFinite (coerce (own_property "minQty" props))) eqn:Hm;
    simpl; [|discriminate].
  destruct (lt (coerce (own_property "minQty" props)) (Fin 2)) eqn:Hlt;
    simpl; [discriminate|].
  intros [= <-]. exists props, elements. repeat split; auto.
Qed.

(** The evaluation-side validator on an object. *)
Lemma Extension_parseRule_percent_rejected (props : list (string * JsValue)) :
  isFinite (coerce (own_property "percentOff" props)) = false
  \/ lt (coerce (own_property "percentOff" props)) (Fin 1) = true
  \/ gt (coerce (own_property "percentOff" props)) (Fin 80) = true ->
  Extension.parseRule StringNumericValue (JObj props) = Normal None.
Proof.
  intros H. unfold Extension.parseRule. simpl.
  destruct H as [-> | [-> | ->]]; simpl; rewrite ?orb_true_r; reflexivity.
Qed.

Lemma Extension_parseRule_products_not_array (props : list (string * JsValue)) :
  isArray (own_property "products" props) = false ->
  Extension.parseRule StringNumericValue (JObj props) = Normal None.
Proof.
  intros H. unfold Extension.parseRule. simpl.
  destruct (_ || _); simpl; [reflexivity|].
  destruct (own_property "products" props); try reflexivity. discriminate.
Qed.

Lemma Extension_parseRule_no_valid_product (props : list (string * JsValue))
    (elements : list JsValue) :
  own_property "products" props = JArr elements ->
  Spec.validProducts elements = [] ->
  Extension.parseRule StringNumericValue (JObj props) = Normal None.
Proof.
  intros Hprod Hnil. unfold Extension.parseRule. simpl.
  destruct (_ || _); simpl; [reflexivity|].
  rewrite Hprod. simpl. fold (Spec.validProducts elements).
  rewrite Hnil. reflexivity.
Qed.

Lemma Extension_parseRule_minQty_rejected (props : list (string * JsValue)) :
  isFinite (coerce (own_property "minQty" props)) = false
  \/ lt (coerce (own_property "minQty" props)) (Fin 2) = true ->
  Extension.parseRule StringNumericValue (JObj props) = Normal None.
Proof.
  intros H. unfold Extension.parseRule. simpl.
  destruct (_ || _); simpl; [reflexivity|].
  destruct (own_property "products" props); try reflexivity. simpl.
  destruct (Nat.eqb _ 0); simpl; [reflexivity|].
  destruct H as [-> | ->]; simpl; [reflexivity|].
  rewrite orb_true_r. reflexivity.
Qed.

Lemma Extension_parseRule_accepts (props : list (string * JsValue))
    (elements : list JsValue) :
  isFinite (coerce (own_property "percentOff" props)) = true ->
  lt (coerce (own_property "percentOff" props)) (Fin 1) = false ->
  gt (coerce (own_property "percentOff" props)) (Fin 80) = false ->
  own_property "products" props = JArr elements ->
  Spec.validProducts elements <> [] ->
  isFinite (coerce (own_property "minQty" props)) = true ->
  lt (coerce (own_property "minQty" props)) (Fin 2) = false ->
  Extension.parseRule StringNumericValue (JObj props)
  = Normal (Some {|
      Extension.percentOff := coerce (own_property "percentOff" props);
      Extension.products := Spec.validProducts elements;
      Extension.minQty := coerce (own_property "minQty" props) |}).
Proof.
  intros Hp Hlo Hhi Hprod Hne Hm Hlt. unfold Extension.parseRule.
  simpl. rewrite Hp, Hlo, Hhi. simpl. rewrite Hprod. simpl.
  fold (Spec.validProducts elements).
  destruct (Spec.validProducts elements) eqn:E; [congruence|]. simpl.
  rewrite Hm, Hlt. reflexivity.
Qed.

Lemma Extension_parseRule_Some (raw : JsValue) (rule : Extension.DiscountRule) :
  Extension.parseRule StringNumericValue raw = Normal (Some rule) ->
  exists props elements,
    raw = JObj props
    /\ own_property "products" props = JArr elements
    /\ isFinite (coerce (own_property "percentOff" props)) = true
    /\ lt (coerce (own_property "percentOff" props)) (Fin 1) = false
    /\ gt (coerce (own_property "percentOff" props)) (Fin 80) = false
    /\ Spec.validProducts elements <> []
    /\ isFinite (coerce (own_property "minQty" props)) = true
    /\ lt (coerce (own_property "minQty" props)) (Fin 2) = false
    /\ rule = {|
         Extension.percentOff := coerce (own_property "percentOff" props);
         Extension.products := Spec.validProducts elements;
         Extension.minQty := coerce (own_property "minQty" props) |}.
Proof.
  unfold Extension.parseRule.
  destruct raw as [| |b|n|s|elements|props]; simpl; try discriminate;
    try (repeat case_match; discriminate).
  destruct (isFinite (coerce (own_property "percentOff" props))) eqn:Hp;
    simpl; [|discriminate].
  destruct (lt (coerce (own_property "percentOff" props)) (Fin 1)) eqn:Hlo;
    simpl; [discriminate|].
  destruct (gt (coerce (own_property "percentOff" props)) (Fin 80)) eqn:Hhi;
    simpl; [discriminate|].
  destruct (own_property "products" props) as [| | | | |elements|] eqn:Hprod;
    simpl; try discriminate.
  fold (Spec.validProducts elements).
  destruct (Spec.validProducts elements) as [|s0 l0] eqn:E;
    simpl; [discriminate|].
  destruct (isFinite (coerce (own_property "minQty" props))) eqn:Hm;
    simpl; [|discriminate].
  destruct (lt (coerce (own_property "minQty" props)) (Fin 2)) eqn:Hlt;
    simpl; [discriminate|].
  intros [= <-]. exists props, elements. rewrite E. repeat split; auto.
Qed.

End ValidatorFacts.

(** ** The rule-set parsers *)

Section SequenceFacts.
Context {A B : Type}.

Lemma mapM_Normal (f : A -> Completion B) (l : list A) :
  (forall a, exists b, f a = Normal b) ->
  exists bs, mapM f l = Normal bs /\ Forall2 (fun a b => f a = Normal b) l bs.
Proof.
  intros Hf. induction l as [|a rest [bs [Hbs Hall]]]; simpl.
  - exists []. split; [reflexivity|constructor].
  - destruct (Hf a) as [b Hb]. exists (b :: bs).
    rewrite Hb. simpl. rewrite Hbs. simpl. split; [reflexivity|].
    constructor; assumption.
Qed.

Lemma filterBoolean_In (l : list (option A)) (a : A) :
  In a (filterBoolean l) <-> In (Some a) l.
Proof.
  induction l as [|[x|] rest IH]; simpl; [tauto| |].
  - rewrite IH. split; intros [H|H]; auto; left; congruence.
  - rewrite IH. split; [auto|]. intros [H|H]; [discriminate|assumption].
Qed.

End SequenceFacts.

Section RuleSetFacts.
Variable StringNumericValue : string -> number.
Variable JSON_parse : string -> Completion JsValue.
Local Abbreviation coerce := (coerceNumber StringNumericValue).
Local Abbreviation admin_parseRule := (Admin.parseRule StringNumericValue).
Local Abbreviation admin_parseRules :=
  (Admin.parseRules StringNumericValue JSON_parse).
Local Abbreviation parseRule := (Extension.parseRule StringNumericValue).
Local Abbreviation parseDiscountRules :=
  (Extension.parseDiscountRules StringNumericValue JSON_parse).

(** Both rule-set parsers go through the same four outcomes of decoding;
    [by_decoding] replaces the raw input by what it decodes to. *)
Ltac by_decoding raw H :=
  destruct raw; simpl in H; try discriminate H;
  try (injection H as ->); try rewrite H; simpl; try reflexivity.

Lemma Admin_parseRules_undecodable (raw : JsValue) (e : JsError) :
  Spec.decoded JSON_parse raw = Throw e ->
  admin_parseRules raw = Normal [].
Proof. intros H. unfold Admin.parseRules. by_decoding raw H. Qed.

Lemma Admin_parseRules_not_structured (raw v : JsValue) :
  Spec.decoded JSON_parse raw = Normal v ->
  Spec.isStructured v = false ->
  admin_parseRules raw = Normal [].
Proof.
  intros H Hv. unfold Admin.parseRules.
  destruct v; try discriminate Hv; by_decoding raw H;
    rewrite ?orb_true_r; reflexivity.
Qed.

Lemma Admin_parseRules_array (raw : JsValue) (elements : list JsValue) :
  Spec.decoded JSON_parse raw = Normal (JArr elements) ->
  admin_parseRules raw = Normal [].
Proof. intros H. unfold Admin.parseRules. by_decoding raw H. Qed.

Lemma Admin_parseRules_wrapped (raw : JsValue)
    (props : list (string * JsValue)) (elements : list JsValue) :
  Spec.decoded JSON_parse raw = Normal (JObj props) ->
  own_property "rules" props = JArr elements ->
  admin_parseRules raw
  = (parsed ← mapM admin_parseRule elements; mret (filterBoolean parsed)).
Proof.
  intros H Hrules. unfold Admin.parseRules.
  by_decoding raw H; rewrite Hrules; reflexivity.
Qed.

Lemma Admin_parseRules_legacy (raw : JsValue)
    (props : list (string * JsValue)) :
  Spec.decoded JSON_parse raw = Normal (JObj props) ->
  isArray (own_property "rules" props) = false ->
  admin_parseRules raw
  = (legacyRule ← admin_parseRule (JObj props);
     mret (match legacyRule with Some rule => [rule] | None => [] end)).
Proof.
  intros H Hrules. unfold Admin.parseRules.
  by_decoding raw H;
    destruct (own_property "rules" props); try discriminate Hrules;
    reflexivity.
Qed.

Lemma parseDiscountRules_undecodable (input : Extension.CartInput)
    (e : JsError) :
  Spec.decoded JSON_parse (Spec.rawOf input) = Throw e ->
  parseDiscountRules input = Normal [].
Proof.
  intros H. unfold Extension.parseDiscountRules. fold (Spec.rawOf input).
  by_decoding (Spec.rawOf input) H.
Qed.

Lemma parseDiscountRules_not_structured (input : Extension.CartInput)
    (v : JsValue) :
  Spec.decoded JSON_parse (Spec.rawOf input) = Normal v ->
  Spec.isStructured v = false ->
  parseDiscountRules input = Normal [].
Proof.
  intros H Hv. unfold Extension.parseDiscountRules. fold (Spec.rawOf input).
  destruct v; try discriminate Hv; by_decoding (Spec.rawOf input) H;
    rewrite ?orb_true_r; reflexivity.
Qed.

Lemma parseDiscountRules_array (input : Extension.CartInput)
    (elements : list JsValue) :
  Spec.decoded JSON_parse (Spec.rawOf input) = Normal (JArr elements) ->
  parseDiscountRules input = Normal [].
Proof.
  intros H. unfold Extension.parseDiscountRules. fold (Spec.rawOf input).
  by_decoding (Spec.rawOf input) H.
Qed.

Lemma parseDiscountRules_wrapped (input : Extension.CartInput)
    (props : list (string * JsValue)) (elements : list JsValue) :
  Spec.decoded JSON_parse (Spec.rawOf input) = Normal (JObj props) ->
  own_property "rules" props = JArr elements ->
  parseDiscountRules input
  = (parsed ← mapM parseRule elements; mret (filterBoolean parsed)).
Proof.
  intros H Hrules. unfold Extension.parseDiscountRules. fold (Spec.rawOf input).
  by_decoding (Spec.rawOf input) H; rewrite Hrules; reflexivity.
Qed.

Lemma parseDiscountRules_legacy (input : Extension.CartInput)
    (props : list (string * JsValue)) :
  Spec.decoded JSON_parse (Spec.rawOf input) = Normal (JObj props) ->
  isArray (own_property "rules" props) = false ->
  parseDiscountRules input
  = (legacyRule ← parseRule (JObj props);
     mret (match legacyRule with Some rule => [rule] | None => [] end)).
Proof.
  intros H Hrules. unfold Extension.parseDiscountRules. fold (Spec.rawOf input).
  by_decoding (Spec.rawOf input) H;
    destruct (own_property "rules" props); try discriminate Hrules;
    reflexivity.
Qed.

End RuleSetFacts.

(** ** Totality of the rule-set parsers *)

Section Totality.
Variable StringNumericValue : string -> number.
Variable JSON_parse : string -> Completion JsValue.
Local Abbreviation admin_parseRule := (Admin.parseRule StringNumericValue).
Local Abbreviation admin_parseRules :=
  (Admin.parseRules StringNumericValue JSON_parse).
Local Abbreviation parseRule := (Extension.parseRule StringNumericValue).
Local Abbreviation parseDiscountRules :=
  (Extension.parseDiscountRules StringNumericValue JSON_parse).

Lemma Admin_parseRules_returns (raw : JsValue) :
  exists rules, admin_parseRules raw = Normal rules.
Proof.
  destruct (Spec.decoded JSON_parse raw) as [v|e] eqn:Hdec.
  - destruct v as [| |b|n|s|elements|props].
    1-5: exists []; eapply Admin_parseRules_not_structured; eauto.
    + exists []. eapply Admin_parseRules_array; eauto.
    + destruct (own_property "rules" props) as [| | | | |elements|] eqn:Hr.
      6: { rewrite (Admin_parseRules_wrapped _ _ _ _ _ Hdec Hr).
           destruct (mapM_Normal admin_parseRule elements
                       (Admin_parseRule_total StringNumericValue))
             as [parsed [-> _]].
           simpl. eauto. }
      all: rewrite (Admin_parseRules_legacy _ _ _ _ Hdec);
        [|rewrite Hr; reflexivity];
        destruct (Admin_parseRule_total StringNumericValue (JObj props))
          as [r ->]; simpl; eauto.
  - exists []. eapply Admin_parseRules_undecodable; eauto.
Qed.

Lemma parseDiscountRules_returns (input : Extension.CartInput) :
  exists rules, parseDiscountRules input = Normal rules.
Proof.
  destruct (Spec.decoded JSON_parse (Spec.rawOf input)) as [v|e] eqn:Hdec.
  - destruct v as [| |b|n|s|elements|props].
    1-5: exists []; eapply parseDiscountRules_not_structured; eauto.
    + exists []. eapply parseDiscountRules_array; eauto.
    + destruct (own_property "rules" props) as [| | | | |elements|] eqn:Hr.
      6: { rewrite (parseDiscountRules_wrapped _ _ _ _ _ Hdec Hr).
           destruct (mapM_Normal parseRule elements
                       (Extension_parseRule_total StringNumericValue))
             as [parsed [-> _]].
           simpl. eauto. }
      all: rewrite (parseDiscountRules_legacy _ _ _ _ Hdec);
        [|rewrite Hr; reflexivity];
        destruct (Extension_parseRule_total StringNumericValue (JObj props))
          as [r ->]; simpl; eauto.
  - exists []. eapply parseDiscountRules_undecodable; eauto.
Qed.

Lemma Admin_parseRules_nothing (raw : JsValue) :
  Spec.yieldsNothing (Spec.decoded JSON_parse raw) admin_parseRule ->
  admin_parseRules raw = Normal [].
Proof.
  unfold Spec.yieldsNothing.
  destruct (Spec.decoded JSON_parse raw) as [v|e] eqn:Hdec.
  - intros [Hv | [Hrules Hnone]].
    + eapply Admin_parseRules_not_structured; eauto.
    + destruct v as [| |b|n|s|elements|props];
        try (eapply Admin_parseRules_not_structured; eauto; reflexivity).
      * eapply Admin_parseRules_array; eauto.
      * rewrite (Admin_parseRules_legacy _ _ _ _ Hdec Hrules), Hnone.
        reflexivity.
  - intros _. eapply Admin_parseRules_undecodable; eauto.
Qed.

Lemma parseDiscountRules_nothing (input : Extension.CartInput) :
  Spec.yieldsNothing (Spec.decoded JSON_parse (Spec.rawOf input)) parseRule ->
  parseDiscountRules input = Normal [].
Proof.
  unfold Spec.yieldsNothing.
  destruct (Spec.decoded JSON_parse (Spec.rawOf input)) as [v|e] eqn:Hdec.
  - intros [Hv | [Hrules Hnone]].
    + eapply parseDiscountRules_not_structured; eauto.
    + destruct v as [| |b|n|s|elements|props];
        try (eapply parseDiscountRules_not_structured; eauto; reflexivity).
      * eapply parseDiscountRules_array; eauto.
      * rewrite (parseDiscountRules_legacy _ _ _ _ Hdec Hrules), Hnone.
        reflexivity.
  - intros _. eapply parseDiscountRules_undecodable; eauto.
Qed.

(** C5.  Both rule-set parsers (the admin routes' [parseRules] and the cart
    function's [parseDiscountRules]) return a sequence of rules on every
    input and never raise; on undecodable text, on a decoded value that is
    not a structured object, and on a value that validates as neither a
    rules-array object nor a legacy single rule, that sequence is empty. *)
Theorem parseRuleSet_total :
  (forall raw, exists rules, admin_parseRules raw = Normal rules)
  /\ (forall input, exists rules, parseDiscountRules input = Normal rules)
  /\ (forall raw,
        Spec.yieldsNothing (Spec.decoded JSON_parse raw) admin_parseRule ->
        admin_parseRules raw = Normal [])
  /\ (forall input,
        Spec.yieldsNothing (Spec.decoded JSON_parse (Spec.rawOf input))
          parseRule ->
        parseDiscountRules input = Normal []).
Proof.
  split; [exact Admin_parseRules_returns|].
  split; [exact parseDiscountRules_returns|].
  split; [exact Admin_parseRules_nothing|exact parseDiscountRules_nothing].
Qed.

End Totality.

(** The empty outcomes of C5 on concrete inputs: text that does not
    decode, a number, and an object with neither rules nor rule fields. *)
Lemma parseRuleSet_total_witness :
  Admin.parseRules Spec.noNumericStrings Spec.noJsonText (JStr "{") = Normal []
  /\ Admin.parseRules Spec.noNumericStrings Spec.noJsonText (JNum (Fin 7))
     = Normal []
  /\ Extension.parseDiscountRules Spec.noNumericStrings Spec.noJsonText
       {| Extension.lines := [];
          Extension.jsonValue := Some (JObj [("title", JStr "x")]) |}
     = Normal [].
Proof.
  destruct (parseRuleSet_total Spec.noNumericStrings Spec.noJsonText)
    as (_ & _ & Hadmin & Hcart).
  split; [|split].
  - apply Hadmin. exact I.
  - apply Hadmin. left. reflexivity.
  - apply Hcart. right. split; reflexivity.
Defined.

(** ** What each validator checks *)

Section ValidatorClaims.
Variable StringNumericValue : string -> number.
Variable JSON_parse : string -> Completion JsValue.
Local Abbreviation coerce := (coerceNumber StringNumericValue).
Local Abbreviation admin_parseRule := (Admin.parseRule StringNumericValue).
Local Abbreviation admin_parseRules :=
  (Admin.parseRules StringNumericValue JSON_parse).
Local Abbreviation parseRule := (Extension.parseRule StringNumericValue).
Local Abbreviation parseDiscountRules :=
  (Extension.parseDiscountRules StringNumericValue JSON_parse).

(** C6, as amended.  On an object whose [products] is a sequence and whose
    coerced [minQty] is finite and at least 2, the admin-side validator
    rejects exactly when the coerced [percentOff] is not finite and
    otherwise returns a rule carrying that [percentOff], whatever its
    size; the evaluation-side validator also rejects a finite [percentOff]
    below 1 or above 80, and otherwise (given a valid product entry)
    returns a rule carrying it. *)
Theorem percentOff_validation (props : list (string * JsValue))
    (elements : list JsValue) :
  own_property "products" props = JArr elements ->
  isFinite (coerce (own_property "minQty" props)) = true ->
  lt (coerce (own_property "minQty" props)) (Fin 2) = false ->
  let percent := coerce (own_property "percentOff" props) in
  (isFinite percent = false ->
     admin_parseRule (JObj props) = Normal None
     /\ parseRule (JObj props) = Normal None)
  /\ (isFinite percent = true ->
        exists rule,
          admin_parseRule (JObj props) = Normal (Some rule)
          /\ rule.(Admin.percentOff) = percent)
  /\ (lt percent (Fin 1) = true \/ gt percent (Fin 80) = true ->
        parseRule (JObj props) = Normal None)
  /\ (isFinite percent = true -> lt percent (Fin 1) = false ->
      gt percent (Fin 80) = false -> Spec.validProducts elements <> [] ->
        exists rule,
          parseRule (JObj props) = Normal (Some rule)
          /\ rule.(Extension.percentOff) = percent).
Proof.
  intros Hprod Hm Hlt percent. subst percent. repeat split.
  - apply Admin_parseRule_percent_not_finite; assumption.
  - apply Extension_parseRule_percent_rejected. left; assumption.
  - intros Hp. eexists. split.
    + apply Admin_parseRule_accepts; eassumption.
    + reflexivity.
  - intros H. apply Extension_parseRule_percent_rejected. right; assumption.
  - intros Hp Hlo Hhi Hne. eexists. split.
    + apply Extension_parseRule_accepts; eassumption.
    + reflexivity.
Qed.

(** C7, as amended.  Either validator rejects an object whose [products]
    is not a sequence.  When it is one, the kept entries are exactly its
    non-empty strings; on an object whose other fields pass, the admin-side
    validator returns a rule with those entries even when none is left,
    while the evaluation-side validator returns it when at least one is
    left and drops the rule when none is. *)
Theorem products_validation (props : list (string * JsValue)) :
  isFinite (coerce (own_property "percentOff" props)) = true ->
  lt (coerce (own_property "percentOff" props)) (Fin 1) = false ->
  gt (coerce (own_property "percentOff" props)) (Fin 80) = false ->
  isFinite (coerce (own_property "minQty" props)) = true ->
  lt (coerce (own_property "minQty" props)) (Fin 2) = false ->
  (isArray (own_property "products" props) = false ->
     admin_parseRule (JObj props) = Normal None
     /\ parseRule (JObj props) = Normal None)
  /\ (forall elements, own_property "products" props = JArr elements ->
        (forall s, In s (Spec.validProducts elements)
                   <-> In (JStr s) elements /\ s <> "")
        /\ (exists rule,
              admin_parseRule (JObj props) = Normal (Some rule)
              /\ rule.(Admin.products) = Spec.validProducts elements)
        /\ (Spec.validProducts elements <> [] ->
              exists rule,
                parseRule (JObj props) = Normal (Some rule)
                /\ rule.(Extension.products) = Spec.validProducts elements)
        /\ (Spec.validProducts elements = [] ->
              parseRule (JObj props) = Normal None)).
Proof.
  intros Hp Hlo Hhi Hm Hlt. split.
  - intros Hna. split.
    + apply Admin_parseRule_products_not_array; assumption.
    + apply Extension_parseRule_products_not_array; assumption.
  - intros elements Hprod. split; [|split; [|split]].
    + intros s. exact (validProducts_spec elements s).
    + eexists. split; [apply Admin_parseRule_accepts; eassumption|].
      reflexivity.
    + intros Hne. eexists.
      split; [apply Extension_parseRule_accepts; eassumption|]. reflexivity.
    + intros Hnil. eapply Extension_parseRule_no_valid_product; eassumption.
Qed.

End ValidatorClaims.

(** The claim of C6 read on the evaluation-side validator fails: with valid
    products and [minQty], a finite [percentOff] of 90, of 0.5, of 0 or of
    -5 is rejected there, while 10 in the same object is accepted. *)
Lemma percentOff_bound_at_evaluation :
  let object percent :=
    JObj [("percentOff", JNum (Fin percent));
          ("products", JArr [JStr "P1"]);
          ("minQty", JNum (Fin 2))] in
  (forall snv, Extension.parseRule snv (object 90%Q) = Normal None)
  /\ (forall snv, Extension.parseRule snv (object (1 # 2)%Q) = Normal None)
  /\ (forall snv, Extension.parseRule snv (object 0%Q) = Normal None)
  /\ (forall snv, Extension.parseRule snv (object (-5)%Q) = Normal None)
  /\ (forall snv, Extension.parseRule snv (object 10%Q)
                  = Normal (Some {| Extension.percentOff := Fin 10;
                                    Extension.products := ["P1"];
                                    Extension.minQty := Fin 2 |})).
Proof. repeat split. Qed.

(** C6's amended statement at one object: 90 percent passes the admin-side
    validator and is rejected by the evaluation-side one. *)
Lemma percentOff_validation_witness :
  (exists rule,
     Admin.parseRule Spec.noNumericStrings
       (JObj [("percentOff", JNum (Fin 90));
              ("products", JArr [JStr "P1"]);
              ("minQty", JNum (Fin 2))]) = Normal (Some rule)
     /\ rule.(Admin.percentOff) = Fin 90)
  /\ Extension.parseRule Spec.noNumericStrings
       (JObj [("percentOff", JNum (Fin 90));
              ("products", JArr [JStr "P1"]);
              ("minQty", JNum (Fin 2))]) = Normal None.
Proof.
  destruct (percentOff_validation Spec.noNumericStrings
              [("percentOff", JNum (Fin 90));
               ("products", JArr [JStr "P1"]);
               ("minQty", JNum (Fin 2))]
              [JStr "P1"] eq_refl eq_refl eq_refl) as (_ & Hadmin & Hcart & _).
  split.
  - apply Hadmin. reflexivity.
  - apply Hcart. right. reflexivity.
Defined.

(** The last part of C7 read on the admin-side validator fails: a rule
    whose product sequence holds no valid entry is returned, with an empty
    product list, where the evaluation-side validator drops it. *)
Lemma admin_keeps_rule_without_products :
  let object :=
    JObj [("percentOff", JNum (Fin 10));
          ("products", JArr [JNum (Fin 1); JStr ""]);
          ("minQty", JNum (Fin 2))] in
  (forall snv, Admin.parseRule snv object
               = Normal (Some {| Admin.discountId := None;
                                 Admin.percentOff := Fin 10;
                                 Admin.products := [];
                                 Admin.minQty := Fin 2 |}))
  /\ (forall snv jp, Admin.parseRules snv jp (JObj [("rules", JArr [object])])
                     = Normal [ {| Admin.discountId := None;
                                   Admin.percentOff := Fin 10;
                                   Admin.products := [];
                                   Admin.minQty := Fin 2 |} ])
  /\ (forall snv, Extension.parseRule snv object = Normal None).
Proof. repeat split. Qed.

(** C7's amended statement at one object with a mixed product sequence. *)
Lemma products_validation_witness :
  (exists rule,
     Admin.parseRule Spec.noNumericStrings
       (JObj [("percentOff", JNum (Fin 10));
              ("products", JArr [JNum (Fin 1); JStr "P1"; JStr ""; JNull]);
              ("minQty", JNum (Fin 2))]) = Normal (Some rule)
     /\ rule.(Admin.products) = ["P1"])
  /\ (exists rule,
        Extension.parseRule Spec.noNumericStrings
          (JObj [("percentOff", JNum (Fin 10));
                 ("products", JArr [JNum (Fin 1); JStr "P1"; JStr ""; JNull]);
                 ("minQty", JNum (Fin 2))]) = Normal (Some rule)
        /\ rule.(Extension.products) = ["P1"]).
Proof.
  destruct (products_validation Spec.noNumericStrings
              [("percentOff", JNum (Fin 10));
               ("products", JArr [JNum (Fin 1); JStr "P1"; JStr ""; JNull]);
               ("minQty", JNum (Fin 2))]
              eq_refl eq_refl eq_refl eq_refl eq_refl) as [_ H].
  destruct (H _ eq_refl) as (_ & Hadmin & Hcart & _).
  split; [exact Hadmin|]. apply Hcart. discriminate.
Defined.

(** ** Parsed rules, the legacy shape, and the empty-string percentage *)

Section ParsedRules.
Variable StringNumericValue : string -> number.
Variable JSON_parse : string -> Completion JsValue.
Local Abbreviation coerce := (coerceNumber StringNumericValue).
Local Abbreviation admin_parseRule := (Admin.parseRule StringNumericValue).
Local Abbreviation admin_parseRules :=
  (Admin.parseRules StringNumericValue JSON_parse).
Local Abbreviation parseRule := (Extension.parseRule StringNumericValue).
Local Abbreviation parseDiscountRules :=
  (Extension.parseDiscountRules StringNumericValue JSON_parse).

(** Every rule of a parsed set was returned by the single-rule validator
    on some value. *)
Lemma Admin_parseRules_In (raw : JsValue) (rules : list Admin.DiscountRule)
    (rule : Admin.DiscountRule) :
  admin_parseRules raw = Normal rules -> In rule rules ->
  exists v, admin_parseRule v = Normal (Some rule).
Proof.
  intros Hparse Hin.
  destruct (Spec.decoded JSON_parse raw) as [v|e] eqn:Hdec.
  - destruct v as [| |b|n|s|elements|props].
    1-5: erewrite Admin_parseRules_not_structured in Hparse by eauto;
      injection Hparse as <-; destruct Hin.
    + erewrite Admin_parseRules_array in Hparse by eauto.
      injection Hparse as <-. destruct Hin.
    + destruct (own_property "rules" props) as [| | | | |elements|] eqn:Hr.
      6: { rewrite (Admin_parseRules_wrapped _ _ _ _ _ Hdec Hr) in Hparse.
           destruct (mapM_Normal admin_parseRule elements
                       (Admin_parseRule_total StringNumericValue))
             as [parsed [Hmap Hall]].
           rewrite Hmap in Hparse. simpl in Hparse.
           injection Hparse as <-. apply filterBoolean_In in Hin.
           clear Hmap Hr Hdec. induction Hall as [|v r vs rs Hv _ IH];
             [destruct Hin|].
           destruct Hin as [->|Hin]; [exists v; exact Hv|exact (IH Hin)]. }
      all: rewrite (Admin_parseRules_legacy _ _ _ _ Hdec) in Hparse
          by (rewrite Hr; reflexivity);
        destruct (admin_parseRule (JObj props)) as [[r|]|] eqn:Hone;
        simpl in Hparse; try discriminate Hparse;
        injection Hparse as <-; simpl in Hin; try tauto;
        destruct Hin as [<-|[]];
        exists (JObj props); exact Hone.
  - erewrite Admin_parseRules_undecodable in Hparse by eauto.
    injection Hparse as <-. destruct Hin.
Qed.

Lemma parseDiscountRules_In (input : Extension.CartInput)
    (rules : list Extension.DiscountRule) (rule : Extension.DiscountRule) :
  parseDiscountRules input = Normal rules -> In rule rules ->
  exists v, parseRule v = Normal (Some rule).
Proof.
  intros Hparse Hin.
  destruct (Spec.decoded JSON_parse (Spec.rawOf input)) as [v|e] eqn:Hdec.
  - destruct v as [| |b|n|s|elements|props].
    1-5: erewrite parseDiscountRules_not_structured in Hparse by eauto;
      injection Hparse as <-; destruct Hin.
    + erewrite parseDiscountRules_array in Hparse by eauto.
      injection Hparse as <-. destruct Hin.
    + destruct (own_property "rules" props) as [| | | | |elements|] eqn:Hr.
      6: { rewrite (parseDiscountRules_wrapped _ _ _ _ _ Hdec Hr) in Hparse.
           destruct (mapM_Normal parseRule elements
                       (Extension_parseRule_total StringNumericValue))
             as [parsed [Hmap Hall]].
           rewrite Hmap in Hparse. simpl in Hparse.
           injection Hparse as <-. apply filterBoolean_In in Hin.
           clear Hmap Hr Hdec. induction Hall as [|v r vs rs Hv _ IH];
             [destruct Hin|].
           destruct Hin as [->|Hin]; [exists v; exact Hv|exact (IH Hin)]. }
      all: rewrite (parseDiscountRules_legacy _ _ _ _ Hdec) in Hparse
          by (rewrite Hr; reflexivity);
        destruct (parseRule (JObj props)) as [[r|]|] eqn:Hone;
        simpl in Hparse; try discriminate Hparse;
        injection Hparse as <-; simpl in Hin; try tauto;
        destruct Hin as [<-|[]];
        exists (JObj props); exact Hone.
  - erewrite parseDiscountRules_undecodable in Hparse by eauto.
    injection Hparse as <-. destruct Hin.
Qed.

(** A finite number that is not below 2 is at least 2, and is not 1. *)
Lemma at_least_two (m : number) :
  isFinite m = true -> lt m (Fin 2) = false ->
  le (Fin 2) m = true /\ strict_eq m (Fin 1) = false.
Proof.
  intros [q ->]%isFinite_Fin Hlt. apply lt_Fin_false in Hlt. split.
  - apply le_Fin. exact Hlt.
  - destruct (strict_eq (Fin q) (Fin 1)) eqn:E; [|reflexivity].
    apply strict_eq_Fin in E. lra.
Qed.

(** C8.  Either validator rejects an object whose coerced [minQty] is not
    finite or is below 2: the rule is dropped, not kept with another
    threshold.  Hence every rule of every parsed set has a finite [minQty]
    of at least 2, and none has [minQty] equal to 1. *)
Theorem minQty_validation :
  (forall props,
     isFinite (coerce (own_property "minQty" props)) = false
     \/ lt (coerce (own_property "minQty" props)) (Fin 2) = true ->
     admin_parseRule (JObj props) = Normal None
     /\ parseRule (JObj props) = Normal None)
  /\ (forall raw rules rule,
        admin_parseRules raw = Normal rules -> In rule rules ->
        isFinite rule.(Admin.minQty) = true
        /\ le (Fin 2) rule.(Admin.minQty) = true
        /\ strict_eq rule.(Admin.minQty) (Fin 1) = false)
  /\ (forall input rules rule,
        parseDiscountRules input = Normal rules -> In rule rules ->
        isFinite rule.(Extension.minQty) = true
        /\ le (Fin 2) rule.(Extension.minQty) = true
        /\ strict_eq rule.(Extension.minQty) (Fin 1) = false).
Proof.
  split; [|split].
  - intros props H. split.
    + apply Admin_parseRule_minQty_rejected; assumption.
    + apply Extension_parseRule_minQty_rejected; assumption.
  - intros raw rules rule Hparse Hin.
    destruct (Admin_parseRules_In _ _ _ Hparse Hin) as [v Hv].
    apply Admin_parseRule_Some in Hv
      as (props & elements & _ & _ & _ & Hm & Hlt & ->).
    simpl. split; [assumption|]. apply at_least_two; assumption.
  - intros input rules rule Hparse Hin.
    destruct (parseDiscountRules_In _ _ _ Hparse Hin) as [v Hv].
    apply Extension_parseRule_Some in Hv
      as (props & elements & _ & _ & _ & _ & _ & _ & Hm & Hlt & ->).
    simpl. split; [assumption|]. apply at_least_two; assumption.
Qed.

(** C9, as amended.  For an object that carries no [rules] sequence of its
    own and that
    the single-rule validator accepts, parsing the bare object and parsing
    it wrapped as the only element of a [rules] array give the same
    one-element sequence; this holds for the admin-side parser and for the
    evaluation-side one. *)
Theorem legacy_shape_equivalence (props : list (string * JsValue)) :
  isArray (own_property "rules" props) = false ->
  (forall rule,
     admin_parseRule (JObj props) = Normal (Some rule) ->
     admin_parseRules (JObj props) = Normal [rule]
     /\ admin_parseRules (JObj [("rules", JArr [JObj props])])
        = Normal [rule])
  /\ (forall cart_lines rule,
        parseRule (JObj props) = Normal (Some rule) ->
        parseDiscountRules
          {| Extension.lines := cart_lines;
             Extension.jsonValue := Some (JObj props) |} = Normal [rule]
        /\ parseDiscountRules
             {| Extension.lines := cart_lines;
                Extension.jsonValue :=
                  Some (JObj [("rules", JArr [JObj props])]) |}
           = Normal [rule]).
Proof.
  intros Hrules. split.
  - intros rule Hone. split.
    + rewrite (Admin_parseRules_legacy _ _ (JObj props) props eq_refl Hrules).
      rewrite Hone. reflexivity.
    + rewrite (Admin_parseRules_wrapped _ _
                 (JObj [("rules", JArr [JObj props])])
                 [("rules", JArr [JObj props])] [JObj props]
                 eq_refl eq_refl).
      simpl. rewrite Hone. reflexivity.
  - intros cart_lines rule Hone. split.
    + rewrite (parseDiscountRules_legacy _ JSON_parse
                 {| Extension.lines := cart_lines;
                    Extension.jsonValue := Some (JObj props) |}
                 props eq_refl Hrules).
      rewrite Hone. reflexivity.
    + rewrite (parseDiscountRules_wrapped _ JSON_parse
                 {| Extension.lines := cart_lines;
                    Extension.jsonValue :=
                      Some (JObj [("rules", JArr [JObj props])]) |}
                 [("rules", JArr [JObj props])] [JObj props]
                 eq_refl eq_refl).
      simpl. rewrite Hone. reflexivity.
Qed.

End ParsedRules.

(** C8 on concrete objects: [minQty] 1 and a non-numeric [minQty] are
    rejected by both validators. *)
Lemma minQty_validation_witness :
  (Admin.parseRule Spec.noNumericStrings
     (JObj [("percentOff", JNum (Fin 10));
            ("products", JArr [JStr "P1"]);
            ("minQty", JNum (Fin 1))]) = Normal None
   /\ Extension.parseRule Spec.noNumericStrings
        (JObj [("percentOff", JNum (Fin 10));
               ("products", JArr [JStr "P1"]);
               ("minQty", JNum (Fin 1))]) = Normal None)
  /\ (Admin.parseRule Spec.noNumericStrings
        (JObj [("percentOff", JNum (Fin 10));
               ("products", JArr [JStr "P1"]);
               ("minQty", JBool true)]) = Normal None
      /\ Extension.parseRule Spec.noNumericStrings
           (JObj [("percentOff", JNum (Fin 10));
                  ("products", JArr [JStr "P1"]);
                  ("minQty", JBool true)]) = Normal None).
Proof.
  destruct (minQty_validation Spec.noNumericStrings Spec.noJsonText)
    as [Hreject _].
  split; apply Hreject; [right|left]; reflexivity.
Defined.

(** C9 on the legacy object of the specification,
    [{ "percentOff": 10, "products": ["P1"], "minQty": 2 }]. *)
Lemma legacy_shape_equivalence_witness :
  let legacy :=
    [("percentOff", JNum (Fin 10));
     ("products", JArr [JStr "P1"]);
     ("minQty", JNum (Fin 2))] in
  let rule :=
    {| Admin.discountId := None;
       Admin.percentOff := Fin 10;
       Admin.products := ["P1"];
       Admin.minQty := Fin 2 |} in
  Admin.parseRules Spec.noNumericStrings Spec.noJsonText (JObj legacy)
  = Normal [rule]
  /\ Admin.parseRules Spec.noNumericStrings Spec.noJsonText
       (JObj [("rules", JArr [JObj legacy])])
     = Normal [rule].
Proof.
  intros legacy rule.
  destruct (legacy_shape_equivalence Spec.noNumericStrings Spec.noJsonText
              legacy eq_refl) as [Hadmin _].
  apply Hadmin. reflexivity.
Defined.

(** The equality of C9 fails for an accepted object that has a [rules]
    sequence of its own: parsed bare it is read as a wrapper (here of no
    rule), parsed wrapped it is read as a rule. *)
Lemma accepted_object_with_rules_array :
  let object :=
    JObj [("percentOff", JNum (Fin 10));
          ("products", JArr [JStr "P1"]);
          ("minQty", JNum (Fin 2));
          ("rules", JArr [])] in
  let rule :=
    {| Admin.discountId := None;
       Admin.percentOff := Fin 10;
       Admin.products := ["P1"];
       Admin.minQty := Fin 2 |} in
  (forall snv, Admin.parseRule snv object = Normal (Some rule))
  /\ (forall snv jp, Admin.parseRules snv jp object = Normal [])
  /\ (forall snv jp,
        Admin.parseRules snv jp (JObj [("rules", JArr [object])])
        = Normal [rule])
  /\ (forall snv jp cart_lines,
        Extension.parseDiscountRules snv jp
          {| Extension.lines := cart_lines;
             Extension.jsonValue := Some object |} = Normal [])
  /\ (forall snv jp cart_lines,
        Extension.parseDiscountRules snv jp
          {| Extension.lines := cart_lines;
             Extension.jsonValue := Some (JObj [("rules", JArr [object])]) |}
        = Normal [ {| Extension.percentOff := Fin 10;
                      Extension.products := ["P1"];
                      Extension.minQty := Fin 2 |} ]).
Proof. repeat split. Qed.

Section EmptyPercentString.
Variable StringNumericValue : string -> number.
Variable JSON_parse : string -> Completion JsValue.
Local Abbreviation coerce := (coerceNumber StringNumericValue).

(** C10.  On an object whose [percentOff] is the empty string, whose
    [products] is a sequence and whose coerced [minQty] is finite and at
    least 2, the admin-side validator returns a rule with [percentOff] 0,
    and the evaluation-side validator rejects the object.  Stored as a bare
    rule, it parses to a one-rule set on the admin side and makes the cart
    function return no operation for every cart. *)
Theorem empty_percent_string_divergence (props : list (string * JsValue))
    (elements : list JsValue) :
  own_property "percentOff" props = JStr "" ->
  own_property "products" props = JArr elements ->
  isFinite (coerce (own_property "minQty" props)) = true ->
  lt (coerce (own_property "minQty" props)) (Fin 2) = false ->
  let rule :=
    {| Admin.discountId := Spec.textual (own_property "discountId" props);
       Admin.percentOff := Fin 0;
       Admin.products := Spec.validProducts elements;
       Admin.minQty := coerce (own_property "minQty" props) |} in
  Admin.parseRule StringNumericValue (JObj props) = Normal (Some rule)
  /\ Extension.parseRule StringNumericValue (JObj props) = Normal None
  /\ (isArray (own_property "rules" props) = false ->
      Admin.parseRules StringNumericValue JSON_parse (JObj props)
      = Normal [rule]
      /\ forall cart_lines,
           Extension.cartLinesDiscountsGenerateRun StringNumericValue
             JSON_parse
             {| Extension.lines := cart_lines;
                Extension.jsonValue := Some (JObj props) |}
           = Normal {| Extension.operations := [] |}).
Proof.
  intros Hpercent Hprod Hm Hlt rule.
  assert (Hzero : coerce (own_property "percentOff" props) = Fin 0)
    by (rewrite Hpercent; reflexivity).
  assert (Hadmin : Admin.parseRule StringNumericValue (JObj props)
                   = Normal (Some rule)).
  { rewrite (Admin_parseRule_accepts _ props elements); try assumption.
    - subst rule. rewrite Hzero. reflexivity.
    - rewrite Hzero. reflexivity. }
  assert (Hcart : Extension.parseRule StringNumericValue (JObj props)
                  = Normal None).
  { apply Extension_parseRule_percent_rejected. right. left.
    rewrite Hzero. reflexivity. }
  split; [exact Hadmin|]. split; [exact Hcart|].
  intros Hrules. split.
  - rewrite (Admin_parseRules_legacy _ _ (JObj props) props eq_refl Hrules).
    rewrite Hadmin. reflexivity.
  - intros cart_lines. unfold Extension.cartLinesDiscountsGenerateRun.
    rewrite (parseDiscountRules_legacy _ JSON_parse
               {| Extension.lines := cart_lines;
                  Extension.jsonValue := Some (JObj props) |}
               props eq_refl Hrules).
    rewrite Hcart. reflexivity.
Qed.

End EmptyPercentString.

(** C10 at [{ "percentOff": "", "products": ["P1"], "minQty": 2 }]. *)
Lemma empty_percent_string_divergence_witness :
  Admin.parseRule Spec.noNumericStrings
    (JObj [("percentOff", JStr "");
           ("products", JArr [JStr "P1"]);
           ("minQty", JNum (Fin 2))])
  = Normal (Some {| Admin.discountId := None;
                    Admin.percentOff := Fin 0;
                    Admin.products := ["P1"];
                    Admin.minQty := Fin 2 |})
  /\ Extension.parseRule Spec.noNumericStrings
       (JObj [("percentOff", JStr "");
              ("products", JArr [JStr "P1"]);
              ("minQty", JNum (Fin 2))])
     = Normal None.
Proof.
  destruct (empty_percent_string_divergence Spec.noNumericStrings
              Spec.noJsonText
              [("percentOff", JStr "");
               ("products", JArr [JStr "P1"]);
               ("minQty", JNum (Fin 2))]
              [JStr "P1"] eq_refl eq_refl eq_refl eq_refl)
    as (Hadmin & Hcart & _).
  split; [exact Hadmin|exact Hcart].
Defined.

(** ** The rule-store merge

    Both actions return an error response before the merge when the
    discount identifier is falsy ([if (!discountId)] in the create action,
    [if (!updateId)] in the edit action), so the identifier written with
    the new rule is a non-empty string. *)

Section Merge.
Implicit Types (existing : list Admin.DiscountRule) (id : string).
Implicit Types (products : list string) (percentOff : number).

Local Abbreviation others id :=
  (List.filter (fun rule => negb (Spec.tiedTo id rule))).

(** For a non-empty identifier, the [filter] callback of the actions keeps
    exactly the rules that are not tied to it. *)
Lemma keeps_others id (rule : Admin.DiscountRule) :
  id <> "" ->
  negb (Admin.truthy rule.(Admin.discountId))
  || Admin.strict_neq rule.(Admin.discountId) (Some id)
  = negb (Spec.tiedTo id rule).
Proof.
  intros Hid. unfold Spec.tiedTo.
  destruct (Admin.discountId rule) as [s|]; simpl; [|reflexivity].
  destruct (String.eqb_spec s id) as [->|Hne]; simpl.
  - apply String.eqb_neq in Hid. rewrite Hid. reflexivity.
  - apply orb_true_r.
Qed.

Lemma updatedRules_others existing id products percentOff :
  id <> "" ->
  Admin.updatedRules existing id products percentOff
  = others id existing ++ [Spec.upserted id products percentOff].
Proof.
  intros Hid. unfold Admin.updatedRules, Spec.upserted. f_equal.
  apply List.filter_ext. intros rule. apply keeps_others. exact Hid.
Qed.

(** The edit action writes the same set as the create expression for the
    node identifier it resolved. *)
Lemma updatedRules_edit_node existing id (updateId : option string)
    products percentOff :
  id <> "" ->
  Admin.updatedRules_edit existing (Some id) updateId products percentOff
  = Admin.updatedRules existing id products percentOff.
Proof.
  intros Hid. unfold Admin.updatedRules_edit, Admin.updatedRules. simpl.
  apply String.eqb_neq in Hid. rewrite Hid. reflexivity.
Qed.

(** Without the guard the callback would keep everything: an empty
    identifier is falsy, on the stored rule as on the new one. *)
Lemma updatedRules_empty_id existing products percentOff :
  Admin.updatedRules
    (Admin.updatedRules existing "" products percentOff) "" products percentOff
  = existing ++ [Spec.upserted "" products percentOff;
                 Spec.upserted "" products percentOff].
Proof.
  unfold Admin.updatedRules, Spec.upserted.
  assert (Hkeep : forall l : list Admin.DiscountRule,
    List.filter
      (fun rule => negb (Admin.truthy rule.(Admin.discountId))
                   || Admin.strict_neq rule.(Admin.discountId) (Some ""))
      l = l).
  { induction l as [|r l IH]; simpl; [reflexivity|].
    destruct (Admin.discountId r) as [s|]; simpl.
    - destruct s; simpl; rewrite IH; reflexivity.
    - rewrite IH. reflexivity. }
  rewrite !Hkeep. rewrite <- app_assoc. reflexivity.
Qed.

Lemma others_all existing id :
  Forall (fun rule => Spec.tiedTo id rule = false) existing ->
  others id existing = existing.
Proof.
  induction 1 as [|rule rest Hrule _ IH]; simpl; [reflexivity|].
  rewrite Hrule. simpl. rewrite IH. reflexivity.
Qed.

Lemma others_idempotent existing id :
  others id (others id existing) = others id existing.
Proof.
  induction existing as [|rule rest IH]; simpl; [reflexivity|].
  destruct (negb (Spec.tiedTo id rule)) eqn:E; simpl; [|exact IH].
  rewrite E, IH. reflexivity.
Qed.

Lemma upserted_tied id products percentOff :
  Spec.tiedTo id (Spec.upserted id products percentOff) = true.
Proof. unfold Spec.tiedTo. simpl. apply String.eqb_refl. Qed.

(** C2.  The merge removes exactly the existing rules that have a
    [discountId] equal to the upserted one and appends the upserted rule
    at the end.  When exactly one existing rule is tied to the identifier,
    the result has the length of the input, with that rule gone and the
    upserted rule in last place; when none is, the result is the input
    followed by the upserted rule, of length one more.  The edit action
    writes the same result for the node identifier it resolved. *)
Theorem reconcile_upsert existing id products percentOff :
  id <> "" ->
  let result := Admin.updatedRules existing id products percentOff in
  result = others id existing ++ [Spec.upserted id products percentOff]
  /\ (forall before old after,
        existing = before ++ old :: after ->
        Spec.tiedTo id old = true ->
        Forall (fun rule => Spec.tiedTo id rule = false) (before ++ after) ->
        result = before ++ after ++ [Spec.upserted id products percentOff]
        /\ length result = length existing)
  /\ (Forall (fun rule => Spec.tiedTo id rule = false) existing ->
        result = existing ++ [Spec.upserted id products percentOff]
        /\ length result = S (length existing))
  /\ (forall updateId,
        Admin.updatedRules_edit existing (Some id) updateId products percentOff
        = result).
Proof.
  intros Hid result. subst result.
  rewrite (updatedRules_others _ _ _ _ Hid). split; [reflexivity|].
  split; [|split].
  - intros before old after -> Hold Hrest.
    apply Forall_app in Hrest as [Hbefore Hafter].
    rewrite List.filter_app. simpl. rewrite Hold. simpl.
    rewrite (others_all _ _ Hbefore), (others_all _ _ Hafter).
    rewrite <- app_assoc. split; [reflexivity|].
    rewrite !length_app. simpl. rewrite ?length_app. simpl. lia.
  - intros Hnone. rewrite (others_all _ _ Hnone). split; [reflexivity|].
    rewrite length_app. simpl. lia.
  - intros updateId. rewrite (updatedRules_edit_node _ _ _ _ _ Hid).
    apply updatedRules_others. exact Hid.
Qed.

(** C3.  The existing rules whose [discountId] differs from the upserted
    one, those without a [discountId] included, come out of the merge as
    they went in: same records, same order, none added and none lost; for
    an existing set of any length, in the create action and in the edit
    action. *)
Theorem reconcile_frame existing id products percentOff :
  id <> "" ->
  others id (Admin.updatedRules existing id products percentOff)
  = others id existing
  /\ (forall updateId,
        others id (Admin.updatedRules_edit existing (Some id) updateId
                     products percentOff)
        = others id existing).
Proof.
  intros Hid.
  assert (Hcreate :
    others id (Admin.updatedRules existing id products percentOff)
    = others id existing).
  { rewrite (updatedRules_others _ _ _ _ Hid), List.filter_app. simpl.
    rewrite upserted_tied. simpl. rewrite app_nil_r.
    apply others_idempotent. }
  split; [exact Hcreate|].
  intros updateId. rewrite (updatedRules_edit_node _ _ _ _ _ Hid).
  exact Hcreate.
Qed.

(** C4.  Writing the same upsert a second time leaves the rule set as the
    first write made it. *)
Theorem reconcile_idempotent existing id products percentOff :
  id <> "" ->
  Admin.updatedRules (Admin.updatedRules existing id products percentOff)
    id products percentOff
  = Admin.updatedRules existing id products percentOff.
Proof.
  intros Hid. rewrite !(updatedRules_others _ _ _ _ Hid).
  rewrite List.filter_app. simpl. rewrite upserted_tied. simpl.
  rewrite app_nil_r, others_idempotent. reflexivity.
Qed.

End Merge.

(** The merge on a stored set of three rules, one of them without an
    identifier, upserting the discount of the first. *)
Lemma reconcile_upsert_witness :
  let first := {| Admin.discountId := Some "gid://shopify/DiscountNode/1";
                  Admin.percentOff := Fin 10;
                  Admin.products := ["P1"];
                  Admin.minQty := Fin 2 |} in
  let unnamed := {| Admin.discountId := None;
                    Admin.percentOff := Fin 20;
                    Admin.products := ["P2"];
                    Admin.minQty := Fin 3 |} in
  let second := {| Admin.discountId := Some "gid://shopify/DiscountNode/2";
                   Admin.percentOff := Fin 30;
                   Admin.products := ["P3"];
                   Admin.minQty := Fin 2 |} in
  let result :=
    Admin.updatedRules [first; unnamed; second]
      "gid://shopify/DiscountNode/1" ["P9"] (Fin 15) in
  result = [unnamed; second;
            Spec.upserted "gid://shopify/DiscountNode/1" ["P9"] (Fin 15)]
  /\ length result = 3%nat.
Proof.
  intros first unnamed second result.
  destruct (reconcile_upsert [first; unnamed; second]
              "gid://shopify/DiscountNode/1" ["P9"] (Fin 15)
              ltac:(discriminate)) as (_ & Hone & _).
  apply (Hone [] first [unnamed; second] eq_refl eq_refl).
  repeat constructor.
Defined.

Lemma reconcile_frame_witness :
  let unnamed := {| Admin.discountId := None;
                    Admin.percentOff := Fin 20;
                    Admin.products := ["P2"];
                    Admin.minQty := Fin 3 |} in
  let second := {| Admin.discountId := Some "gid://shopify/DiscountNode/2";
                   Admin.percentOff := Fin 30;
                   Admin.products := ["P3"];
                   Admin.minQty := Fin 2 |} in
  List.filter
    (fun rule => negb (Spec.tiedTo "gid://shopify/DiscountNode/1" rule))
    (Admin.updatedRules
       [unnamed; Spec.upserted "gid://shopify/DiscountNode/1" ["P1"] (Fin 10);
        second]
       "gid://shopify/DiscountNode/1" ["P9"] (Fin 15))
  = [unnamed; second].
Proof.
  intros unnamed second.
  exact (proj1 (reconcile_frame
                  [unnamed;
                   Spec.upserted "gid://shopify/DiscountNode/1" ["P1"] (Fin 10);
                   second]
                  "gid://shopify/DiscountNode/1" ["P9"] (Fin 15)
                  ltac:(discriminate))).
Defined.

Lemma reconcile_idempotent_witness :
  let stored :=
    [ {| Admin.discountId := Some "gid://shopify/DiscountNode/2";
         Admin.percentOff := Fin 30;
         Admin.products := ["P3"];
         Admin.minQty := Fin 2 |} ] in
  Admin.updatedRules
    (Admin.updatedRules stored "gid://shopify/DiscountNode/1" ["P9"] (Fin 15))
    "gid://shopify/DiscountNode/1" ["P9"] (Fin 15)
  = Admin.updatedRules stored "gid://shopify/DiscountNode/1" ["P9"] (Fin 15).
Proof.
  intros stored.
  exact (reconcile_idempotent stored "gid://shopify/DiscountNode/1" ["P9"]
           (Fin 15) ltac:(discriminate)).
Defined.

(** ** The identifier the edit action merges under *)

Section EditIdentifier.
Variable decodeURIComponent : string -> Completion string.

(** Whenever [normalizeDiscountIds] yields a truthy [updateId] (the edit
    action returns an error response otherwise), the [discountNodeId] it
    yields is a non-empty string. *)
Lemma normalizeDiscountIds_node (rawId discountNodeId updateId : option string) :
  Admin.normalizeDiscountIds decodeURIComponent rawId
  = Normal (discountNodeId, updateId) ->
  Admin.truthy updateId = true ->
  exists id, discountNodeId = Some id /\ id <> "".
Proof.
  unfold Admin.normalizeDiscountIds.
  destruct (Admin.truthy rawId); simpl;
    [|intros [= <- <-]; discriminate].
  destruct (decodeURIComponent (default "" rawId)) as [decoded|e]; simpl;
    [|discriminate].
  assert (Hdecoded : Admin.truthy (Some decoded) = true -> decoded <> "").
  { simpl. intros H ->. discriminate H. }
  repeat case_match; intros [= <- <-] Hup;
    eexists; (split; [reflexivity|]);
    try (apply Hdecoded; exact Hup); discriminate.
Qed.

(** So the edit action writes what the create expression writes for that
    node identifier. *)
Lemma updatedRules_edit_normalized (rawId discountNodeId updateId : option string)
    (existing : list Admin.DiscountRule) (products : list string)
    (percentOff : number) :
  Admin.normalizeDiscountIds decodeURIComponent rawId
  = Normal (discountNodeId, updateId) ->
  Admin.truthy updateId = true ->
  exists id,
    id <> "" /\ discountNodeId = Some id
    /\ Admin.updatedRules_edit existing discountNodeId updateId
         products percentOff
       = Admin.updatedRules existing id products percentOff.
Proof.
  intros Hnorm Hup.
  destruct (normalizeDiscountIds_node _ _ _ Hnorm Hup) as (id & -> & Hid).
  exists id. split; [exact Hid|]. split; [reflexivity|].
  apply updatedRules_edit_node. exact Hid.
Qed.

End EditIdentifier.

(** ** The per-line selector *)

Section OrderFacts.

Lemma number_lt_trans (a b c : number) :
  lt a b = true -> lt b c = true -> lt a c = true.
Proof.
  destruct a as [|[]|x], b as [|[]|y], c as [|[]|z];
    try discriminate; try reflexivity.
  rewrite !lt_Fin. apply Qlt_trans.
Qed.

Lemma number_le_lt_trans (a b c : number) :
  le a b = true -> lt b c = true -> lt a c = true.
Proof.
  destruct a as [|[]|x], b as [|[]|y], c as [|[]|z];
    try discriminate; try reflexivity.
  rewrite le_Fin, !lt_Fin. apply Qle_lt_trans.
Qed.

(** On finite numbers [!(a > b)] is [a <= b]. *)
Lemma not_gt_le (a b : number) :
  isFinite a = true -> isFinite b = true ->
  gt a b = false -> le a b = true.
Proof.
  intros [x ->]%isFinite_Fin [y ->]%isFinite_Fin. unfold gt.
  rewrite lt_Fin_false, le_Fin. tauto.
Qed.

End OrderFacts.

Section Selection.
Implicit Types (rules : list Extension.DiscountRule) (q : Z) (pid : string).

(** On a validated rule the two guards of the loop body say that the rule
    is a candidate. *)
Lemma candidate_guard q pid (rule : Extension.DiscountRule) :
  Spec.validated rule ->
  Spec.candidate q pid rule
  = negb (lt (Extension.ofInt q) rule.(Extension.minQty))
    && Extension.includes rule.(Extension.products) pid.
Proof.
  intros (Hp & Hlo & Hhi & _ & Hm & _). unfold Spec.candidate.
  rewrite Hp, Hlo, Hhi, !andb_true_r. f_equal.
  symmetry. apply lt_false_le; [reflexivity|exact Hm].
Qed.

Lemma bestPercent_step_candidate q pid (best : number)
    (rule : Extension.DiscountRule) :
  Spec.validated rule ->
  Extension.bestPercent_step q pid best rule
  = if Spec.candidate q pid rule
    then (if gt rule.(Extension.percentOff) best
          then rule.(Extension.percentOff) else best)
    else best.
Proof.
  intros Hv. rewrite (candidate_guard _ _ _ Hv).
  unfold Extension.bestPercent_step.
  destruct (lt _ _); simpl; [reflexivity|].
  destruct (Extension.includes _ _); reflexivity.
Qed.

(** The loop, started from any finite [best]: either nothing beat [best]
    and every candidate is at most [best], or the result is the first
    maximum of the candidates and it is above [best]. *)
Lemma bestPercent_fold rules q pid (best : number) :
  Forall Spec.validated rules -> isFinite best = true ->
  let result := fold_left (Extension.bestPercent_step q pid) rules best in
  (result = best
   /\ Forall (fun r => le r.(Extension.percentOff) best = true)
        (Spec.candidates rules q pid))
  \/ (lt best result = true
      /\ Spec.firstMaximum result (Spec.candidates rules q pid)).
Proof.
  intros Hrules. revert best.
  induction Hrules as [|rule rest Hrule _ IH]; intros best Hbest; simpl.
  - left. split; [reflexivity|constructor].
  - rewrite (bestPercent_step_candidate _ _ _ _ Hrule).
    unfold Spec.candidates in *. simpl.
    destruct (Spec.candidate q pid rule) eqn:Hc; [|exact (IH best Hbest)].
    pose proof Hrule as (Hp & _).
    destruct (gt (Extension.percentOff rule) best) eqn:Hgt.
    + destruct (IH _ Hp) as [[Heq Hall] | [Hlt Hmax]].
      * right. rewrite Heq. split; [exact Hgt|].
        exists [], rule, (List.filter (Spec.candidate q pid) rest).
        repeat split; [constructor|exact Hall].
      * right. split; [exact (number_lt_trans _ _ _ Hgt Hlt)|].
        destruct Hmax as (before & top & after & Hsplit & Htop & Hb & Ha).
        exists (rule :: before), top, after. rewrite Hsplit.
        repeat split; [exact Htop| |exact Ha].
        constructor; [exact Hlt|exact Hb].
    + pose proof (not_gt_le _ _ Hp Hbest Hgt) as Hle.
      destruct (IH _ Hbest) as [[Heq Hall] | [Hlt Hmax]].
      * left. split; [exact Heq|]. constructor; assumption.
      * right. split; [exact Hlt|].
        destruct Hmax as (before & top & after & Hsplit & Htop & Hb & Ha).
        exists (rule :: before), top, after. rewrite Hsplit.
        repeat split; [exact Htop| |exact Ha].
        constructor; [exact (number_le_lt_trans _ _ _ Hle Hlt)|exact Hb].
Qed.

Lemma candidates_validated rules q pid :
  Forall Spec.validated rules ->
  Forall Spec.validated (Spec.candidates rules q pid).
Proof.
  intros H. apply List.Forall_forall. intros r Hr.
  apply filter_In in Hr as [Hr _].
  rewrite List.Forall_forall in H. exact (H r Hr).
Qed.

(** [bestPercent] after the loop: 0 when no rule is a candidate, the first
    maximum of the candidates (a non-zero number) otherwise. *)
Lemma bestPercentOf_spec rules q pid :
  Forall Spec.validated rules ->
  (Spec.candidates rules q pid = []
   /\ Extension.bestPercentOf rules q pid = Fin 0)
  \/ (Spec.candidates rules q pid <> []
      /\ Spec.firstMaximum (Extension.bestPercentOf rules q pid)
           (Spec.candidates rules q pid)
      /\ strict_eq (Extension.bestPercentOf rules q pid) (Fin 0) = false).
Proof.
  intros Hrules. unfold Extension.bestPercentOf.
  pose proof (candidates_validated _ q pid Hrules) as Hcands.
  destruct (bestPercent_fold rules q pid (Fin 0) Hrules eq_refl)
    as [[Heq Hall] | [Hlt Hmax]].
  - left. split; [|exact Heq].
    destruct (Spec.candidates rules q pid) as [|r cands]; [reflexivity|].
    exfalso. inversion Hall as [|? ? Hle _]; subst.
    inversion Hcands as [|? ? (Hp & Hlo & _) _]; subst.
    apply isFinite_Fin in Hp as [x Hx]. rewrite Hx in *.
    apply le_Fin in Hle, Hlo. lra.
  - right. split; [|split; [exact Hmax|]].
    + destruct Hmax as (before & top & after & -> & _).
      destruct before; discriminate.
    + destruct Hmax as (before & top & after & Hsplit & Htop & _).
      assert (Hin : In top (Spec.candidates rules q pid))
        by (rewrite Hsplit; apply in_elt).
      rewrite List.Forall_forall in Hcands.
      destruct (Hcands top Hin) as (Hp & _).
      rewrite Htop in Hp. apply isFinite_Fin in Hp as [x Hx].
      rewrite Hx in *. apply lt_Fin in Hlt.
      destruct (strict_eq (Fin x) (Fin 0)) eqn:E; [|reflexivity].
      apply strict_eq_Fin in E. lra.
Qed.

End Selection.

Section LineFilter.
Implicit Types (rules : list Extension.DiscountRule).
Implicit Types (line : Extension.CartLine).
Implicit Types (linePercentMap : gmap string number).

(** The callback's verdict does not depend on the map, and the map it
    leaves holds the line's percentage under the line's id when the line
    is kept. *)
Lemma keepLine_verdict rules linePercentMap line :
  (Extension.keepLine rules linePercentMap line).1
  = (Extension.keepLine rules ∅ line).1.
Proof.
  unfold Extension.keepLine.
  destruct (Extension.merchandise line); [|reflexivity].
  destruct (strict_eq _ _); reflexivity.
Qed.

Lemma keepLine_kept rules linePercentMap line :
  (Extension.keepLine rules ∅ line).1 = true ->
  (Extension.keepLine rules linePercentMap line).2
  = <[line.(Extension.id) :=
        default (Fin 0)
          ((Extension.keepLine rules ∅ line).2 !! line.(Extension.id))]>
      linePercentMap.
Proof.
  unfold Extension.keepLine.
  destruct (Extension.merchandise line); [|discriminate].
  destruct (strict_eq _ _); [discriminate|]. simpl. intros _.
  rewrite lookup_insert_eq. reflexivity.
Qed.

Lemma keepLine_dropped rules linePercentMap line :
  (Extension.keepLine rules ∅ line).1 = false ->
  (Extension.keepLine rules linePercentMap line).2 = linePercentMap.
Proof.
  unfold Extension.keepLine.
  destruct (Extension.merchandise line); [|reflexivity].
  destruct (strict_eq _ _); [reflexivity|discriminate].
Qed.

(** [filter] over the lines: the kept lines are those the callback keeps;
    the final map agrees with the initial one outside their ids and, when
    ids are distinct, holds each kept line's own percentage. *)
Lemma filterLines_spec rules (cart_lines : list Extension.CartLine)
    linePercentMap :
  NoDup (List.map Extension.id cart_lines) ->
  let kept := (Extension.filterLines rules cart_lines linePercentMap).1 in
  let final := (Extension.filterLines rules cart_lines linePercentMap).2 in
  kept = List.filter (fun line => (Extension.keepLine rules ∅ line).1)
           cart_lines
  /\ (forall key, ~ In key (List.map Extension.id cart_lines) ->
        final !! key = linePercentMap !! key)
  /\ (forall line, In line kept ->
        Extension.toCandidate final line
        = Extension.toCandidate (Extension.keepLine rules ∅ line).2 line).
Proof.
  revert linePercentMap.
  induction cart_lines as [|line rest IH]; intros linePercentMap Hnodup.
  - simpl. split; [reflexivity|]. split; [reflexivity|]. intros line [].
  - simpl in Hnodup. apply NoDup_cons in Hnodup as [Hfresh Hnodup].
    rewrite list_elem_of_In in Hfresh.
    simpl.
    pose proof (keepLine_verdict rules linePercentMap line) as Hverdict.
    destruct (Extension.keepLine rules linePercentMap line)
      as [keep afterLine] eqn:Hkeep.
    simpl in Hverdict. rewrite <- Hverdict.
    specialize (IH afterLine Hnodup).
    destruct (Extension.filterLines rules rest afterLine)
      as [kept final] eqn:Hrest.
    simpl in IH. destruct IH as (Hkept & Houtside & Hinside).
    assert (Hafter : afterLine
                     = (Extension.keepLine rules linePercentMap line).2)
      by (rewrite Hkeep; reflexivity).
    destruct keep; simpl.
    + rewrite (keepLine_kept _ _ _ (eq_sym Hverdict)) in Hafter.
      split; [f_equal; exact Hkept|]. split.
      * intros key Hkey. rewrite (Houtside key) by tauto.
        rewrite Hafter. apply lookup_insert_ne. tauto.
      * intros l [<-|Hl]; [|exact (Hinside l Hl)].
        unfold Extension.toCandidate. f_equal.
        rewrite (Houtside _ Hfresh), Hafter, lookup_insert_eq.
        reflexivity.
    + rewrite (keepLine_dropped _ _ _ (eq_sym Hverdict)) in Hafter.
      subst afterLine. split; [exact Hkept|]. split.
      * intros key Hkey. apply Houtside. tauto.
      * exact Hinside.
Qed.

(** With distinct line ids the shared map is transparent: each kept line
    is emitted with the percentage computed for it. *)
Lemma candidatesOf_spec rules (cart_lines : list Extension.CartLine) :
  NoDup (List.map Extension.id cart_lines) ->
  Extension.candidatesOf rules cart_lines
  = List.map
      (fun line => Extension.toCandidate (Extension.keepLine rules ∅ line).2
                     line)
      (List.filter (fun line => (Extension.keepLine rules ∅ line).1)
         cart_lines).
Proof.
  intros Hnodup. unfold Extension.candidatesOf.
  destruct (filterLines_spec rules cart_lines ∅ Hnodup)
    as (Hkept & _ & Hinside).
  destruct (Extension.filterLines rules cart_lines ∅) as [kept final].
  simpl in *. rewrite <- Hkept. apply map_ext_in. exact Hinside.
Qed.

(** The entries of the output that target one line of a cart with
    distinct ids. *)
Lemma entriesFor_line (keep : Extension.CartLine -> bool)
    (emit : Extension.CartLine -> number)
    (cart_lines : list Extension.CartLine) line :
  NoDup (List.map Extension.id cart_lines) -> In line cart_lines ->
  Spec.entriesFor line.(Extension.id)
    (List.map (fun l => {| Extension.cartLine_id := l.(Extension.id);
                           Extension.percentage_value := emit l |})
       (List.filter keep cart_lines))
  = if keep line
    then [ {| Extension.cartLine_id := line.(Extension.id);
              Extension.percentage_value := emit line |} ]
    else [].
Proof.
  unfold Spec.entriesFor.
  assert (Hnone : forall ls : list Extension.CartLine,
    ~ In line.(Extension.id) (List.map Extension.id ls) ->
    List.filter
      (fun c => String.eqb c.(Extension.cartLine_id) line.(Extension.id))
      (List.map (fun l => {| Extension.cartLine_id := l.(Extension.id);
                             Extension.percentage_value := emit l |})
         (List.filter keep ls)) = []).
  { induction ls as [|l ls IH]; intros Hfresh; [reflexivity|]. simpl in *.
    destruct (keep l); simpl; [|apply IH; tauto].
    destruct (String.eqb_spec (Extension.id l) (Extension.id line))
      as [Heq|Hne]; [tauto|]. apply IH; tauto. }
  induction cart_lines as [|l ls IH]; intros Hnodup Hin; [destruct Hin|].
  simpl in Hnodup. apply NoDup_cons in Hnodup as [Hfresh Hnodup].
    rewrite list_elem_of_In in Hfresh.
  destruct Hin as [->|Hin].
  - simpl. destruct (keep line); simpl.
    + rewrite String.eqb_refl. f_equal. apply Hnone. exact Hfresh.
    + apply Hnone. exact Hfresh.
  - assert (Hne : Extension.id l <> Extension.id line).
    { intros Heq. apply Hfresh. rewrite Heq. apply in_map. exact Hin. }
    simpl. destruct (keep l); simpl; [|apply IH; assumption].
    apply String.eqb_neq in Hne. rewrite Hne. apply IH; assumption.
Qed.

End LineFilter.

Section Run.
Variable StringNumericValue : string -> number.
Variable JSON_parse : string -> Completion JsValue.
Local Abbreviation coerce := (coerceNumber StringNumericValue).
Local Abbreviation parseDiscountRules :=
  (Extension.parseDiscountRules StringNumericValue JSON_parse).
Local Abbreviation cartLinesDiscountsGenerateRun :=
  (Extension.cartLinesDiscountsGenerateRun StringNumericValue JSON_parse).

(** Every rule the cart function parses is validated. *)
Lemma parseDiscountRules_validated (input : Extension.CartInput)
    (rules : list Extension.DiscountRule) :
  parseDiscountRules input = Normal rules -> Forall Spec.validated rules.
Proof.
  intros Hparse. apply List.Forall_forall. intros rule Hin.
  destruct (parseDiscountRules_In _ _ _ _ _ Hparse Hin) as [v Hv].
  apply Extension_parseRule_Some in Hv
    as (props & elements & _ & _ & Hp & Hlo & Hhi & Hne & Hm & Hlt & ->).
  unfold Spec.validated. simpl.
  destruct (isFinite_Fin _ Hp) as [x Hx].
  destruct (isFinite_Fin _ Hm) as [y Hy].
  unfold gt in Hhi. rewrite Hx, Hy in *.
  apply lt_Fin_false in Hlo, Hhi, Hlt.
  rewrite !le_Fin. repeat split; assumption.
Qed.

Lemma candidatesOf_no_rule (cart_lines : list Extension.CartLine) :
  Extension.candidatesOf [] cart_lines = [].
Proof.
  unfold Extension.candidatesOf.
  assert (H : forall m : gmap string number,
             Extension.filterLines [] cart_lines m = ([], m)).
  { induction cart_lines as [|line rest IH]; intros m; [reflexivity|].
    simpl. unfold Extension.keepLine.
    destruct (Extension.merchandise line); simpl; rewrite IH; reflexivity. }
  rewrite H. reflexivity.
Qed.

(** The callback keeps a product line exactly when its [bestPercent] is
    not 0, and then records that number. *)
Lemma selection_of_line (rules : list Extension.DiscountRule)
    (cart_lines : list Extension.CartLine) (line : Extension.CartLine) :
  Forall Spec.validated rules ->
  NoDup (List.map Extension.id cart_lines) -> In line cart_lines ->
  Spec.lineOutcome rules line
    (Spec.entriesFor line.(Extension.id)
       (Extension.candidatesOf rules cart_lines)).
Proof.
  intros Hrules Hnodup Hin.
  rewrite (candidatesOf_spec _ _ Hnodup). unfold Extension.toCandidate.
  rewrite (entriesFor_line
             (fun l => (Extension.keepLine rules ∅ l).1)
             (fun l => default (Fin 0)
                         ((Extension.keepLine rules ∅ l).2
                          !! l.(Extension.id)))
             cart_lines line Hnodup Hin).
  unfold Spec.lineOutcome, Extension.keepLine.
  destruct (Extension.merchandise line) as [pid|]; [|reflexivity].
  destruct (bestPercentOf_spec rules line.(Extension.quantity) pid Hrules)
    as [[Hnil Hbest] | (Hcons & Hmax & Hnz)].
  - rewrite Hbest. simpl. split; [reflexivity|]. intros Hne. contradiction.
  - rewrite Hnz. simpl. split; [intros Hnil; contradiction|].
    intros _. eexists. split; [exact Hmax|].
    rewrite lookup_insert_eq. reflexivity.
Qed.

Lemma run_operations (input : Extension.CartInput)
    (rules : list Extension.DiscountRule) :
  parseDiscountRules input = Normal rules ->
  cartLinesDiscountsGenerateRun input
  = Normal {| Extension.operations :=
                Spec.operationsOf
                  (Extension.candidatesOf rules input.(Extension.lines)) |}.
Proof.
  intros Hparse. unfold Extension.cartLinesDiscountsGenerateRun.
  rewrite Hparse. simpl.
  destruct rules as [|rule rules]; simpl.
  - rewrite candidatesOf_no_rule. reflexivity.
  - destruct (Extension.candidatesOf (rule :: rules) _); reflexivity.
Qed.

(** C1.  For validated rules and a cart whose lines have distinct ids, the
    output entries that target a line are: none when the line carries no
    product reference; none when no rule is a candidate for it (a rule is
    one when [minQty <= quantity], its products contain the line's product
    and its [percentOff] is finite within 1..80); otherwise exactly one,
    carrying the maximum candidate [percentOff], taken from the first rule
    in rule order that reaches it.  The rules the cart function parses are
    validated and its result wraps exactly these entries.  On the rules
    A (10 percent from 2) and B (25 percent from 3) for P1, a P1 line gets
    25 at quantity 3, 10 at quantity 2 and nothing at quantity 1. *)
Theorem rule_selection :
  (forall rules cart_lines line,
     Forall Spec.validated rules ->
     NoDup (List.map Extension.id cart_lines) -> In line cart_lines ->
     Spec.lineOutcome rules line
       (Spec.entriesFor line.(Extension.id)
          (Extension.candidatesOf rules cart_lines)))
  /\ (forall input rules,
        parseDiscountRules input = Normal rules ->
        Forall Spec.validated rules
        /\ cartLinesDiscountsGenerateRun input
           = Normal {| Extension.operations :=
                         Spec.operationsOf
                           (Extension.candidatesOf rules
                              input.(Extension.lines)) |})
  /\ cartLinesDiscountsGenerateRun (Spec.cartOfP1 3)
     = Normal {| Extension.operations :=
         [Extension.productDiscountsAdd Extension.All
            [ {| Extension.cartLine_id := "gid://shopify/CartLine/1";
                 Extension.percentage_value := Fin 25 |} ]] |}
  /\ cartLinesDiscountsGenerateRun (Spec.cartOfP1 2)
     = Normal {| Extension.operations :=
         [Extension.productDiscountsAdd Extension.All
            [ {| Extension.cartLine_id := "gid://shopify/CartLine/1";
                 Extension.percentage_value := Fin 10 |} ]] |}
  /\ cartLinesDiscountsGenerateRun (Spec.cartOfP1 1)
     = Normal {| Extension.operations := [] |}.
Proof.
  split; [|split; [|split; [|split]]].
  - intros rules cart_lines line. apply selection_of_line.
  - intros input rules Hparse. split.
    + exact (parseDiscountRules_validated _ _ Hparse).
    + exact (run_operations _ _ Hparse).
  - vm_compute. reflexivity.
  - vm_compute. reflexivity.
  - vm_compute. reflexivity.
Qed.

End Run.

(** C1 on a two-line cart under two validated rules: the custom line gets
    no entry, the product line gets exactly the entry the rules owe it. *)
Lemma rule_selection_witness :
  let rules :=
    [ {| Extension.percentOff := Fin 10;
         Extension.products := ["P1"];
         Extension.minQty := Fin 2 |};
      {| Extension.percentOff := Fin 25;
         Extension.products := ["P1"; "P2"];
         Extension.minQty := Fin 3 |} ] in
  let custom :=
    {| Extension.id := "gid://shopify/CartLine/1";
       Extension.quantity := 5;
       Extension.merchandise := Extension.CustomProduct |} in
  let line :=
    {| Extension.id := "gid://shopify/CartLine/2";
       Extension.quantity := 4;
       Extension.merchandise := Extension.ProductVariant "P1" |} in
  Spec.lineOutcome rules line
    (Spec.entriesFor "gid://shopify/CartLine/2"
       (Extension.candidatesOf rules [custom; line]))
  /\ Spec.lineOutcome rules custom
       (Spec.entriesFor "gid://shopify/CartLine/1"
          (Extension.candidatesOf rules [custom; line])).
Proof.
  intros rules custom line.
  pose proof (proj1 (rule_selection Spec.noNumericStrings Spec.noJsonText))
    as Hselect.
  assert (Hrules : Forall Spec.validated rules).
  { repeat constructor; discriminate. }
  assert (Hids : NoDup (List.map Extension.id [custom; line])).
  { apply (bool_decide_unpack _). vm_compute. exact I. }
  split.
  - apply (Hselect rules [custom; line] line Hrules Hids).
    right. left. reflexivity.
  - apply (Hselect rules [custom; line] custom Hrules Hids).
    left. reflexivity.
Defined.


(** * Further properties of the code

    ** Reading back what the actions write *)

Section ReadBack.
Variable StringNumericValue : string -> number.
Variable JSON_parse : string -> Completion JsValue.
Local Abbreviation admin_parseRule := (Admin.parseRule StringNumericValue).
Local Abbreviation admin_parseRules :=
  (Admin.parseRules StringNumericValue JSON_parse).

Lemma validProducts_strings (products : list string) :
  Spec.validProducts (List.map JStr products)
  = List.filter (fun id => negb (String.eqb id "")) products.
Proof.
  unfold Spec.validProducts.
  induction products as [|id rest IH]; [reflexivity|]. simpl.
  destruct id as [|c id']; simpl; rewrite IH; reflexivity.
Qed.

Lemma filter_nonempty_id (products : list string) :
  Forall (fun id => id <> "") products ->
  List.filter (fun id => negb (String.eqb id "")) products = products.
Proof.
  induction 1 as [|id rest Hid _ IH]; [reflexivity|]. simpl.
  apply String.eqb_neq in Hid. rewrite Hid, IH. reflexivity.
Qed.

Lemma coerce_jsonNumber (n : number) :
  isFinite n = true ->
  coerceNumber StringNumericValue (Store.jsonNumber n) = n.
Proof. intros H. unfold Store.jsonNumber. rewrite H. reflexivity. Qed.

Lemma coerce_jsonNumber_not_finite (n : number) :
  isFinite n = false ->
  coerceNumber StringNumericValue (Store.jsonNumber n) = NaN.
Proof. intros H. unfold Store.jsonNumber. rewrite H. reflexivity. Qed.

(** The single-rule validator on a written rule. *)
Lemma parseRule_ruleJson (rule : Admin.DiscountRule) :
  admin_parseRule (Store.ruleJson rule) = Normal (Store.readBack rule).
Proof.
  destruct rule as [id p ps m]. unfold Store.readBack, Store.ruleJson.
  cbn [Admin.discountId Admin.percentOff Admin.products Admin.minQty].
  assert (Hfields : forall key,
    key = "percentOff" \/ key = "products" \/ key = "minQty" ->
    own_property key
      (match id with Some s => [("discountId", JStr s)] | None => [] end
       ++ [("percentOff", Store.jsonNumber p);
           ("products", JArr (List.map JStr ps));
           ("minQty", Store.jsonNumber m)])
    = own_property key
        [("percentOff", Store.jsonNumber p);
         ("products", JArr (List.map JStr ps));
         ("minQty", Store.jsonNumber m)]).
  { intros key [-> | [-> | ->]]; destruct id; reflexivity. }
  assert (Hid :
    Spec.textual
      (own_property "discountId"
         (match id with Some s => [("discountId", JStr s)] | None => [] end
          ++ [("percentOff", Store.jsonNumber p);
              ("products", JArr (List.map JStr ps));
              ("minQty", Store.jsonNumber m)])) = id).
  { destruct id; reflexivity. }
  destruct (isFinite p) eqn:Hp; cbn [negb].
  - destruct (isFinite m) eqn:Hm; cbn [negb orb].
    + destruct (lt m (Fin 2)) eqn:Hlt.
      * rewrite Admin_parseRule_minQty_rejected; [reflexivity|].
        right. rewrite Hfields by tauto. simpl.
        rewrite (coerce_jsonNumber _ Hm). exact Hlt.
      * rewrite (Admin_parseRule_accepts _ _ (List.map JStr ps));
          rewrite ?Hid, ?Hfields by tauto; simpl;
          rewrite ?(coerce_jsonNumber _ Hp), ?(coerce_jsonNumber _ Hm);
          try assumption; try reflexivity.
        rewrite validProducts_strings. reflexivity.
    + rewrite Admin_parseRule_minQty_rejected; [reflexivity|].
      left. rewrite Hfields by tauto. simpl.
      rewrite (coerce_jsonNumber_not_finite _ Hm). reflexivity.
  - rewrite Admin_parseRule_percent_not_finite; [reflexivity|].
    rewrite Hfields by tauto. simpl.
    rewrite (coerce_jsonNumber_not_finite _ Hp). reflexivity.
Qed.

Lemma mapM_map_Normal {A B C : Type} (f : B -> Completion C) (g : A -> B)
    (h : A -> C) (l : list A) :
  (forall a, f (g a) = Normal (h a)) ->
  mapM f (List.map g l) = Normal (List.map h l).
Proof.
  intros H. induction l as [|a rest IH]; [reflexivity|]. simpl.
  rewrite H. simpl. rewrite IH. reflexivity.
Qed.

(** The rule-set parser on a written document, whatever was written. *)
Lemma parseRules_metafieldValue (rules : list Admin.DiscountRule) :
  admin_parseRules (Store.metafieldValue rules)
  = Normal (filterBoolean (List.map Store.readBack rules)).
Proof.
  rewrite (Admin_parseRules_wrapped _ JSON_parse
             (Store.metafieldValue rules)
             [("rules", JArr (List.map Store.ruleJson rules))]
             (List.map Store.ruleJson rules) eq_refl eq_refl).
  rewrite (mapM_map_Normal _ _ Store.readBack _ parseRule_ruleJson).
  reflexivity.
Qed.

Lemma readBack_storable (rule : Admin.DiscountRule) :
  Store.storable rule -> Store.readBack rule = Some rule.
Proof.
  intros (Hp & Hm & Hlt & Hps). unfold Store.readBack.
  rewrite Hp, Hm, Hlt. simpl. rewrite (filter_nonempty_id _ Hps).
  destruct rule; reflexivity.
Qed.

Lemma readBack_all_storable (rules : list Admin.DiscountRule) :
  Forall Store.storable rules -> filterBoolean (List.map Store.readBack rules) = rules.
Proof.
  induction 1 as [|rule rest Hrule _ IH]; [reflexivity|]. simpl.
  rewrite (readBack_storable _ Hrule). simpl. rewrite IH. reflexivity.
Qed.

(** Every rule the admin parser returns is storable. *)
Lemma parseRules_storable (raw : JsValue) (rules : list Admin.DiscountRule) :
  admin_parseRules raw = Normal rules -> Forall Store.storable rules.
Proof.
  intros Hparse. apply List.Forall_forall. intros rule Hin.
  destruct (Admin_parseRules_In _ _ _ _ _ Hparse Hin) as [v Hv].
  apply Admin_parseRule_Some in Hv
    as (props & elements & _ & _ & Hp & Hm & Hlt & ->).
  unfold Store.storable. simpl. repeat split; try assumption.
  apply List.Forall_forall. intros id Hid.
  apply validProducts_spec in Hid. tauto.
Qed.

(** X1.  Write, then read: a set of rules whose numbers are finite, whose
    [minQty] is at least 2 and whose product ids are non-empty is parsed
    back from the written document exactly as it was, also when the
    document arrives as text that decodes to it. *)
Theorem write_read_roundtrip (rules : list Admin.DiscountRule) :
  Forall Store.storable rules ->
  admin_parseRules (Store.metafieldValue rules) = Normal rules
  /\ (forall text,
        JSON_parse text = Normal (Store.metafieldValue rules) ->
        admin_parseRules (JStr text) = Normal rules).
Proof.
  intros Hrules.
  assert (Hvalue : admin_parseRules (Store.metafieldValue rules)
                   = Normal rules).
  { rewrite parseRules_metafieldValue, (readBack_all_storable _ Hrules).
    reflexivity. }
  split; [exact Hvalue|]. intros text Htext.
  rewrite <- Hvalue. unfold Admin.parseRules. rewrite Htext. reflexivity.
Qed.

(** X2.  Read, write, read: whatever the stored value is, writing the
    parsed rules in the canonical shape and parsing that again gives the
    same rules; the canonical document of a parsed set is a fixed point
    of the parser. *)
Theorem read_write_read (raw : JsValue) :
  exists rules,
    admin_parseRules raw = Normal rules
    /\ admin_parseRules (Store.metafieldValue rules) = Normal rules.
Proof.
  destruct (Admin_parseRules_returns StringNumericValue JSON_parse raw)
    as [rules Hparse].
  exists rules. split; [exact Hparse|].
  rewrite parseRules_metafieldValue.
  rewrite (readBack_all_storable _ (parseRules_storable _ _ Hparse)).
  reflexivity.
Qed.

End ReadBack.


(** X1 on a stored set of two rules, one without identifier. *)
Lemma write_read_roundtrip_witness :
  let rules :=
    [ {| Admin.discountId := None;
         Admin.percentOff := Fin 90;
         Admin.products := ["P1"];
         Admin.minQty := Fin 2 |};
      Spec.upserted "gid://shopify/DiscountNode/1" ["P1"; "P2"] (Fin 15) ] in
  Admin.parseRules Spec.noNumericStrings Spec.noJsonText
    (Store.metafieldValue rules) = Normal rules.
Proof.
  intros rules.
  apply (write_read_roundtrip Spec.noNumericStrings Spec.noJsonText rules).
  repeat constructor; discriminate.
Defined.

(** ** The two parsers on the same stored value *)

Section ParserAgreement.
Variable StringNumericValue : string -> number.
Variable JSON_parse : string -> Completion JsValue.
Local Abbreviation admin_parseRule := (Admin.parseRule StringNumericValue).
Local Abbreviation admin_parseRules :=
  (Admin.parseRules StringNumericValue JSON_parse).
Local Abbreviation parseRule := (Extension.parseRule StringNumericValue).
Local Abbreviation parseDiscountRules :=
  (Extension.parseDiscountRules StringNumericValue JSON_parse).

(** On every value the evaluation-side validator returns what the
    admin-side one returns, cut down by [toEvaluation]. *)
Lemma parseRule_agree (v : JsValue) :
  exists r,
    admin_parseRule v = Normal r
    /\ parseRule v = Normal (r ≫= Store.toEvaluation).
Proof.
  destruct v as [| |b|n|s|elements|props];
    try (exists None; split;
         [apply Admin_parseRule_not_object|
          apply Extension_parseRule_not_object]; discriminate).
  unfold Admin.parseRule, Extension.parseRule, Store.toEvaluation. simpl.
  destruct (isFinite _) eqn:Hp; simpl; [|eexists; split; reflexivity].
  destruct (own_property "products" props) as [| | | | |elements|];
    try (destruct (lt _ (Fin 1) || gt _ (Fin 80));
         eexists; split; reflexivity).
  simpl. fold (Spec.validProducts elements).
  destruct (isFinite (coerceNumber _ (own_property "minQty" props))) eqn:Hm;
    simpl.
  - destruct (lt (coerceNumber _ (own_property "minQty" props)) (Fin 2));
      simpl.
    + destruct (lt _ (Fin 1) || gt _ (Fin 80));
        [|destruct (Nat.eqb _ 0)]; eexists; split; reflexivity.
    + eexists. split; [reflexivity|]. simpl.
      destruct (lt _ (Fin 1) || gt _ (Fin 80)); [reflexivity|].
      destruct (Nat.eqb _ 0); reflexivity.
  - destruct (lt _ (Fin 1) || gt _ (Fin 80));
      [|destruct (Nat.eqb _ 0)]; eexists; split; reflexivity.
Qed.

Lemma mapM_agree (elements : list JsValue) :
  exists parsed,
    mapM admin_parseRule elements = Normal parsed
    /\ mapM parseRule elements
       = Normal (List.map (fun r => r ≫= Store.toEvaluation) parsed).
Proof.
  induction elements as [|v rest (parsed & Hadmin & Hcart)].
  - exists []. split; reflexivity.
  - destruct (parseRule_agree v) as (r & Hr & Hr').
    exists (r :: parsed). simpl.
    rewrite Hr, Hr'. simpl. rewrite Hadmin, Hcart. split; reflexivity.
Qed.

Lemma filterBoolean_bind {A B : Type} (f : A -> option B)
    (l : list (option A)) :
  filterBoolean (List.map (fun r => r ≫= f) l)
  = filterBoolean (List.map f (filterBoolean l)).
Proof.
  induction l as [|[a|] rest IH]; simpl; [reflexivity| |exact IH].
  destruct (f a); rewrite IH; reflexivity.
Qed.

(** The cart function's parse result, from the admin routes' one. *)
Lemma parseDiscountRules_of_admin (raw : JsValue) (cart_lines : list Extension.CartLine) :
  exists rules,
    admin_parseRules raw = Normal rules
    /\ parseDiscountRules {| Extension.lines := cart_lines;
                             Extension.jsonValue := Some raw |}
       = Normal (filterBoolean (List.map Store.toEvaluation rules)).
Proof.
  set (input := {| Extension.lines := cart_lines;
                   Extension.jsonValue := Some raw |}).
  assert (Hraw : Spec.rawOf input = raw) by reflexivity.
  destruct (Spec.decoded JSON_parse raw) as [v|e] eqn:Hdec.
  - pose proof Hdec as Hdec'. rewrite <- Hraw in Hdec'.
    destruct v as [| |b|n|s|elements|props].
    1-5: exists []; split;
      [eapply Admin_parseRules_not_structured; eauto
      |eapply parseDiscountRules_not_structured; eauto].
    + exists []. split;
        [eapply Admin_parseRules_array; eauto
        |eapply parseDiscountRules_array; eauto].
    + destruct (own_property "rules" props) as [| | | | |elements|] eqn:Hr.
      6: { destruct (mapM_agree elements) as (parsed & Hadmin & Hcart).
           exists (filterBoolean parsed).
           rewrite (Admin_parseRules_wrapped _ _ _ _ _ Hdec Hr), Hadmin.
           rewrite (parseDiscountRules_wrapped _ _ _ _ _ Hdec' Hr), Hcart.
           simpl. rewrite filterBoolean_bind. split; reflexivity. }
      all: destruct (parseRule_agree (JObj props)) as (r & Hadmin & Hcart);
        exists (match r with Some rule => [rule] | None => [] end);
        rewrite (Admin_parseRules_legacy _ _ _ _ Hdec)
          by (rewrite Hr; reflexivity);
        rewrite (parseDiscountRules_legacy _ _ _ _ Hdec')
          by (rewrite Hr; reflexivity);
        rewrite Hadmin, Hcart; simpl;
        (split; [reflexivity|]);
        destruct r as [rule|]; simpl; [|reflexivity];
        destruct (Store.toEvaluation rule); reflexivity.
  - pose proof Hdec as Hdec'. rewrite <- Hraw in Hdec'.
    exists []. split;
      [eapply Admin_parseRules_undecodable; eauto
      |eapply parseDiscountRules_undecodable; eauto].
Qed.


(** X3.  On every stored value, the rules the cart function parses are
    the rules the admin routes parse, in the same order, without their
    [discountId], minus those whose [percentOff] is outside 1..80 or whose
    product list is empty. *)
Theorem parsers_agree (raw : JsValue) (cart_lines : list Extension.CartLine) :
  exists rules,
    admin_parseRules raw = Normal rules
    /\ parseDiscountRules {| Extension.lines := cart_lines;
                             Extension.jsonValue := Some raw |}
       = Normal (filterBoolean (List.map Store.toEvaluation rules)).
Proof. exact (parseDiscountRules_of_admin raw cart_lines). Qed.

Lemma mapM_app {A B : Type} (f : A -> Completion B) (l1 l2 : list A)
    (r1 r2 : list B) :
  mapM f l1 = Normal r1 -> mapM f l2 = Normal r2 ->
  mapM f (l1 ++ l2) = Normal (r1 ++ r2).
Proof.
  revert r1. induction l1 as [|a rest IH]; intros r1 H1 H2; simpl in *.
  - injection H1 as <-. exact H2.
  - destruct (f a) as [b|e]; simpl in *; [|discriminate].
    destruct (mapM f rest) as [bs|e]; simpl in *; [|discriminate].
    injection H1 as <-. rewrite (IH bs eq_refl H2). reflexivity.
Qed.

Lemma filterBoolean_app {A : Type} (l1 l2 : list (option A)) :
  filterBoolean (l1 ++ l2) = filterBoolean l1 ++ filterBoolean l2.
Proof.
  induction l1 as [|[a|] rest IH]; simpl; [reflexivity| |exact IH].
  rewrite IH. reflexivity.
Qed.

(** X4.  The elements of a [rules] array are parsed independently and in
    order: parsing the concatenation of two arrays gives the concatenation
    of what each parses to, so an invalid element removes nothing but
    itself.  Both parsers. *)
Theorem rules_parsed_independently (first second : list JsValue)
    (cart_lines : list Extension.CartLine) :
  let stored elements := JObj [("rules", JArr elements)] in
  let cart elements := {| Extension.lines := cart_lines;
                          Extension.jsonValue := Some (stored elements) |} in
  (exists r1 r2,
     admin_parseRules (stored first) = Normal r1
     /\ admin_parseRules (stored second) = Normal r2
     /\ admin_parseRules (stored (first ++ second)) = Normal (r1 ++ r2))
  /\ (exists r1 r2,
        parseDiscountRules (cart first) = Normal r1
        /\ parseDiscountRules (cart second) = Normal r2
        /\ parseDiscountRules (cart (first ++ second)) = Normal (r1 ++ r2)).
Proof.
  intros stored cart. split.
  - destruct (mapM_Normal admin_parseRule first
                (Admin_parseRule_total StringNumericValue)) as (p1 & H1 & _).
    destruct (mapM_Normal admin_parseRule second
                (Admin_parseRule_total StringNumericValue)) as (p2 & H2 & _).
    exists (filterBoolean p1), (filterBoolean p2).
    unfold stored.
    rewrite !(Admin_parseRules_wrapped _ JSON_parse (JObj [("rules", JArr _)])
                [("rules", JArr _)] _ eq_refl eq_refl).
    rewrite (mapM_app _ _ _ _ _ H1 H2), H1, H2. simpl.
    rewrite filterBoolean_app. repeat split.
  - destruct (mapM_Normal parseRule first
                (Extension_parseRule_total StringNumericValue))
      as (p1 & H1 & _).
    destruct (mapM_Normal parseRule second
                (Extension_parseRule_total StringNumericValue))
      as (p2 & H2 & _).
    exists (filterBoolean p1), (filterBoolean p2).
    unfold cart, stored.
    rewrite !(parseDiscountRules_wrapped _ JSON_parse
                {| Extension.lines := cart_lines;
                   Extension.jsonValue := Some (JObj [("rules", JArr _)]) |}
                [("rules", JArr _)] _ eq_refl eq_refl).
    rewrite (mapM_app _ _ _ _ _ H1 H2), H1, H2. simpl.
    rewrite filterBoolean_app. repeat split.
Qed.

End ParserAgreement.


(** ** What the cart function can emit *)

Section Emitted.
Implicit Types (rules : list Extension.DiscountRule).
Implicit Types (line : Extension.CartLine).

Lemma le_refl_finite (a : number) : isFinite a = true -> le a a = true.
Proof. intros [x ->]%isFinite_Fin. apply le_Fin. apply Qle_refl. Qed.

Lemma lt_le_finite (a b : number) : lt a b = true -> le a b = true.
Proof.
  destruct a as [|[]|x], b as [|[]|y]; try discriminate; try reflexivity.
  rewrite lt_Fin, le_Fin. apply Qlt_le_weak.
Qed.

Lemma le_trans_number (a b c : number) :
  le a b = true -> le b c = true -> le a c = true.
Proof.
  destruct a as [|[]|x], b as [|[]|y], c as [|[]|z];
    try discriminate; try reflexivity.
  rewrite !le_Fin. apply Qle_trans.
Qed.

Lemma firstMaximum_In (p : number) (cands : list Extension.DiscountRule) :
  Spec.firstMaximum p cands ->
  exists rule, In rule cands /\ rule.(Extension.percentOff) = p.
Proof.
  intros (before & rule & after & -> & Hp & _).
  exists rule. split; [apply in_elt|exact Hp].
Qed.

Lemma firstMaximum_upper (p : number) (cands : list Extension.DiscountRule)
    (rule : Extension.DiscountRule) :
  Forall Spec.validated cands -> Spec.firstMaximum p cands ->
  In rule cands -> le rule.(Extension.percentOff) p = true.
Proof.
  intros Hvalid (before & top & after & -> & Hp & Hb & Ha) Hin.
  rewrite List.Forall_forall in Hvalid, Hb, Ha.
  apply in_app_or in Hin as [Hin | [<- | Hin]].
  - apply lt_le_finite. exact (Hb _ Hin).
  - rewrite <- Hp. apply le_refl_finite.
    apply (Hvalid top). apply in_elt.
  - exact (Ha _ Hin).
Qed.

(** [bestPercent] is attained by a candidate unless it is 0, and bounds
    every candidate from above. *)
Lemma bestPercentOf_attained rules q pid :
  Forall Spec.validated rules ->
  Extension.bestPercentOf rules q pid = Fin 0
  \/ exists rule,
       In rule rules /\ Spec.candidate q pid rule = true
       /\ rule.(Extension.percentOff) = Extension.bestPercentOf rules q pid.
Proof.
  intros Hrules.
  destruct (bestPercentOf_spec rules q pid Hrules)
    as [[_ Hzero] | (_ & Hmax & _)]; [left; exact Hzero|right].
  destruct (firstMaximum_In _ _ Hmax) as (rule & Hin & Hp).
  apply filter_In in Hin as [Hin Hc]. exists rule. auto.
Qed.

Lemma bestPercentOf_upper rules q pid (rule : Extension.DiscountRule) :
  Forall Spec.validated rules -> In rule rules ->
  Spec.candidate q pid rule = true ->
  le rule.(Extension.percentOff) (Extension.bestPercentOf rules q pid) = true.
Proof.
  intros Hrules Hin Hc.
  assert (Hcand : In rule (Spec.candidates rules q pid))
    by (apply filter_In; auto).
  destruct (bestPercentOf_spec rules q pid Hrules)
    as [[Hnil _] | (_ & Hmax & _)].
  - rewrite Hnil in Hcand. destruct Hcand.
  - exact (firstMaximum_upper _ _ _
             (candidates_validated _ q pid Hrules) Hmax Hcand).
Qed.

Lemma validated_inRange (rule : Extension.DiscountRule) :
  Spec.validated rule -> Store.inRange rule.(Extension.percentOff).
Proof. intros (Hp & Hlo & Hhi & _). repeat split; assumption. Qed.

(** What keeping a line means. *)
Lemma keepLine_true rules line :
  Forall Spec.validated rules ->
  (Extension.keepLine rules ∅ line).1 = true ->
  exists pid rule,
    line.(Extension.merchandise) = Extension.ProductVariant pid
    /\ In rule rules
    /\ Spec.candidate line.(Extension.quantity) pid rule = true
    /\ (Extension.keepLine rules ∅ line).2 !! line.(Extension.id)
       = Some rule.(Extension.percentOff).
Proof.
  intros Hrules. unfold Extension.keepLine.
  destruct (Extension.merchandise line) as [pid|]; [|discriminate].
  destruct (strict_eq _ _) eqn:Hz; [discriminate|]. intros _.
  destruct (bestPercentOf_attained rules line.(Extension.quantity) pid Hrules)
    as [Hzero | (rule & Hin & Hc & Hp)].
  - rewrite Hzero in Hz. discriminate Hz.
  - exists pid, rule. repeat split; try assumption.
    simpl. rewrite lookup_insert_eq, Hp. reflexivity.
Qed.

(** The shared map without any assumption on line ids: every value it
    holds was computed for some kept line, and every kept line finds a
    value under its id. *)
Lemma filterLines_invariant (P : number -> Prop) rules
    (cart_lines : list Extension.CartLine) (m : gmap string number) :
  (forall line,
     (Extension.keepLine rules ∅ line).1 = true ->
     forall v, (Extension.keepLine rules ∅ line).2 !! line.(Extension.id)
               = Some v -> P v) ->
  map_Forall (fun _ v => P v) m ->
  (Extension.filterLines rules cart_lines m).1
  = List.filter (fun line => (Extension.keepLine rules ∅ line).1) cart_lines
  /\ map_Forall (fun _ v => P v) (Extension.filterLines rules cart_lines m).2
  /\ (forall key, is_Some (m !! key) ->
        is_Some ((Extension.filterLines rules cart_lines m).2 !! key))
  /\ (forall line,
        In line (Extension.filterLines rules cart_lines m).1 ->
        is_Some ((Extension.filterLines rules cart_lines m).2
                 !! line.(Extension.id))).
Proof.
  intros Hkeep. revert m.
  induction cart_lines as [|line rest IH]; intros m Hm.
  - simpl. repeat split; [exact Hm|auto|intros line []].
  - simpl.
    pose proof (keepLine_verdict rules m line) as Hverdict.
    destruct (Extension.keepLine rules m line) as [keep afterLine] eqn:Hk.
    simpl in Hverdict. rewrite <- Hverdict.
    assert (Hafter : afterLine = (Extension.keepLine rules m line).2)
      by (rewrite Hk; reflexivity).
    destruct keep.
    + rewrite (keepLine_kept _ _ _ (eq_sym Hverdict)) in Hafter.
      assert (Hsome : exists v,
        (Extension.keepLine rules ∅ line).2 !! line.(Extension.id) = Some v).
      { revert Hverdict. unfold Extension.keepLine.
        destruct (Extension.merchandise line); [|discriminate].
        destruct (strict_eq _ _); [discriminate|]. intros _.
        simpl. rewrite lookup_insert_eq. eauto. }
      destruct Hsome as [v Hv]. rewrite Hv in Hafter. simpl in Hafter.
      assert (Hm' : map_Forall (fun _ v => P v) afterLine).
      { rewrite Hafter. apply map_Forall_insert_2; [|exact Hm].
        exact (Hkeep line (eq_sym Hverdict) v Hv). }
      destruct (IH afterLine Hm') as (Hkept & Hall & Hdom & Hin).
      destruct (Extension.filterLines rules rest afterLine)
        as [kept final]. simpl in *.
      split; [f_equal; exact Hkept|]. split; [exact Hall|]. split.
      * intros key Hkey. apply Hdom. rewrite Hafter.
        destruct (decide (line.(Extension.id) = key)) as [->|Hne].
        -- rewrite lookup_insert_eq. eauto.
        -- rewrite lookup_insert_ne by exact Hne. exact Hkey.
      * intros l [<-|Hl]; [|exact (Hin l Hl)].
        apply Hdom. rewrite Hafter, lookup_insert_eq. eauto.
    + rewrite (keepLine_dropped _ _ _ (eq_sym Hverdict)) in Hafter.
      subst afterLine.
      destruct (IH m Hm) as (Hkept & Hall & Hdom & Hin).
      destruct (Extension.filterLines rules rest m) as [kept final].
      simpl in *. repeat split; assumption.
Qed.

(** Every output entry, for validated rules and any cart. *)
Lemma candidatesOf_entries rules (cart_lines : list Extension.CartLine)
    (c : Extension.Candidate) :
  Forall Spec.validated rules ->
  In c (Extension.candidatesOf rules cart_lines) ->
  Store.inRange c.(Extension.percentage_value)
  /\ exists line pid rule,
       In line cart_lines
       /\ line.(Extension.id) = c.(Extension.cartLine_id)
       /\ line.(Extension.merchandise) = Extension.ProductVariant pid
       /\ In rule rules
       /\ Spec.candidate line.(Extension.quantity) pid rule = true.
Proof.
  intros Hrules Hin. unfold Extension.candidatesOf in Hin.
  destruct (filterLines_invariant Store.inRange rules cart_lines ∅)
    as (Hkept & Hall & _ & Hsome).
  { intros line Hkeep v Hv.
    destruct (keepLine_true _ _ Hrules Hkeep)
      as (pid & rule & _ & Hr & _ & Hlookup).
    rewrite Hlookup in Hv. injection Hv as <-.
    apply validated_inRange. rewrite List.Forall_forall in Hrules. auto. }
  { apply map_Forall_empty. }
  destruct (Extension.filterLines rules cart_lines ∅) as [kept final].
  simpl in *. apply in_map_iff in Hin as (line & <- & Hline).
  split.
  - destruct (Hsome line Hline) as [v Hv].
    unfold Extension.toCandidate. simpl. rewrite Hv. simpl.
    exact (Hall _ _ Hv).
  - rewrite Hkept in Hline. apply filter_In in Hline as [Hline Hkeep].
    destruct (keepLine_true _ _ Hrules Hkeep)
      as (pid & rule & Hm & Hr & Hc & _).
    exists line, pid, rule. repeat split; assumption.
Qed.

Lemma candidate_quantity (q : Z) (pid : string)
    (rule : Extension.DiscountRule) :
  Spec.validated rule -> Spec.candidate q pid rule = true ->
  (2 <= q)%Z /\ Extension.includes rule.(Extension.products) pid = true.
Proof.
  intros (_ & _ & _ & _ & Hm & Htwo) Hc. unfold Spec.candidate in Hc.
  rewrite !andb_true_iff in Hc. destruct Hc as ((((Hle & Hinc) & _) & _) & _).
  split; [|exact Hinc].
  apply isFinite_Fin in Hm as [m Hm]. rewrite Hm in *.
  unfold Extension.ofInt in Hle. apply le_Fin in Htwo, Hle.
  rewrite Zle_Qle. exact (Qle_trans _ _ _ Htwo Hle).
Qed.

End Emitted.


Section RunOutput.
Variable StringNumericValue : string -> number.
Variable JSON_parse : string -> Completion JsValue.
Local Abbreviation parseDiscountRules :=
  (Extension.parseDiscountRules StringNumericValue JSON_parse).
Local Abbreviation cartLinesDiscountsGenerateRun :=
  (Extension.cartLinesDiscountsGenerateRun StringNumericValue JSON_parse).

Lemma run_output (input : Extension.CartInput) :
  exists rules,
    parseDiscountRules input = Normal rules
    /\ Forall Spec.validated rules
    /\ cartLinesDiscountsGenerateRun input
       = Normal {| Extension.operations :=
                     Spec.operationsOf
                       (Extension.candidatesOf rules
                          input.(Extension.lines)) |}.
Proof.
  destruct (parseDiscountRules_returns StringNumericValue JSON_parse input)
    as [rules Hparse].
  exists rules. split; [exact Hparse|]. split.
  - exact (parseDiscountRules_validated _ _ _ _ Hparse).
  - exact (run_operations _ _ _ _ Hparse).
Qed.

(** X5.  Whatever is stored and whatever the cart holds, every entry the
    cart function emits targets a line of the cart that references a
    product, has a quantity of at least 2, and is matched by a parsed rule
    listing that product with [minQty] at most the line's quantity.  A
    line of quantity 1 (or less) is never discounted. *)
Theorem emitted_lines_qualify (input : Extension.CartInput) :
  exists rules out,
    parseDiscountRules input = Normal rules
    /\ cartLinesDiscountsGenerateRun input
       = Normal {| Extension.operations := Spec.operationsOf out |}
    /\ forall c, In c out ->
         exists line pid rule,
           In line input.(Extension.lines)
           /\ line.(Extension.id) = c.(Extension.cartLine_id)
           /\ line.(Extension.merchandise) = Extension.ProductVariant pid
           /\ (2 <= line.(Extension.quantity))%Z
           /\ In rule rules
           /\ Extension.includes rule.(Extension.products) pid = true
           /\ le rule.(Extension.minQty)
                (Extension.ofInt line.(Extension.quantity)) = true.
Proof.
  destruct (run_output input) as (rules & Hparse & Hrules & Hrun).
  exists rules, (Extension.candidatesOf rules input.(Extension.lines)).
  split; [exact Hparse|]. split; [exact Hrun|]. intros c Hc.
  destruct (candidatesOf_entries _ _ _ Hrules Hc)
    as (_ & line & pid & rule & Hline & Hid & Hm & Hr & Hcand).
  exists line, pid, rule.
  assert (Hvalid : Spec.validated rule)
    by (rewrite List.Forall_forall in Hrules; auto).
  destruct (candidate_quantity _ _ _ Hvalid Hcand) as [Hq Hinc].
  repeat split; try assumption.
  unfold Spec.candidate in Hcand. rewrite !andb_true_iff in Hcand. tauto.
Qed.

(** X6.  Every percentage the cart function emits is a finite number
    between 1 and 80, whatever is stored and whatever the cart holds
    (line ids need not even be distinct). *)
Theorem emitted_percentage_in_range (input : Extension.CartInput) :
  exists out,
    cartLinesDiscountsGenerateRun input
    = Normal {| Extension.operations := Spec.operationsOf out |}
    /\ Forall (fun c => Store.inRange c.(Extension.percentage_value)) out.
Proof.
  destruct (run_output input) as (rules & _ & Hrules & Hrun).
  exists (Extension.candidatesOf rules input.(Extension.lines)).
  split; [exact Hrun|]. apply List.Forall_forall. intros c Hc.
  exact (proj1 (candidatesOf_entries _ _ _ Hrules Hc)).
Qed.



End RunOutput.

(** ** How the selected percentage moves with the cart and the rules *)

Section Monotone.
Implicit Types (rules : list Extension.DiscountRule) (q : Z) (pid : string).

Lemma bestPercentOf_at_least_zero rules q pid :
  Forall Spec.validated rules ->
  le (Fin 0) (Extension.bestPercentOf rules q pid) = true.
Proof.
  intros Hrules.
  destruct (bestPercentOf_attained rules q pid Hrules)
    as [-> | (rule & Hin & _ & <-)]; [reflexivity|].
  rewrite List.Forall_forall in Hrules.
  destruct (Hrules rule Hin) as (_ & Hlo & _).
  exact (le_trans_number (Fin 0) (Fin 1) _ eq_refl Hlo).
Qed.

(** If every candidate of one situation is a candidate of the other, the
    other's [bestPercent] is at least as high. *)
Lemma bestPercentOf_le rules rules' q q' pid :
  Forall Spec.validated rules -> Forall Spec.validated rules' ->
  (forall rule, In rule rules -> Spec.candidate q pid rule = true ->
                In rule rules' /\ Spec.candidate q' pid rule = true) ->
  le (Extension.bestPercentOf rules q pid)
     (Extension.bestPercentOf rules' q' pid) = true.
Proof.
  intros Hrules Hrules' Hsub.
  destruct (bestPercentOf_attained rules q pid Hrules)
    as [-> | (rule & Hin & Hc & <-)].
  - apply bestPercentOf_at_least_zero. exact Hrules'.
  - destruct (Hsub rule Hin Hc) as [Hin' Hc'].
    exact (bestPercentOf_upper _ _ _ _ Hrules' Hin' Hc').
Qed.

Lemma candidate_more_quantity q q' pid (rule : Extension.DiscountRule) :
  (q <= q')%Z -> Spec.candidate q pid rule = true ->
  Spec.candidate q' pid rule = true.
Proof.
  intros Hq. unfold Spec.candidate. rewrite !andb_true_iff.
  intros ((((Hle & Hinc) & Hp) & Hlo) & Hhi). repeat split; try assumption.
  apply (le_trans_number _ _ _ Hle). unfold Extension.ofInt.
  apply le_Fin. rewrite <- Zle_Qle. exact Hq.
Qed.

(** X8.  For validated rules, raising a line's quantity never lowers the
    percentage selected for it. *)
Theorem more_quantity_never_lowers rules q q' pid :
  Forall Spec.validated rules -> (q <= q')%Z ->
  le (Extension.bestPercentOf rules q pid)
     (Extension.bestPercentOf rules q' pid) = true.
Proof.
  intros Hrules Hq. apply bestPercentOf_le; try assumption.
  intros rule Hin Hc. split; [exact Hin|].
  exact (candidate_more_quantity _ _ _ _ Hq Hc).
Qed.

(** X9.  For validated rules, the percentage selected for a line does not
    go down when rules are added, and does not depend on the order of the
    rules: two rule lists with the same members select equal numbers. *)
Theorem selection_monotone_in_rules rules rules' q pid :
  Forall Spec.validated rules -> Forall Spec.validated rules' ->
  (forall rule, In rule rules -> In rule rules') ->
  le (Extension.bestPercentOf rules q pid)
     (Extension.bestPercentOf rules' q pid) = true
  /\ ((forall rule, In rule rules' -> In rule rules) ->
      le (Extension.bestPercentOf rules' q pid)
         (Extension.bestPercentOf rules q pid) = true).
Proof.
  intros Hrules Hrules' Hsub. split.
  - apply bestPercentOf_le; try assumption. intros rule Hin Hc. auto.
  - intros Hsup. apply bestPercentOf_le; try assumption.
    intros rule Hin Hc. auto.
Qed.

End Monotone.

Lemma more_quantity_never_lowers_witness :
  let rules :=
    [ {| Extension.percentOff := Fin 10;
         Extension.products := ["P1"];
         Extension.minQty := Fin 2 |};
      {| Extension.percentOff := Fin 25;
         Extension.products := ["P1"];
         Extension.minQty := Fin 3 |} ] in
  le (Extension.bestPercentOf rules 2 "P1")
     (Extension.bestPercentOf rules 3 "P1") = true.
Proof.
  intros rules. apply (more_quantity_never_lowers rules 2 3 "P1"); [|lia].
  repeat constructor; discriminate.
Defined.

Lemma selection_monotone_in_rules_witness :
  let ruleA := {| Extension.percentOff := Fin 10;
                  Extension.products := ["P1"];
                  Extension.minQty := Fin 2 |} in
  let ruleB := {| Extension.percentOff := Fin 25;
                  Extension.products := ["P1"];
                  Extension.minQty := Fin 3 |} in
  le (Extension.bestPercentOf [ruleA; ruleB] 3 "P1")
     (Extension.bestPercentOf [ruleB; ruleA] 3 "P1") = true
  /\ le (Extension.bestPercentOf [ruleB; ruleA] 3 "P1")
        (Extension.bestPercentOf [ruleA; ruleB] 3 "P1") = true.
Proof.
  intros ruleA ruleB.
  assert (H1 : Forall Spec.validated [ruleA; ruleB])
    by (repeat constructor; discriminate).
  assert (H2 : Forall Spec.validated [ruleB; ruleA])
    by (repeat constructor; discriminate).
  destruct (selection_monotone_in_rules [ruleA; ruleB] [ruleB; ruleA]
              3 "P1" H1 H2) as [Hle Hge].
  { simpl. tauto. }
  split; [exact Hle|]. apply Hge. simpl. tauto.
Defined.


(** ** How upserts compose *)

Section Upserts.
Implicit Types (existing : list Admin.DiscountRule) (id : string).
Implicit Types (products : list string) (percentOff : number).

Local Abbreviation others id :=
  (List.filter (fun rule => negb (Spec.tiedTo id rule))).

Lemma others_commute existing (a b : string) :
  others a (others b existing) = others b (others a existing).
Proof.
  induction existing as [|rule rest IH]; [reflexivity|]. simpl.
  destruct (negb (Spec.tiedTo a rule)) eqn:Ha,
           (negb (Spec.tiedTo b rule)) eqn:Hb;
    simpl; rewrite ?Ha, ?Hb, IH; reflexivity.
Qed.

Lemma upserted_not_tied (a b : string) products percentOff :
  a <> b -> Spec.tiedTo a (Spec.upserted b products percentOff) = false.
Proof.
  intros Hne. unfold Spec.tiedTo. simpl. apply String.eqb_neq. congruence.
Qed.

(** X10.  Last write wins: upserting a discount that was upserted before
    leaves exactly what the second upsert alone would have written,
    whatever the first one carried; this also holds when the second write
    is the edit action's. *)
Theorem last_write_wins existing id products percentOff
    (products' : list string) (percentOff' : number) :
  id <> "" ->
  Admin.updatedRules (Admin.updatedRules existing id products percentOff)
    id products' percentOff'
  = Admin.updatedRules existing id products' percentOff'
  /\ (forall updateId,
        Admin.updatedRules_edit
          (Admin.updatedRules existing id products percentOff)
          (Some id) updateId products' percentOff'
        = Admin.updatedRules existing id products' percentOff').
Proof.
  intros Hid.
  assert (Hcreate :
    Admin.updatedRules (Admin.updatedRules existing id products percentOff)
      id products' percentOff'
    = Admin.updatedRules existing id products' percentOff').
  { rewrite !(updatedRules_others _ _ _ _ Hid).
    rewrite List.filter_app. simpl. rewrite upserted_tied. simpl.
    rewrite app_nil_r, others_idempotent. reflexivity. }
  split; [exact Hcreate|]. intros updateId.
  rewrite (updatedRules_edit_node _ _ _ _ _ Hid). exact Hcreate.
Qed.

(** X11.  Upserts of two different discounts do not disturb each other:
    in either order the result is the existing rules tied to neither,
    followed by the two upserted rules (in the order written). *)
Theorem upserts_of_different_discounts existing (a b : string)
    (productsA productsB : list string) (percentA percentB : number) :
  a <> "" -> b <> "" -> a <> b ->
  Admin.updatedRules (Admin.updatedRules existing a productsA percentA)
    b productsB percentB
  = others a (others b existing)
    ++ [Spec.upserted a productsA percentA;
        Spec.upserted b productsB percentB]
  /\ Admin.updatedRules (Admin.updatedRules existing b productsB percentB)
       a productsA percentA
     = others a (others b existing)
       ++ [Spec.upserted b productsB percentB;
           Spec.upserted a productsA percentA].
Proof.
  intros Ha Hb Hne.
  rewrite !(updatedRules_others _ _ _ _ Ha), !(updatedRules_others _ _ _ _ Hb).
  rewrite !List.filter_app. simpl.
  rewrite (upserted_not_tied b a) by congruence.
  rewrite (upserted_not_tied a b) by congruence. simpl.
  rewrite <- !app_assoc. simpl.
  rewrite (others_commute existing b a). split; reflexivity.
Qed.

(** X12.  After an upsert exactly one rule is tied to the upserted
    discount, however many the stored set held for it before. *)
Theorem one_rule_per_upserted_discount existing id products percentOff :
  id <> "" ->
  List.filter (Spec.tiedTo id)
    (Admin.updatedRules existing id products percentOff)
  = [Spec.upserted id products percentOff].
Proof.
  intros Hid. rewrite (updatedRules_others _ _ _ _ Hid), List.filter_app.
  simpl. rewrite upserted_tied.
  assert (Hnone : List.filter (Spec.tiedTo id) (others id existing) = []).
  { induction existing as [|rule rest IH]; [reflexivity|]. simpl.
    destruct (Spec.tiedTo id rule) eqn:E; simpl; [exact IH|].
    rewrite E. exact IH. }
  rewrite Hnone. reflexivity.
Qed.

End Upserts.

Lemma last_write_wins_witness :
  let stored :=
    [ Spec.upserted "gid://shopify/DiscountNode/2" ["P3"] (Fin 30) ] in
  Admin.updatedRules
    (Admin.updatedRules stored "gid://shopify/DiscountNode/1" ["P1"] (Fin 10))
    "gid://shopify/DiscountNode/1" ["P1"; "P2"] (Fin 15)
  = stored ++ [Spec.upserted "gid://shopify/DiscountNode/1" ["P1"; "P2"]
                 (Fin 15)].
Proof.
  intros stored.
  exact (proj1 (last_write_wins stored "gid://shopify/DiscountNode/1"
                  ["P1"] (Fin 10) ["P1"; "P2"] (Fin 15)
                  ltac:(discriminate))).
Defined.

Lemma upserts_of_different_discounts_witness :
  let legacy := {| Admin.discountId := None;
                   Admin.percentOff := Fin 20;
                   Admin.products := ["P2"];
                   Admin.minQty := Fin 3 |} in
  Admin.updatedRules
    (Admin.updatedRules [legacy] "gid://shopify/DiscountNode/1" ["P1"]
       (Fin 10))
    "gid://shopify/DiscountNode/2" ["P3"] (Fin 30)
  = [legacy;
     Spec.upserted "gid://shopify/DiscountNode/1" ["P1"] (Fin 10);
     Spec.upserted "gid://shopify/DiscountNode/2" ["P3"] (Fin 30)].
Proof.
  intros legacy.
  exact (proj1 (upserts_of_different_discounts [legacy]
                  "gid://shopify/DiscountNode/1"
                  "gid://shopify/DiscountNode/2"
                  ["P1"] ["P3"] (Fin 10) (Fin 30)
                  ltac:(discriminate) ltac:(discriminate)
                  ltac:(discriminate))).
Defined.

Lemma one_rule_per_upserted_discount_witness :
  let old := Spec.upserted "gid://shopify/DiscountNode/1" ["P1"] (Fin 10) in
  List.filter (Spec.tiedTo "gid://shopify/DiscountNode/1")
    (Admin.updatedRules [old; old] "gid://shopify/DiscountNode/1" ["P9"]
       (Fin 15))
  = [Spec.upserted "gid://shopify/DiscountNode/1" ["P9"] (Fin 15)].
Proof.
  intros old.
  exact (one_rule_per_upserted_discount [old; old]
           "gid://shopify/DiscountNode/1" ["P9"] (Fin 15)
           ltac:(discriminate)).
Defined.


(** ** From a written rule to the cart *)

Section WrittenRule.
Variable StringNumericValue : string -> number.
Variable JSON_parse : string -> Completion JsValue.
Local Abbreviation parseDiscountRules :=
  (Extension.parseDiscountRules StringNumericValue JSON_parse).
Local Abbreviation cartLinesDiscountsGenerateRun :=
  (Extension.cartLinesDiscountsGenerateRun StringNumericValue JSON_parse).

(** The rules the cart function parses from a written document. *)
Lemma parseDiscountRules_metafieldValue (rules : list Admin.DiscountRule)
    (cart_lines : list Extension.CartLine) :
  parseDiscountRules
    {| Extension.lines := cart_lines;
       Extension.jsonValue := Some (Store.metafieldValue rules) |}
  = Normal (filterBoolean
              (List.map (fun rule => Store.readBack rule ≫= Store.toEvaluation)
                 rules)).
Proof.
  destruct (parseDiscountRules_of_admin StringNumericValue JSON_parse
              (Store.metafieldValue rules) cart_lines)
    as (parsed & Hadmin & Hcart).
  rewrite parseRules_metafieldValue in Hadmin. injection Hadmin as <-.
  rewrite Hcart, <- filterBoolean_bind, map_map. reflexivity.
Qed.

Lemma inRange_bounds (p : number) :
  Store.inRange p ->
  isFinite p = true /\ lt p (Fin 1) = false /\ gt p (Fin 80) = false.
Proof.
  intros (Hp & Hlo & Hhi). split; [exact Hp|].
  apply isFinite_Fin in Hp as [x ->]. unfold gt.
  rewrite !lt_Fin_false. apply le_Fin in Hlo, Hhi. tauto.
Qed.

Lemma includes_nonempty (products : list string) (pid : string) :
  In pid products -> pid <> "" ->
  Extension.includes
    (List.filter (fun id => negb (String.eqb id "")) products) pid = true.
Proof.
  intros Hin Hne. unfold Extension.includes. apply existsb_exists.
  exists pid. split; [|apply String.eqb_refl].
  apply filter_In. split; [exact Hin|].
  apply String.eqb_neq in Hne. rewrite Hne. reflexivity.
Qed.

(** What the cart function keeps of an upserted rule. *)
Lemma upserted_toEvaluation (id : string) (products : list string)
    (percentOff : number) (pid : string) :
  Store.inRange percentOff -> In pid products -> pid <> "" ->
  Store.readBack (Spec.upserted id products percentOff)
  ≫= Store.toEvaluation
  = Some {| Extension.percentOff := percentOff;
            Extension.products :=
              List.filter (fun id => negb (String.eqb id "")) products;
            Extension.minQty := Fin 2 |}.
Proof.
  intros Hrange Hpid Hne.
  destruct (inRange_bounds _ Hrange) as (Hp & Hlo & Hhi).
  pose proof (includes_nonempty _ _ Hpid Hne) as Hincl.
  unfold Store.readBack, Store.toEvaluation, Spec.upserted. simpl.
  rewrite Hp. simpl. rewrite Hlo, Hhi. simpl.
  destruct (List.filter _ products) as [|s l]; [discriminate Hincl|].
  reflexivity.
Qed.

(** The cart function on the document an upsert writes. *)
Lemma written_rule_honoured (existing : list Admin.DiscountRule)
    (id : string) (products : list string) (percentOff : number)
    (cart_lines : list Extension.CartLine) (line : Extension.CartLine)
    (pid : string) :
  Store.inRange percentOff ->
  In pid products -> pid <> "" ->
  NoDup (List.map Extension.id cart_lines) -> In line cart_lines ->
  line.(Extension.merchandise) = Extension.ProductVariant pid ->
  (2 <= line.(Extension.quantity))%Z ->
  exists out emitted,
    cartLinesDiscountsGenerateRun
      {| Extension.lines := cart_lines;
         Extension.jsonValue :=
           Some (Store.metafieldValue
                   (Admin.updatedRules existing id products percentOff)) |}
    = Normal {| Extension.operations := Spec.operationsOf out |}
    /\ Spec.entriesFor line.(Extension.id) out
       = [ {| Extension.cartLine_id := line.(Extension.id);
              Extension.percentage_value := emitted |} ]
    /\ le percentOff emitted = true.
Proof.
  intros Hrange Hpid Hne Hnodup Hline Hmerch Hq.
  set (written := Admin.updatedRules existing id products percentOff).
  set (input := {| Extension.lines := cart_lines;
                   Extension.jsonValue :=
                     Some (Store.metafieldValue written) |}).
  pose proof (parseDiscountRules_metafieldValue written cart_lines)
    as Hparse. fold input in Hparse.
  set (rules := filterBoolean
                  (List.map (fun rule => Store.readBack rule
                                         ≫= Store.toEvaluation) written))
    in Hparse.
  pose proof (parseDiscountRules_validated _ _ _ _ Hparse) as Hrules.
  destruct (inRange_bounds _ Hrange) as (Hp & Hlo & Hhi).
  set (rule := {| Extension.percentOff := percentOff;
                  Extension.products :=
                    List.filter (fun id => negb (String.eqb id ""))
                      products;
                  Extension.minQty := Fin 2 |}).
  assert (Hincl : Extension.includes rule.(Extension.products) pid = true)
    by exact (includes_nonempty _ _ Hpid Hne).
  assert (Hin : In rule rules).
  { unfold rules. apply filterBoolean_In. apply in_map_iff.
    exists (Spec.upserted id products percentOff). split.
    - exact (upserted_toEvaluation id _ _ _ Hrange Hpid Hne).
    - unfold written, Admin.updatedRules. apply in_or_app. right.
      left. reflexivity. }
  assert (Hcand : Spec.candidate line.(Extension.quantity) pid rule = true).
  { unfold Spec.candidate. rewrite Hincl. simpl.
    destruct Hrange as (-> & -> & ->). rewrite !andb_true_r.
    unfold Extension.ofInt. apply le_Fin.
    change (inject_Z 2 <= inject_Z line.(Extension.quantity))%Q.
    rewrite <- Zle_Qle. exact Hq. }
  pose proof (selection_of_line rules cart_lines line Hrules Hnodup Hline)
    as Houtcome.
  unfold Spec.lineOutcome in Houtcome. rewrite Hmerch in Houtcome.
  destruct Houtcome as [_ Hsome].
  assert (Hcands : In rule (Spec.candidates rules
                              line.(Extension.quantity) pid))
    by (apply filter_In; auto).
  destruct Hsome as (emitted & Hmax & Hentries).
  { intros Hnil. rewrite Hnil in Hcands. destruct Hcands. }
  exists (Extension.candidatesOf rules cart_lines), emitted.
  split; [exact (run_operations _ _ _ _ Hparse)|].
  split; [exact Hentries|].
  exact (firstMaximum_upper _ _ _
           (candidates_validated _ _ _ Hrules) Hmax Hcands).
Qed.


(** X13.  A rule written by an upsert with a percentage within 1..80 is
    honoured by the cart function: with the written document stored, a
    cart line (ids distinct) of quantity at least 2 on one of the rule's
    products gets exactly one entry, and its percentage is at least the
    upserted one (another stored rule may give more). *)
Theorem upserted_rule_is_honoured (existing : list Admin.DiscountRule)
    (id : string) (products : list string) (percentOff : number)
    (cart_lines : list Extension.CartLine) (line : Extension.CartLine)
    (pid : string) :
  Store.inRange percentOff ->
  In pid products -> pid <> "" ->
  NoDup (List.map Extension.id cart_lines) -> In line cart_lines ->
  line.(Extension.merchandise) = Extension.ProductVariant pid ->
  (2 <= line.(Extension.quantity))%Z ->
  exists out emitted,
    cartLinesDiscountsGenerateRun
      {| Extension.lines := cart_lines;
         Extension.jsonValue :=
           Some (Store.metafieldValue
                   (Admin.updatedRules existing id products percentOff)) |}
    = Normal {| Extension.operations := Spec.operationsOf out |}
    /\ Spec.entriesFor line.(Extension.id) out
       = [ {| Extension.cartLine_id := line.(Extension.id);
              Extension.percentage_value := emitted |} ]
    /\ le percentOff emitted = true.
Proof.
  exact (written_rule_honoured existing id products percentOff cart_lines
           line pid).
Qed.

End WrittenRule.

(** X13 on a shop with one other stored rule for the same product. *)
Lemma upserted_rule_is_honoured_witness :
  let line := {| Extension.id := "gid://shopify/CartLine/1";
                 Extension.quantity := 2;
                 Extension.merchandise := Extension.ProductVariant "P1" |} in
  exists out emitted,
    Extension.cartLinesDiscountsGenerateRun
      Spec.noNumericStrings Spec.noJsonText
      {| Extension.lines := [line];
         Extension.jsonValue :=
           Some (Store.metafieldValue
                   (Admin.updatedRules
                      [Spec.upserted "gid://shopify/DiscountNode/2" ["P1"]
                         (Fin 30)]
                      "gid://shopify/DiscountNode/1" ["P1"; "P2"]
                      (Fin 15))) |}
    = Normal {| Extension.operations := Spec.operationsOf out |}
    /\ Spec.entriesFor "gid://shopify/CartLine/1" out
       = [ {| Extension.cartLine_id := "gid://shopify/CartLine/1";
              Extension.percentage_value := emitted |} ]
    /\ le (Fin 15) emitted = true.
Proof.
  intros line.
  apply (upserted_rule_is_honoured Spec.noNumericStrings Spec.noJsonText
           [Spec.upserted "gid://shopify/DiscountNode/2" ["P1"] (Fin 30)]
           "gid://shopify/DiscountNode/1" ["P1"; "P2"] (Fin 15)
           [line] line "P1").
  - repeat split.
  - left. reflexivity.
  - discriminate.
  - apply (bool_decide_unpack _). vm_compute. exact I.
  - left. reflexivity.
  - reflexivity.
  - simpl. lia.
Defined.


(** ** The forms of a discount identifier *)

Section IdentifierForms.
Variable decodeURIComponent : string -> Completion string.

Lemma prefix_digits (a : ascii) (part digits : string) :
  Admin.isDigit a = false -> Admin.allDigits digits = true ->
  String.prefix (String a part) digits = false.
Proof.
  intros Ha Hd. destruct digits as [|c rest]; [reflexivity|]. simpl in *.
  apply andb_true_iff in Hd as [Hc _].
  destruct (ascii_dec a c) as [->|_]; [congruence|reflexivity].
Qed.

Lemma includes_digits (a : ascii) (part digits : string) :
  Admin.isDigit a = false -> Admin.allDigits digits = true ->
  Admin.includes (String a part) digits = false.
Proof.
  intros Ha. induction digits as [|c rest IH]; intros Hd.
  - reflexivity.
  - change (String.prefix (String a part) (String c rest)
            || Admin.includes (String a part) rest = false).
    rewrite (prefix_digits _ _ _ Ha Hd). simpl in Hd.
    apply andb_true_iff in Hd as [_ Hrest]. exact (IH Hrest).
Qed.

Lemma prefix_empty (s : string) : String.prefix "" s = true.
Proof. destruct s; reflexivity. Qed.

Lemma includes_slash_app (before after : string) :
  Admin.includes "/" (before +:+ "/" +:+ after) = true.
Proof.
  induction before as [|c rest IH].
  - change (String.prefix "/" (String "/" after)
            || Admin.includes "/" after = true).
    cbn [String.prefix]. simpl. rewrite prefix_empty. reflexivity.
  - change (String.prefix "/" (String c (rest +:+ "/" +:+ after))
            || Admin.includes "/" (rest +:+ "/" +:+ after) = true).
    rewrite IH. apply orb_true_r.
Qed.

Lemma lastSegment_app (before after : string) :
  Admin.includes "/" after = false ->
  Admin.lastSegment (before +:+ "/" +:+ after) = after.
Proof.
  intros Hafter. induction before as [|c rest IH].
  - change (Admin.lastSegment (String "/" after) = after).
    cbn [Admin.lastSegment]. rewrite Hafter. reflexivity.
  - change (Admin.lastSegment (String c (rest +:+ "/" +:+ after)) = after).
    cbn [Admin.lastSegment]. rewrite includes_slash_app. exact IH.
Qed.

Lemma lastSegment_digits (digits : string) :
  Admin.allDigits digits = true ->
  Admin.lastSegment ("gid://shopify/DiscountAutomaticApp/" +:+ digits)
  = digits.
Proof.
  intros Hd.
  change ("gid://shopify/DiscountAutomaticApp/" +:+ digits)
    with ("gid://shopify/DiscountAutomaticApp" +:+ "/" +:+ digits).
  apply lastSegment_app.
  exact (includes_digits "/" "" digits eq_refl Hd).
Qed.

(** [normalizeDiscountIds] on a non-empty id, after decoding. *)
Lemma normalizeDiscountIds_decoded (rawId decoded : string) :
  rawId <> "" -> decodeURIComponent rawId = Normal decoded ->
  Admin.normalizeDiscountIds decodeURIComponent (Some rawId)
  = Normal
      (if String.prefix "gid://" decoded then
         if Admin.includes "/DiscountNode/" decoded
         then (Some decoded, Some decoded)
         else if Admin.includes "/DiscountAutomaticApp/" decoded then
           (Some (if negb (String.eqb (Admin.lastSegment decoded) "")
                  then "gid://shopify/DiscountNode/"
                       +:+ Admin.lastSegment decoded
                  else decoded),
            Some decoded)
         else (Some decoded, Some decoded)
       else if negb (String.eqb decoded "") && Admin.allDigits decoded then
         (Some ("gid://shopify/DiscountNode/" +:+ decoded),
          Some ("gid://shopify/DiscountAutomaticApp/" +:+ decoded))
       else (Some decoded, Some decoded)).
Proof.
  intros Hne Hdec. unfold Admin.normalizeDiscountIds. simpl.
  apply String.eqb_neq in Hne. rewrite Hne. simpl. rewrite Hdec. simpl.
  repeat case_match; reflexivity.
Qed.

(** X14.  A numeric id, the app-discount gid built on it and the
    discount-node gid built on it all normalise to the same
    [discountNodeId], the discount-node gid; the [updateId] is the
    app-discount gid for the first two and the node gid for the third.
    ([decodeURIComponent] leaves these three strings as they are: they
    hold no escape.) *)
Theorem identifier_forms_agree (digits : string) :
  digits <> "" -> Admin.allDigits digits = true ->
  let node := "gid://shopify/DiscountNode/" +:+ digits in
  let app := "gid://shopify/DiscountAutomaticApp/" +:+ digits in
  decodeURIComponent digits = Normal digits ->
  decodeURIComponent app = Normal app ->
  decodeURIComponent node = Normal node ->
  Admin.normalizeDiscountIds decodeURIComponent (Some digits)
  = Normal (Some node, Some app)
  /\ Admin.normalizeDiscountIds decodeURIComponent (Some app)
     = Normal (Some node, Some app)
  /\ Admin.normalizeDiscountIds decodeURIComponent (Some node)
     = Normal (Some node, Some node).
Proof.
  intros Hne Hd node app Hdigits Happ Hnode.
  assert (Hnode_app : Admin.includes "/DiscountNode/" app = false).
  { unfold app. simpl. change ("" +:+ digits) with digits.
    rewrite (prefix_digits "D" "iscountNode/" digits eq_refl Hd).
    exact (includes_digits "/" "DiscountNode/" digits eq_refl Hd). }
  assert (Happ_app : Admin.includes "/DiscountAutomaticApp/" app = true).
  { unfold app. simpl. change ("" +:+ digits) with digits.
    rewrite prefix_empty. reflexivity. }
  assert (Hnode_node : Admin.includes "/DiscountNode/" node = true).
  { unfold node. simpl. change ("" +:+ digits) with digits.
    rewrite prefix_empty. reflexivity. }
  assert (Hprefix : forall rest,
    String.prefix "gid://" ("gid://" +:+ rest) = true).
  { intros rest. simpl. change ("" +:+ rest) with rest.
    apply prefix_empty. }
  split; [|split].
  - rewrite (normalizeDiscountIds_decoded _ _ Hne Hdigits).
    rewrite (prefix_digits "g" "id://" digits eq_refl Hd), Hd.
    apply String.eqb_neq in Hne. rewrite Hne. reflexivity.
  - rewrite (normalizeDiscountIds_decoded app app ltac:(discriminate) Happ).
    change app with ("gid://" +:+ "shopify/DiscountAutomaticApp/" +:+ digits)
      at 1.
    rewrite Hprefix, Hnode_app, Happ_app.
    unfold app at 1 2. rewrite (lastSegment_digits _ Hd).
    apply String.eqb_neq in Hne. rewrite Hne. reflexivity.
  - rewrite (normalizeDiscountIds_decoded node node ltac:(discriminate)
               Hnode).
    change node with ("gid://" +:+ "shopify/DiscountNode/" +:+ digits) at 1.
    rewrite Hprefix, Hnode_node. reflexivity.
Qed.

End IdentifierForms.

(** X14 on the id 123 with a decoder that finds no escape. *)
Lemma identifier_forms_agree_witness :
  Admin.normalizeDiscountIds Normal (Some "123")
  = Normal (Some "gid://shopify/DiscountNode/123",
            Some "gid://shopify/DiscountAutomaticApp/123")
  /\ Admin.normalizeDiscountIds Normal
       (Some "gid://shopify/DiscountAutomaticApp/123")
     = Normal (Some "gid://shopify/DiscountNode/123",
               Some "gid://shopify/DiscountAutomaticApp/123")
  /\ Admin.normalizeDiscountIds Normal
       (Some "gid://shopify/DiscountNode/123")
     = Normal (Some "gid://shopify/DiscountNode/123",
               Some "gid://shopify/DiscountNode/123").
Proof.
  exact (identifier_forms_agree Normal "123" ltac:(discriminate) eq_refl
           eq_refl eq_refl eq_refl).
Defined.

(** X15.  Whenever the edit action gets past its check of [updateId],
    the route id was present and the filter and the appended rule of its
    merge use one and the same non-empty identifier, the normalised node
    id: the merge is the create action's merge under that id. *)
Theorem edit_merges_under_node_id
    (decodeURIComponent : string -> Completion string)
    (rawId discountNodeId updateId : option string)
    (existing : list Admin.DiscountRule) (products : list string)
    (percentOff : number) :
  Admin.normalizeDiscountIds decodeURIComponent rawId
  = Normal (discountNodeId, updateId) ->
  Admin.truthy updateId = true ->
  exists id,
    discountNodeId = Some id /\ id <> "" /\ Admin.truthy rawId = true
    /\ Admin.updatedRules_edit existing discountNodeId updateId
         products percentOff
       = List.filter (fun rule => negb (Spec.tiedTo id rule)) existing
         ++ [Spec.upserted id products percentOff].
Proof.
  intros Hnorm Hup.
  destruct (normalizeDiscountIds_node _ _ _ _ Hnorm Hup) as (id & -> & Hid).
  exists id. split; [reflexivity|]. split; [exact Hid|]. split.
  - destruct (Admin.truthy rawId) eqn:E; [reflexivity|].
    unfold Admin.normalizeDiscountIds in Hnorm. rewrite E in Hnorm.
    discriminate Hnorm.
  - rewrite (updatedRules_edit_node _ _ _ _ _ Hid).
    apply updatedRules_others. exact Hid.
Qed.

(** X15 on the route id 123, with a decoder that finds no escape. *)
Lemma edit_merges_under_node_id_witness :
  exists id,
    Some "gid://shopify/DiscountNode/123" = Some id /\ id <> ""
    /\ Admin.truthy (Some "123") = true
    /\ Admin.updatedRules_edit []
         (Some "gid://shopify/DiscountNode/123")
         (Some "gid://shopify/DiscountAutomaticApp/123") ["P1"] (Fin 10)
       = List.filter (fun rule => negb (Spec.tiedTo id rule)) []
         ++ [Spec.upserted id ["P1"] (Fin 10)].
Proof.
  exact (edit_merges_under_node_id Normal (Some "123")
           (Some "gid://shopify/DiscountNode/123")
           (Some "gid://shopify/DiscountAutomaticApp/123")
           [] ["P1"] (Fin 10) eq_refl eq_refl).
Defined.


(** ** The two actions *)

(** No message from the three form checks means a title, a percentage
    within 1..80 and at least one product. *)
Lemma formErrors_none (title : string) (percentOff : number)
    (products : list string) (more : list string) :
  Nat.eqb (length (Routes.formErrors title percentOff products ++ more)) 0
  = true ->
  title <> "" /\ Store.inRange percentOff /\ products <> [] /\ more = [].
Proof.
  unfold Routes.formErrors, Store.inRange.
  destruct (String.eqb_spec title "") as [|Ht]; [discriminate|].
  destruct (isFinite percentOff) eqn:Hp; [|discriminate].
  destruct (lt percentOff (Fin 1)) eqn:Hlo; [discriminate|].
  destruct (gt percentOff (Fin 80)) eqn:Hhi; [discriminate|].
  destruct products as [|p ps]; [discriminate|]. simpl.
  destruct more; [|discriminate]. intros _.
  apply isFinite_Fin in Hp as [x ->]. unfold gt in Hhi.
  apply lt_Fin_false in Hlo, Hhi. rewrite !le_Fin.
  repeat split; try assumption; discriminate.
Qed.

Lemma truthy_Some (id : option string) :
  Admin.truthy id = true -> exists s, id = Some s /\ s <> "".
Proof.
  destruct id as [s|]; [|discriminate]. simpl. intros H.
  exists s. split; [reflexivity|]. intros ->. discriminate H.
Qed.

Section ActionFacts.
Variable decodeURIComponent : string -> Completion string.
Variable encodeURIComponent : string -> string.
Variable StringNumericValue : string -> number.
Variable JSON_parse : string -> Completion JsValue.
Local Abbreviation admin_parseRules :=
  (Admin.parseRules StringNumericValue JSON_parse).
Local Abbreviation createAction :=
  (Routes.createAction encodeURIComponent StringNumericValue JSON_parse).
Local Abbreviation editAction :=
  (Routes.editAction decodeURIComponent StringNumericValue JSON_parse).


End ActionFacts.


Section EditFacts.
Variable decodeURIComponent : string -> Completion string.
Variable StringNumericValue : string -> number.
Variable JSON_parse : string -> Completion JsValue.
Local Abbreviation admin_parseRules :=
  (Admin.parseRules StringNumericValue JSON_parse).
Local Abbreviation editAction :=
  (Routes.editAction decodeURIComponent StringNumericValue JSON_parse).
Local Abbreviation editLoader :=
  (Routes.editLoader decodeURIComponent StringNumericValue JSON_parse).

(** Every way the edit action can end, read off its guards in order. *)
Lemma editAction_sent (title percentOffRaw : string)
    (products : list string) (params_id : option string)
    (shop : Routes.ShopData) (updateErrors metafieldsErrors : list string)
    (sent : list Routes.Mutation) (answer : Routes.ActionData) :
  let percentOff := Number StringNumericValue percentOffRaw in
  editAction title percentOffRaw products params_id shop updateErrors
    metafieldsErrors = Normal (sent, answer) ->
  (sent = [] /\ answer <> Routes.successData)
  \/ exists existing id updateId owner,
       title <> "" /\ Store.inRange percentOff /\ products <> []
       /\ Admin.truthy params_id = true
       /\ Admin.normalizeDiscountIds decodeURIComponent params_id
          = Normal (Some id, Some updateId)
       /\ id <> "" /\ updateId <> ""
       /\ admin_parseRules (default JUndefined shop.(Routes.shop_jsonValue))
          = Normal existing
       /\ shop.(Routes.shop_id) = Some owner /\ owner <> ""
       /\ ((sent = [Routes.discountAutomaticAppUpdate updateId title]
            /\ answer <> Routes.successData)
           \/ (sent = [Routes.discountAutomaticAppUpdate updateId title;
                       Routes.metafieldsSet owner
                         (Store.metafieldValue
                            (Admin.updatedRules existing id products
                               percentOff))]
               /\ (answer = Routes.successData -> metafieldsErrors = []))).
Proof.
  intros percentOff. unfold Routes.editAction. fold percentOff.
  destruct (Admin.normalizeDiscountIds decodeURIComponent params_id)
    as [[discountNodeId updateId]|e] eqn:Hnorm; [|discriminate].
  cbn [mbind Completion_bind mret Completion_ret fst snd].
  destruct (Nat.eqb (length (Routes.formErrors title percentOff products
                             ++ _)) 0) eqn:Hform; cbn [negb].
  2: { intros [= <- <-]. left. split; [reflexivity|discriminate]. }
  apply formErrors_none in Hform as (Ht & Hp & Hps & Hup).
  destruct (Admin.truthy updateId) eqn:Hupdate; [|discriminate Hup].
  destruct (normalizeDiscountIds_node _ _ _ _ Hnorm Hupdate)
    as (id & -> & Hid).
  apply truthy_Some in Hupdate as (up & -> & Hupne).
  assert (Hraw : Admin.truthy params_id = true).
  { destruct (Admin.truthy params_id) eqn:E; [reflexivity|].
    unfold Admin.normalizeDiscountIds in Hnorm. rewrite E in Hnorm.
    discriminate Hnorm. }
  destruct (Admin_parseRules_returns StringNumericValue JSON_parse
              (default JUndefined shop.(Routes.shop_jsonValue)))
    as [existing Hparse].
  rewrite Hparse. cbn [mbind Completion_bind mret Completion_ret].
  destruct (Admin.truthy shop.(Routes.shop_id)) eqn:Hshop; cbn [negb].
  2: { intros [= <- <-]. left. split; [reflexivity|discriminate]. }
  apply truthy_Some in Hshop as (owner & Hshop & Howner). rewrite Hshop.
  cbn [default app].
  rewrite (updatedRules_edit_node _ _ _ _ _ Hid).
  intros Hresult. right. exists existing, id, up, owner.
  repeat (split; [first [assumption|reflexivity]|]).
  destruct (Nat.eqb (length updateErrors) 0); cbn [negb] in Hresult.
  2: { injection Hresult as <- <-. left.
       split; [reflexivity|discriminate]. }
  destruct (Nat.eqb (length metafieldsErrors) 0) eqn:Hmeta;
    cbn [negb] in Hresult; injection Hresult as <- <-; right;
    (split; [reflexivity|]).
  - intros _. destruct metafieldsErrors; [reflexivity|discriminate Hmeta].
  - discriminate.
Qed.

(** X17.  Whenever the edit action answers, it has sent nothing unless
    the form has a title, a percentage within 1..80 and a product, the
    route id is present and the shop id resolved; what it sends starts
    with the update of the discount; the metafield it writes holds the
    parsed stored rules merged with the new rule under the normalised
    node id; and it answers success only after that write, with no error
    from it. *)
Theorem editAction_writes (title percentOffRaw : string)
    (products : list string) (params_id : option string)
    (shop : Routes.ShopData) (updateErrors metafieldsErrors : list string)
    (sent : list Routes.Mutation) (answer : Routes.ActionData) :
  let percentOff := Number StringNumericValue percentOffRaw in
  editAction title percentOffRaw products params_id shop updateErrors
    metafieldsErrors = Normal (sent, answer) ->
  (sent <> [] ->
     title <> "" /\ Store.inRange percentOff /\ products <> []
     /\ Admin.truthy params_id = true
     /\ Admin.truthy shop.(Routes.shop_id) = true
     /\ exists updateId,
          hd_error sent = Some (Routes.discountAutomaticAppUpdate updateId
                                  title))
  /\ (forall owner value,
        In (Routes.metafieldsSet owner value) sent ->
        exists existing id updateId,
          Admin.normalizeDiscountIds decodeURIComponent params_id
          = Normal (Some id, Some updateId)
          /\ id <> ""
          /\ admin_parseRules
               (default JUndefined shop.(Routes.shop_jsonValue))
             = Normal existing
          /\ shop.(Routes.shop_id) = Some owner
          /\ value = Store.metafieldValue
                       (Admin.updatedRules existing id products percentOff))
  /\ (answer = Routes.successData ->
      metafieldsErrors = []
      /\ exists owner value, In (Routes.metafieldsSet owner value) sent).
Proof.
  intros percentOff Hrun.
  destruct (editAction_sent _ _ _ _ _ _ _ _ _ Hrun)
    as [[-> Hanswer]
       | (existing & id & up & owner & Ht & Hp & Hps & Hraw & Hnorm & Hid
          & Hup & Hparse & Hshop & Howner & Hsent)].
  - split; [intros H; destruct (H eq_refl)|].
    split; [intros owner value []|]. intros H. destruct (Hanswer H).
  - assert (Hshop' : Admin.truthy shop.(Routes.shop_id) = true).
    { rewrite Hshop. simpl. apply String.eqb_neq in Howner.
      rewrite Howner. reflexivity. }
    destruct Hsent as [[-> Hanswer] | [-> Hmeta]].
    + split; [intros _; repeat (split; [assumption|]); eauto|].
      split; [intros o v [[=]|[]]|]. intros H. destruct (Hanswer H).
    + split; [intros _; repeat (split; [assumption|]); eauto|].
      split.
      * intros o v [[=]|[[= <- <-]|[]]]. exists existing, id, up.
        repeat split; assumption.
      * intros H. split; [exact (Hmeta H)|].
        eexists _, _. right. left. reflexivity.
Qed.

(** [find] skips every rule that [keep] removes nothing of. *)
Lemma matchedRule_written (existing : list Admin.DiscountRule)
    (params_id id : string) (rule : Admin.DiscountRule) :
  (forall r, In r existing ->
     Routes.strict_eq_id r.(Admin.discountId) params_id = true ->
     Spec.tiedTo id r = true) ->
  rule.(Admin.discountId) = Some id ->
  Routes.matchedRule
    (List.filter (fun r => negb (Spec.tiedTo id r)) existing ++ [rule])
    params_id id
  = Some rule.
Proof.
  intros Hshadow Hrule. unfold Routes.matchedRule.
  assert (Hfind :
    List.find
      (fun r => Routes.strict_eq_id r.(Admin.discountId) params_id
                || Routes.strict_eq_id r.(Admin.discountId) id)
      (List.filter (fun r => negb (Spec.tiedTo id r)) existing ++ [rule])
    = Some rule).
  { induction existing as [|r rest IH].
    - simpl. rewrite Hrule. simpl. rewrite String.eqb_refl, orb_true_r.
      reflexivity.
    - simpl. destruct (Spec.tiedTo id r) eqn:Htied; simpl.
      + apply IH. intros r' Hr'. apply Hshadow. right. exact Hr'.
      + assert (Hparams :
          Routes.strict_eq_id r.(Admin.discountId) params_id = false).
        { destruct (Routes.strict_eq_id _ params_id) eqn:E; [|reflexivity].
          rewrite (Hshadow r (or_introl eq_refl) E) in Htied.
          discriminate Htied. }
        rewrite Hparams. simpl.
        change (Routes.strict_eq_id r.(Admin.discountId) id)
          with (Spec.tiedTo id r).
        rewrite Htied. apply IH. intros r' Hr'. apply Hshadow.
        right. exact Hr'. }
  rewrite Hfind. reflexivity.
Qed.

Lemma others_storable (existing : list Admin.DiscountRule) (id : string) :
  Forall Store.storable existing ->
  Forall Store.storable
    (List.filter (fun r => negb (Spec.tiedTo id r)) existing).
Proof.
  intros H. apply List.Forall_forall. intros r Hr.
  apply filter_In in Hr as [Hr _].
  rewrite List.Forall_forall in H. exact (H r Hr).
Qed.

(** The admin parser on the document an upsert writes over parsed
    rules. *)
Lemma parseRules_written (existing : list Admin.DiscountRule) (id : string)
    (products : list string) (percentOff : number) :
  Forall Store.storable existing -> isFinite percentOff = true ->
  id <> "" ->
  admin_parseRules
    (Store.metafieldValue (Admin.updatedRules existing id products percentOff))
  = Normal
      (List.filter (fun r => negb (Spec.tiedTo id r)) existing
       ++ [Spec.upserted id
             (List.filter (fun p => negb (String.eqb p "")) products)
             percentOff]).
Proof.
  intros Hexisting Hp Hid.
  rewrite parseRules_metafieldValue, (updatedRules_others _ _ _ _ Hid).
  rewrite map_app, filterBoolean_app.
  rewrite (readBack_all_storable _ (others_storable _ id Hexisting)).
  simpl. unfold Store.readBack, Spec.upserted. simpl. rewrite Hp. simpl.
  reflexivity.
Qed.

(** X18.  Save, then load: after the edit action answered success, the
    edit loader run for the same route id on the metafield just written
    shows the saved percentage, the saved products (without empty ids)
    and [minQty] 2, provided no other stored rule carries the raw route
    id as its [discountId]. *)
Theorem edit_then_load (title percentOffRaw : string)
    (products : list string) (params_id : string)
    (shop : Routes.ShopData) (updateErrors metafieldsErrors : list string)
    (sent : list Routes.Mutation) :
  editAction title percentOffRaw products (Some params_id) shop updateErrors
    metafieldsErrors = Normal (sent, Routes.successData) ->
  (forall existing id updateId rule,
     admin_parseRules (default JUndefined shop.(Routes.shop_jsonValue))
     = Normal existing ->
     Admin.normalizeDiscountIds decodeURIComponent (Some params_id)
     = Normal (Some id, updateId) ->
     In rule existing ->
     rule.(Admin.discountId) = Some params_id -> params_id = id) ->
  exists owner value,
    In (Routes.metafieldsSet owner value) sent
    /\ editLoader (Some params_id) (Some value)
       = Normal
           {| Routes.loader_status := 200;
              Routes.config :=
                {| Routes.percentOff :=
                     Number StringNumericValue percentOffRaw;
                   Routes.products :=
                     List.filter (fun p => negb (String.eqb p "")) products;
                   Routes.minQty := Fin 2 |} |}.
Proof.
  intros Hrun Hshadow.
  destruct (editAction_sent _ _ _ _ _ _ _ _ _ Hrun)
    as [[_ Hanswer]
       | (existing & id & up & owner & Ht & Hp & Hps & Hraw & Hnorm & Hid
          & Hup & Hparse & Hshop & Howner & Hsent)];
    [destruct (Hanswer eq_refl)|].
  destruct Hsent as [[_ Hanswer] | [-> _]]; [destruct (Hanswer eq_refl)|].
  eexists _, _. split; [right; left; reflexivity|].
  unfold Routes.editLoader. rewrite Hraw, Hnorm.
  cbn [negb mbind Completion_bind mret Completion_ret fst default].
  assert (Htruthy : Admin.truthy (Some id) = true).
  { simpl. apply String.eqb_neq in Hid. rewrite Hid. reflexivity. }
  rewrite Htruthy. cbn [negb]. unfold Datatypes.id.
  rewrite (parseRules_written _ _ _ _
             (parseRules_storable _ _ _ _ Hparse) (proj1 Hp) Hid).
  cbn [mbind Completion_bind mret Completion_ret].
  rewrite matchedRule_written; [reflexivity| |reflexivity].
  intros r Hr Heq. unfold Spec.tiedTo.
  destruct (Admin.discountId r) as [s|] eqn:Hs; [|discriminate Heq].
  simpl in Heq. apply String.eqb_eq in Heq. subst s.
  rewrite (Hshadow existing id (Some up) r Hparse Hnorm Hr Hs).
  apply String.eqb_refl.
Qed.

End EditFacts.


(** X17 on a valid form for the route id 123. *)
Lemma editAction_writes_witness :
  exists existing id updateId,
    Admin.normalizeDiscountIds StandIn.noEscape (Some "123")
    = Normal (Some id, Some updateId)
    /\ id <> ""
    /\ Admin.parseRules StandIn.decimal Spec.noJsonText
         (default JUndefined (Some (Store.metafieldValue [])))
       = Normal existing
    /\ Some "gid://shopify/Shop/1" = Some "gid://shopify/Shop/1"
    /\ Store.metafieldValue
         [Spec.upserted "gid://shopify/DiscountNode/123" ["P1"] (Fin 15)]
       = Store.metafieldValue
           (Admin.updatedRules existing id ["P1"]
              (Number StandIn.decimal "15")).
Proof.
  refine (proj1 (proj2
    (editAction_writes StandIn.noEscape StandIn.decimal Spec.noJsonText
       "Offer" "15" ["P1"] (Some "123")
       {| Routes.shop_id := Some "gid://shopify/Shop/1";
          Routes.shop_jsonValue := Some (Store.metafieldValue []) |}
       [] [] _ _ eq_refl)) "gid://shopify/Shop/1" _ _).
  right. left. reflexivity.
Defined.

(** X18 on a shop that already holds a rule for the discount 123. *)
Lemma edit_then_load_witness :
  exists owner value,
    In (Routes.metafieldsSet owner value)
      [Routes.discountAutomaticAppUpdate
         "gid://shopify/DiscountAutomaticApp/123" "Offer";
       Routes.metafieldsSet "gid://shopify/Shop/1"
         (Store.metafieldValue
            [Spec.upserted "gid://shopify/DiscountNode/123" ["P1"]
               (Fin 15)])]
    /\ Routes.editLoader StandIn.noEscape StandIn.decimal Spec.noJsonText
         (Some "123") (Some value)
       = Normal
           {| Routes.loader_status := 200;
              Routes.config :=
                {| Routes.percentOff := Number StandIn.decimal "15";
                   Routes.products := ["P1"];
                   Routes.minQty := Fin 2 |} |}.
Proof.
  apply (edit_then_load StandIn.noEscape StandIn.decimal Spec.noJsonText
           "Offer" "15" ["P1"] "123"
           {| Routes.shop_id := Some "gid://shopify/Shop/1";
              Routes.shop_jsonValue :=
                Some (Store.metafieldValue
                        [Spec.upserted "gid://shopify/DiscountNode/123"
                           ["P2"] (Fin 10)]) |}
           [] []); [reflexivity|].
  intros existing id updateId rule Hparse _ Hin Hrule.
  vm_compute in Hparse. injection Hparse as <-.
  destruct Hin as [<-|[]]. discriminate Hrule.
Defined.

(** ** What the edit loader shows *)

Section LoaderFacts.
Variable decodeURIComponent : string -> Completion string.
Variable StringNumericValue : string -> number.
Variable JSON_parse : string -> Completion JsValue.
Local Abbreviation editLoader :=
  (Routes.editLoader decodeURIComponent StringNumericValue JSON_parse).

Lemma matchedRule_In (rules : list Admin.DiscountRule)
    (params_id discountNodeId : string) (rule : Admin.DiscountRule) :
  Routes.matchedRule rules params_id discountNodeId = Some rule ->
  In rule rules.
Proof.
  unfold Routes.matchedRule.
  destruct (List.find _ rules) as [found|] eqn:Hfind.
  - intros [= <-]. apply find_some in Hfind. tauto.
  - destruct (_ && _); [|discriminate].
    destruct rules as [|r rest]; [discriminate|].
    intros [= <-]. left. reflexivity.
Qed.

(** X19.  Whatever is stored, the configuration the edit loader hands to
    the form is usable: a finite percentage, a finite [minQty] of at
    least 2, product ids that are non-empty strings; and it is a rule of
    the stored set or the default 10 percent / no product / 2.  A missing
    route id gives the default with status 400. *)
Theorem loader_config_usable (params_id : option string)
    (jsonValue : option JsValue) (data : Routes.LoaderData) :
  editLoader params_id jsonValue = Normal data ->
  isFinite data.(Routes.config).(Routes.percentOff) = true
  /\ isFinite data.(Routes.config).(Routes.minQty) = true
  /\ le (Fin 2) data.(Routes.config).(Routes.minQty) = true
  /\ Forall (fun id => id <> "") data.(Routes.config).(Routes.products)
  /\ (data.(Routes.config) = Routes.defaultConfig
      \/ exists rules rule,
           Admin.parseRules StringNumericValue JSON_parse
             (default JUndefined jsonValue) = Normal rules
           /\ In rule rules
           /\ data.(Routes.config) = Routes.configOf (Some rule))
  /\ (Admin.truthy params_id = false ->
      data = {| Routes.loader_status := 400;
                Routes.config := Routes.defaultConfig |}).
Proof.
  assert (Hdefault : forall status,
    let d := {| Routes.loader_status := status;
                Routes.config := Routes.defaultConfig |} in
    isFinite d.(Routes.config).(Routes.percentOff) = true
    /\ isFinite d.(Routes.config).(Routes.minQty) = true
    /\ le (Fin 2) d.(Routes.config).(Routes.minQty) = true
    /\ Forall (fun id => id <> "") d.(Routes.config).(Routes.products)
    /\ (d.(Routes.config) = Routes.defaultConfig
        \/ exists rules rule,
             Admin.parseRules StringNumericValue JSON_parse
               (default JUndefined jsonValue) = Normal rules
             /\ In rule rules
             /\ d.(Routes.config) = Routes.configOf (Some rule))).
  { intros status d. repeat split; try reflexivity; [constructor|].
    left. reflexivity. }
  unfold Routes.editLoader.
  destruct (Admin.truthy params_id) eqn:Hraw; cbn [negb].
  2: { intros [= <-]. destruct (Hdefault 400%nat) as (H1 & H2 & H3 & H4 & H5).
       repeat (split; [assumption|]). intros _. reflexivity. }
  destruct (Admin.normalizeDiscountIds decodeURIComponent params_id)
    as [[discountNodeId updateId]|e]; [|discriminate].
  cbn [mbind Completion_bind mret Completion_ret fst].
  destruct (Admin.truthy discountNodeId); cbn [negb].
  2: { intros [= <-]. destruct (Hdefault 400%nat) as (H1 & H2 & H3 & H4 & H5).
       repeat (split; [assumption|]). discriminate. }
  destruct (Admin.parseRules StringNumericValue JSON_parse
              (default JUndefined jsonValue)) as [rules|e] eqn:Hparse;
    [|discriminate].
  cbn [mbind Completion_bind mret Completion_ret]. intros [= <-].
  cbn [Routes.config].
  destruct (Routes.matchedRule rules (default "" params_id)
              (default "" discountNodeId)) as [rule|] eqn:Hmatch.
  - apply matchedRule_In in Hmatch.
    pose proof (parseRules_storable _ _ _ _ Hparse) as Hall.
    rewrite List.Forall_forall in Hall.
    destruct (Hall rule Hmatch) as (Hp & Hm & Hlt & Hps).
    simpl. repeat (split; [first [assumption
                                 |exact (proj1 (at_least_two _ Hm Hlt))]|]).
    split; [right; exists rules, rule; auto|discriminate].
  - destruct (Hdefault 200%nat) as (H1 & H2 & H3 & H4 & H5).
    repeat (split; [assumption|]). discriminate.
Qed.

End LoaderFacts.

Lemma loader_config_usable_witness :
  let data :=
    {| Routes.loader_status := 200;
       Routes.config := {| Routes.percentOff := Fin 90;
                           Routes.products := ["P1"];
                           Routes.minQty := Fin 2 |} |} in
  isFinite data.(Routes.config).(Routes.percentOff) = true
  /\ isFinite data.(Routes.config).(Routes.minQty) = true
  /\ le (Fin 2) data.(Routes.config).(Routes.minQty) = true.
Proof.
  intros data.
  destruct (loader_config_usable StandIn.noEscape Spec.noNumericStrings
              Spec.noJsonText (Some "123")
              (Some (JObj [("percentOff", JNum (Fin 90));
                           ("products", JArr [JStr "P1"]);
                           ("minQty", JNum (Fin 2))]))
              data eq_refl) as (H1 & H2 & H3 & _).
  repeat split; assumption.
Defined.


(** ** From a saved form to the cart *)

Section SavedDiscount.
Variable decodeURIComponent : string -> Completion string.
Variable encodeURIComponent : string -> string.
Variable StringNumericValue : string -> number.
Variable JSON_parse : string -> Completion JsValue.
Local Abbreviation createAction :=
  (Routes.createAction encodeURIComponent StringNumericValue JSON_parse).
Local Abbreviation editAction :=
  (Routes.editAction decodeURIComponent StringNumericValue JSON_parse).
Local Abbreviation cartLinesDiscountsGenerateRun :=
  (Extension.cartLinesDiscountsGenerateRun StringNumericValue JSON_parse).

(** What the create action has done when it redirects. *)
Lemma createAction_redirect (title percentOffRaw : string)
    (products : list string) (functionId : option string)
    (payload : option Routes.CreatePayload) (shop : Routes.ShopData)
    (metafieldsErrors : list string) (sent : list Routes.Mutation)
    (url : string) :
  createAction title percentOffRaw products functionId payload shop
    metafieldsErrors = Normal (sent, Routes.redirect url) ->
  exists existing id owner f,
    Store.inRange (Number StringNumericValue percentOffRaw)
    /\ sent = [Routes.discountAutomaticAppCreate title f;
               Routes.metafieldsSet owner
                 (Store.metafieldValue
                    (Admin.updatedRules existing id products
                       (Number StringNumericValue percentOffRaw)))].
Proof.
  unfold Routes.createAction.
  destruct (Admin_parseRules_returns StringNumericValue JSON_parse
              (default JUndefined shop.(Routes.shop_jsonValue)))
    as [existing ->].
  cbn [mbind Completion_bind mret Completion_ret].
  destruct (Nat.eqb (length (Routes.formErrors title _ products ++ _)) 0)
    eqn:Hform; cbn [negb]; [|discriminate].
  apply formErrors_none in Hform as (_ & Hp & _ & _).
  destruct (Nat.eqb (length (default [] (Routes.userErrors <$> payload))) 0);
    cbn [negb]; [|discriminate].
  destruct (Admin.truthy (payload ≫= Routes.discountId)); cbn [negb];
    [|discriminate].
  destruct (Admin.truthy shop.(Routes.shop_id)); cbn [negb]; [|discriminate].
  destruct (Nat.eqb (length metafieldsErrors) 0); cbn [negb];
    [|discriminate].
  intros [= <- _]. eexists _, _, _, _. split; [exact Hp|reflexivity].
Qed.

(** X20.  A saved discount takes effect.  When the create action redirects
    or the edit action answers success, the metafield it wrote makes the
    cart function give a cart line (ids distinct) of quantity at least 2
    on one of the submitted products exactly one entry, with a percentage
    at least the one submitted. *)
Theorem saved_discount_takes_effect (title percentOffRaw : string)
    (products : list string) (shop : Routes.ShopData)
    (metafieldsErrors : list string) (sent : list Routes.Mutation)
    (cart_lines : list Extension.CartLine) (line : Extension.CartLine)
    (pid : string) :
  In pid products -> pid <> "" ->
  NoDup (List.map Extension.id cart_lines) -> In line cart_lines ->
  line.(Extension.merchandise) = Extension.ProductVariant pid ->
  (2 <= line.(Extension.quantity))%Z ->
  ((exists functionId payload url,
      createAction title percentOffRaw products functionId payload shop
        metafieldsErrors = Normal (sent, Routes.redirect url))
   \/ (exists params_id updateErrors,
         editAction title percentOffRaw products params_id shop updateErrors
           metafieldsErrors = Normal (sent, Routes.successData))) ->
  exists owner value out emitted,
    In (Routes.metafieldsSet owner value) sent
    /\ cartLinesDiscountsGenerateRun
         {| Extension.lines := cart_lines;
            Extension.jsonValue := Some value |}
       = Normal {| Extension.operations := Spec.operationsOf out |}
    /\ Spec.entriesFor line.(Extension.id) out
       = [ {| Extension.cartLine_id := line.(Extension.id);
              Extension.percentage_value := emitted |} ]
    /\ le (Number StringNumericValue percentOffRaw) emitted = true.
Proof.
  intros Hpid Hne Hnodup Hline Hmerch Hq Hsaved.
  assert (Hwritten : exists existing id owner first,
    Store.inRange (Number StringNumericValue percentOffRaw)
    /\ sent = [first;
               Routes.metafieldsSet owner
                 (Store.metafieldValue
                    (Admin.updatedRules existing id products
                       (Number StringNumericValue percentOffRaw)))]).
  { destruct Hsaved as [(functionId & payload & url & Hrun)
                       | (params_id & updateErrors & Hrun)].
    - destruct (createAction_redirect _ _ _ _ _ _ _ _ _ Hrun)
        as (existing & id & owner & f & Hp & ->).
      eexists _, _, _, _. split; [exact Hp|reflexivity].
    - destruct (editAction_sent _ _ _ _ _ _ _ _ _ _ _ _ Hrun)
        as [[_ Hanswer]
           | (existing & id & up & owner & _ & Hp & _ & _ & _ & _ & _ & _
              & _ & _ & Hsent)]; [destruct (Hanswer eq_refl)|].
      destruct Hsent as [[_ Hanswer] | [-> _]];
        [destruct (Hanswer eq_refl)|].
      eexists _, _, _, _. split; [exact Hp|reflexivity]. }
  destruct Hwritten as (existing & id & owner & first & Hp & ->).
  destruct (written_rule_honoured StringNumericValue JSON_parse existing id
              products _ cart_lines line pid Hp Hpid Hne Hnodup Hline
              Hmerch Hq) as (out & emitted & Hrun & Hentries & Hle).
  exists owner,
    (Store.metafieldValue
       (Admin.updatedRules existing id products
          (Number StringNumericValue percentOffRaw))), out, emitted.
  split; [right; left; reflexivity|]. auto.
Qed.

End SavedDiscount.

(** X20 for a create form submitting 15 percent on P1. *)
Lemma saved_discount_takes_effect_witness :
  let line := {| Extension.id := "gid://shopify/CartLine/1";
                 Extension.quantity := 2;
                 Extension.merchandise := Extension.ProductVariant "P1" |} in
  exists owner value out emitted,
    In (Routes.metafieldsSet owner value)
      [Routes.discountAutomaticAppCreate "Offer" "fn1";
       Routes.metafieldsSet "gid://shopify/Shop/1"
         (Store.metafieldValue [Spec.upserted "9001" ["P1"] (Fin 15)])]
    /\ Extension.cartLinesDiscountsGenerateRun StandIn.decimal
         Spec.noJsonText
         {| Extension.lines := [line]; Extension.jsonValue := Some value |}
       = Normal {| Extension.operations := Spec.operationsOf out |}
    /\ Spec.entriesFor "gid://shopify/CartLine/1" out
       = [ {| Extension.cartLine_id := "gid://shopify/CartLine/1";
              Extension.percentage_value := emitted |} ]
    /\ le (Number StandIn.decimal "15") emitted = true.
Proof.
  intros line.
  apply (saved_discount_takes_effect StandIn.noEscape StandIn.unescaped
           StandIn.decimal Spec.noJsonText "Offer" "15" ["P1"]
           {| Routes.shop_id := Some "gid://shopify/Shop/1";
              Routes.shop_jsonValue := None |}
           [] _ [line] line "P1").
  - left. reflexivity.
  - discriminate.
  - apply (bool_decide_unpack _). vm_compute. exact I.
  - left. reflexivity.
  - reflexivity.
  - simpl. lia.
  - left. exists (Some "fn1"),
      (Some {| Routes.userErrors := []; Routes.discountId := Some "9001" |}),
      "/app/discount/fn1/9001".
    reflexivity.
Defined.

(** ** The product picker *)

(** X21.  Ticking a product's box makes that product selected, unticking
    it makes it unselected (every copy of its id goes), and neither
    changes whether any other product is selected. *)
Theorem picker_toggle (current : list string) (product_id : string)
    (checked : bool) (other : string) :
  Picker.isChecked (Picker.onChange current product_id checked) other
  = if String.eqb other product_id then checked
    else Picker.isChecked current other.
Proof.
  unfold Picker.isChecked, Picker.onChange. destruct checked.
  - rewrite existsb_app. simpl. rewrite orb_false_r.
    destruct (String.eqb other product_id);
      [apply orb_true_r|apply orb_false_r].
  - induction current as [|id rest IH]; simpl.
    + destruct (String.eqb other product_id); reflexivity.
    + destruct (String.eqb id product_id) eqn:Hid; simpl.
      * rewrite IH. apply String.eqb_eq in Hid. subst id.
        destruct (String.eqb other product_id); reflexivity.
      * rewrite IH.
        destruct (String.eqb other product_id) eqn:Hother;
          [|reflexivity].
        apply String.eqb_eq in Hother. subst other.
        rewrite String.eqb_sym, Hid. reflexivity.
Qed.
